(** * HelloBuddy: settlement, withdrawal, session and registration engine

    A shallow embedding of the server side of the rewards platform:
    [server/db/database.js] (schema, batches), [server/middleware/auth.js]
    (session middleware), [server/routes/auth.js] (registration, whoami),
    [routes/user.js] (submit-click, withdraw) and [routes/admin.js]
    (withdrawal processing).

    Conventions of the model.
    - A table is the list of its rows; [SELECT .. WHERE] is [filter],
      [UPDATE .. WHERE] is a [map] that rewrites the matching rows,
      [DELETE .. WHERE] is a [filter] on the negated condition and [INSERT]
      appends a row after checking the declared constraints.
    - Money columns ([DECIMAL(_,2)]) are integers counting hundredths of a
      rupee. A number of a request body is a rational, in hundredths too,
      and is rounded when a statement stores it ([to_decimal]). The binary
      rounding of JavaScript numbers and of the engine's DOUBLE arithmetic
      is left out: numbers are the rationals they are written as. The
      range of [DECIMAL(10,2)] is not modelled.
    - Timestamps are integer seconds; [NOW()] is an argument of the handler.
    - A handler takes the store and returns its response with the new store.
      [rollback] returns the store the transaction started from.
    - Rows carry no [created_at] and no [updated_at]: the engine sets them
      on every write. Strings are taken to fit their columns. *)

From Stdlib Require Import ZArith List String Ascii Bool Lia QArith Qround.
From Stdlib Require OrderedTypeEx.
Import ListNotations.
Open Scope string_scope.
Open Scope Z_scope.

(** ** Rows of the schema ([createTables], database.js) *)

Inductive engagement := like | like_comment | like_comment_share | vip.

Inductive wmethod := paytm | amazon | phonepe.

Inductive wstatus := pending | approved | declined.

(** The profile columns of [users]: [full_name] and [phone] are NOT NULL,
    the others nullable. *)
Record profile_columns := mkProfile {
  pf_full_name : string;
  pf_phone : string;
  pf_facebook_id : option string;
  pf_twitter_id : option string;
  pf_linkedin_id : option string;
  pf_city : option string;
  pf_date_of_birth : option string;
  pf_website : option string
}.

Record user_row := mkUser {
  u_id : Z;
  u_email : string;
  u_instagram_id : string;
  u_batch_letter : string;
  u_earnings : Z;
  u_is_verified : bool;
  u_is_admin : bool;
  u_permanent_login_code : option string;
  u_profile : profile_columns
}.

Record session_row := mkSession {
  s_id : string;
  s_user_id : Z;
  s_expires_at : Z
}.

Record post_row := mkPost {
  p_id : Z;
  p_engagement_type : engagement;
  p_reward_amount : Z;
  p_is_active : bool;
  p_click_count : option Z;
  p_click_limit : option Z;
  p_auto_delete_enabled : bool
}.

Record click_row := mkClick {
  c_id : Z;
  c_user_id : Z;
  c_post_id : Z;
  c_reward_amount : Z
}.

Record withdrawal_row := mkWithdrawal {
  w_id : Z;
  w_user_id : Z;
  w_amount : Z;
  w_method : wmethod;
  w_account_details : string;
  w_status : wstatus;
  w_admin_notes : option string;
  w_processed_at : option Z
}.

Record batch_row := mkBatch {
  b_letter : string;
  b_user_count : Z;
  b_is_active : bool
}.

(** The store: the tables and the AUTO_INCREMENT counters of the tables
    whose generated ids are read back. *)
Record db := mkDb {
  users : list user_row;
  sessions : list session_row;
  posts : list post_row;
  user_clicks : list click_row;
  withdrawals : list withdrawal_row;
  batches : list batch_row;
  next_user_id : Z;
  next_click_id : Z;
  next_withdrawal_id : Z
}.

(** ** SQL statements on a table *)

Definition select_where {A : Type} (cond : A -> bool) (t : list A) : list A :=
  filter cond t.

Definition update_where {A : Type} (cond : A -> bool) (set : A -> A)
    (t : list A) : list A :=
  map (fun r => if cond r then set r else r) t.

Definition delete_where {A : Type} (cond : A -> bool) (t : list A) : list A :=
  filter (fun r => negb (cond r)) t.

Definition with_users (d : db) (t : list user_row) : db :=
  mkDb t (sessions d) (posts d) (user_clicks d) (withdrawals d) (batches d)
       (next_user_id d) (next_click_id d) (next_withdrawal_id d).

Definition with_sessions (d : db) (t : list session_row) : db :=
  mkDb (users d) t (posts d) (user_clicks d) (withdrawals d) (batches d)
       (next_user_id d) (next_click_id d) (next_withdrawal_id d).

Definition with_posts (d : db) (t : list post_row) : db :=
  mkDb (users d) (sessions d) t (user_clicks d) (withdrawals d) (batches d)
       (next_user_id d) (next_click_id d) (next_withdrawal_id d).

Definition with_user_clicks (d : db) (t : list click_row) : db :=
  mkDb (users d) (sessions d) (posts d) t (withdrawals d) (batches d)
       (next_user_id d) (next_click_id d) (next_withdrawal_id d).

Definition with_withdrawals (d : db) (t : list withdrawal_row) : db :=
  mkDb (users d) (sessions d) (posts d) (user_clicks d) t (batches d)
       (next_user_id d) (next_click_id d) (next_withdrawal_id d).

Definition with_batches (d : db) (t : list batch_row) : db :=
  mkDb (users d) (sessions d) (posts d) (user_clicks d) (withdrawals d) t
       (next_user_id d) (next_click_id d) (next_withdrawal_id d).

(** Row setters used by the UPDATE statements. *)

(** What storing a number in a [DECIMAL(_,2)] column keeps of it, in
    hundredths: the nearest hundredth, a half rounded away from zero. *)
Definition to_decimal (x : Q) : Z :=
  if Qle_bool 0 x then Qfloor (x + (1 # 2))
  else - Qfloor (- x + (1 # 2)).

(** [x < y] on numbers. *)
Definition Qlt_b (x y : Q) : bool := negb (Qle_bool y x).

Definition set_earnings (e : Z) (u : user_row) : user_row :=
  mkUser (u_id u) (u_email u) (u_instagram_id u) (u_batch_letter u)
         e (u_is_verified u) (u_is_admin u)
         (u_permanent_login_code u) (u_profile u).

Definition credit (amount : Z) (u : user_row) : user_row :=
  mkUser (u_id u) (u_email u) (u_instagram_id u) (u_batch_letter u)
         (u_earnings u + amount) (u_is_verified u) (u_is_admin u)
         (u_permanent_login_code u) (u_profile u).

Definition set_click_count (n : Z) (p : post_row) : post_row :=
  mkPost (p_id p) (p_engagement_type p) (p_reward_amount p) (p_is_active p)
         (Some n) (p_click_limit p) (p_auto_delete_enabled p).

Definition set_expires_at (t : Z) (s : session_row) : session_row :=
  mkSession (s_id s) (s_user_id s) t.

Definition set_resolution (st : wstatus) (notes : option string) (t : Z)
    (w : withdrawal_row) : withdrawal_row :=
  mkWithdrawal (w_id w) (w_user_id w) (w_amount w) (w_method w)
               (w_account_details w) st notes (Some t).

Definition bump_user_count (b : batch_row) : batch_row :=
  mkBatch (b_letter b) (b_user_count b + 1) (b_is_active b).

(** Point lookups used to state properties. *)

Definition user_by_id (d : db) (uid : Z) : option user_row :=
  find (fun u => u_id u =? uid) (users d).

Definition balance_of (d : db) (uid : Z) : option Z :=
  option_map u_earnings (user_by_id d uid).

Definition post_by_id (d : db) (pid : Z) : option post_row :=
  find (fun p => p_id p =? pid) (posts d).

Definition clicks_of_pair (d : db) (uid pid : Z) : list click_row :=
  select_where (fun c => (c_user_id c =? uid) && (c_post_id c =? pid))
               (user_clicks d).

Definition clicks_of_post (d : db) (pid : Z) : list click_row :=
  select_where (fun c => c_post_id c =? pid) (user_clicks d).

Definition withdrawal_by_id (d : db) (wid : Z) : option withdrawal_row :=
  find (fun w => w_id w =? wid) (withdrawals d).

Definition session_by_id (d : db) (sid : string) : option session_row :=
  find (fun s => String.eqb (s_id s) sid) (sessions d).

(** ** Settlement: POST /submit-click (routes/user.js) *)

(** The JSON body. Only [postId] is destructured and used; [socialLink],
    [autoApprove] and any further field the client sends ([extra], e.g. a
    claimed reward) ride along. [postId = None] is an absent or null field. *)
Record click_body := mkClickBody {
  postId : option Z;
  socialLink : option string;
  autoApprove : option bool;
  extra : list (string * string)
}.

Inductive click_response :=
| ClickPostIdRequired                   (* 400 'Post ID is required' *)
| ClickPostNotFound                     (* 404 'Post not found' *)
| ClickPostInactive                     (* 400 'This post is no longer active' *)
| ClickAlreadySubmitted                 (* 400 'You have already submitted this task' *)
| ClickFailed                           (* 500 'Failed to submit task' *)
| ClickOk (clickId : Z) (reward : Z) (autoDeleted : bool) (et : engagement).

Definition click_status (r : click_response) : Z :=
  match r with
  | ClickPostIdRequired => 400
  | ClickPostNotFound => 404
  | ClickPostInactive => 400
  | ClickAlreadySubmitted => 400
  | ClickFailed => 500
  | ClickOk _ _ _ _ => 200
  end.

(** JavaScript truthiness of a nullable number: [null] and [0] are falsy. *)
Definition truthy_num (v : option Z) : option Z :=
  match v with
  | Some n => if n =? 0 then None else Some n
  | None => None
  end.

(** [x || 0] on a nullable number. *)
Definition or_zero (v : option Z) : Z :=
  match v with Some n => n | None => 0 end.

(** [INSERT INTO user_clicks (user_id, post_id, reward_amount, clicked_at)].
    The statement throws when [unique_user_post] or one of the two foreign
    keys is violated. Otherwise the row gets the next AUTO_INCREMENT id. *)
Definition insert_user_click (uid pid reward : Z) (d : db) : option (Z * db) :=
  if existsb (fun c => (c_user_id c =? uid) && (c_post_id c =? pid))
             (user_clicks d)
  then None
  else if negb (existsb (fun u => u_id u =? uid) (users d)) then None
  else if negb (existsb (fun p => p_id p =? pid) (posts d)) then None
  else
    let cid := next_click_id d in
    Some (cid,
          mkDb (users d) (sessions d) (posts d)
               (user_clicks d ++ [mkClick cid uid pid reward])
               (withdrawals d) (batches d)
               (next_user_id d) (cid + 1) (next_withdrawal_id d)).

(** [post.auto_delete_enabled && post.click_limit] and then
    [newClickCount >= post.click_limit]. *)
Definition limit_reached (post : post_row) (newClickCount : Z) : bool :=
  match truthy_num (p_click_limit post) with
  | Some limit => p_auto_delete_enabled post && (newClickCount >=? limit)
  | None => false
  end.

Definition submit_click (userId : Z) (body : click_body) (d : db)
    : click_response * db :=
  match truthy_num (postId body) with
  | None => (ClickPostIdRequired, d)
  | Some pid =>
    match select_where (fun p => p_id p =? pid) (posts d) with
    | [] => (ClickPostNotFound, d)
    | post :: _ =>
      if negb (p_is_active post) then (ClickPostInactive, d)
      else
        match clicks_of_pair d userId pid with
        | _ :: _ => (ClickAlreadySubmitted, d)
        | [] =>
          match insert_user_click userId pid (p_reward_amount post) d with
          | None => (ClickFailed, d)
          | Some (insertId, d1) =>
            let d2 :=
              with_users d1
                (update_where (fun u => u_id u =? userId)
                              (credit (p_reward_amount post)) (users d1)) in
            let newClickCount := or_zero (p_click_count post) + 1 in
            let d3 :=
              with_posts d2
                (update_where (fun p => p_id p =? pid)
                              (set_click_count newClickCount) (posts d2)) in
            let deleting := limit_reached post newClickCount in
            let d4 :=
              if deleting then
                let d' :=
                  with_user_clicks d3
                    (delete_where (fun c => c_post_id c =? pid)
                                  (user_clicks d3)) in
                with_posts d' (delete_where (fun p => p_id p =? pid) (posts d'))
              else d3 in
            (ClickOk insertId (p_reward_amount post) deleting
                     (p_engagement_type post), d4)
          end
        end
    end
  end.

(** Successive settlements of the same post by a list of users. *)
Fixpoint submit_all (us : list Z) (pid : Z) (d : db)
    : list click_response * db :=
  match us with
  | [] => ([], d)
  | u :: rest =>
      let '(r, d1) := submit_click u (mkClickBody (Some pid) None None []) d in
      let '(rs, d2) := submit_all rest pid d1 in
      (r :: rs, d2)
  end.

(** ** Withdrawal request: POST /withdraw (routes/user.js) *)

(** The [amount] field after [!amount] and [parseFloat(amount)]:
    a falsy value (absent, null, 0, empty string), a truthy value that does
    not parse ([NaN]), or a truthy value that parses to a number: any
    rational, counted in hundredths ([1 # 2] is 0.005). *)
Inductive amount_field :=
| AmountFalsy
| AmountNaN
| AmountNum (hundredths : Q).

Arguments AmountNum hundredths%_Q.

(** [method] and [accountDetails] are strings; an absent field is the empty
    string, which is falsy as well. *)
Record withdraw_body := mkWithdrawBody {
  method : string;
  amount : amount_field;
  accountDetails : string
}.

Inductive withdraw_response :=
| WdFieldsRequired                      (* 400 'All fields are required' *)
| WdInvalidAmount                       (* 400 'Invalid amount' *)
| WdBelowMinimum (minimum : Z)          (* 400 'Minimum withdrawal amount for ..' *)
| WdUserNotFound                        (* 404 'User not found' *)
| WdInsufficientBalance                 (* 400 'Insufficient balance' *)
| WdFailed                              (* 500 'Withdrawal request failed..' *)
| WdOk (amount : Q) (method : string).

Arguments WdOk amount%_Q method%_string.

Definition withdraw_status (r : withdraw_response) : Z :=
  match r with
  | WdFieldsRequired => 400
  | WdInvalidAmount => 400
  | WdBelowMinimum _ => 400
  | WdUserNotFound => 404
  | WdInsufficientBalance => 400
  | WdFailed => 500
  | WdOk _ _ => 200
  end.

(** [const minAmounts = { amazon: 100, phonepe: 500 }], in hundredths.
    Any other key reads [undefined]. *)
Definition minAmounts (m : string) : option Z :=
  if String.eqb m "amazon" then Some 10000
  else if String.eqb m "phonepe" then Some 50000
  else None.

(** [withdrawalAmount < minAmounts[method]]: a comparison with [undefined]
    is false. *)
Definition below_minimum (a : Q) (m : string) : option Z :=
  match minAmounts m with
  | Some least => if Qlt_b a (inject_Z least) then Some least else None
  | None => None
  end.

(** Column [method ENUM('paytm', 'amazon', 'phonepe') NOT NULL]. *)
Definition method_of_string (m : string) : option wmethod :=
  if String.eqb m "paytm" then Some paytm
  else if String.eqb m "amazon" then Some amazon
  else if String.eqb m "phonepe" then Some phonepe
  else None.

(** [UPDATE users SET earnings = earnings - ?] with the number of the
    request: the column keeps the difference rounded. *)
Definition withdrawn (amount : Q) (u : user_row) : user_row :=
  set_earnings (to_decimal (inject_Z (u_earnings u) - amount)) u.

(** [INSERT INTO withdrawals (user_id, amount, method, account_details,
    status, created_at) VALUES (?, ?, ?, ?, 'pending', NOW())]. The statement
    throws on a method outside the enumeration and on a missing user; the
    column [amount] keeps the number rounded. *)
Definition insert_withdrawal (uid : Z) (a : Q) (m details : string) (d : db)
    : option db :=
  match method_of_string m with
  | None => None
  | Some wm =>
    if negb (existsb (fun u => u_id u =? uid) (users d)) then None
    else
      let wid := next_withdrawal_id d in
      Some (mkDb (users d) (sessions d) (posts d) (user_clicks d)
                 (withdrawals d ++
                    [mkWithdrawal wid uid (to_decimal a) wm details pending
                                  None None])
                 (batches d)
                 (next_user_id d) (next_click_id d) (wid + 1))
  end.

Definition amount_is_falsy (a : amount_field) : bool :=
  match a with AmountFalsy => true | _ => false end.

(** [parseFloat(amount)]; [None] is [NaN]. *)
Definition parseFloat (a : amount_field) : option Q :=
  match a with AmountNum h => Some h | _ => None end.

Definition withdraw (userId : Z) (body : withdraw_body) (d : db)
    : withdraw_response * db :=
  if String.eqb (method body) "" || amount_is_falsy (amount body)
     || String.eqb (accountDetails body) ""
  then (WdFieldsRequired, d)
  else
    match parseFloat (amount body) with
    | None => (WdInvalidAmount, d)
    | Some withdrawalAmount =>
      if Qle_bool withdrawalAmount 0 then (WdInvalidAmount, d)
      else
        match below_minimum withdrawalAmount (method body) with
        | Some least => (WdBelowMinimum least, d)
        | None =>
          match select_where (fun u => u_id u =? userId) (users d) with
          | [] => (WdUserNotFound, d)
          | u :: _ =>
            let currentEarnings := u_earnings u in
            if Qlt_b (inject_Z currentEarnings) withdrawalAmount
            then (WdInsufficientBalance, d)
            else
              match insert_withdrawal userId withdrawalAmount
                      (method body) (accountDetails body) d with
              | None => (WdFailed, d)
              | Some d1 =>
                (WdOk withdrawalAmount (method body),
                 with_users d1
                   (update_where (fun u => u_id u =? userId)
                                 (withdrawn withdrawalAmount) (users d1)))
              end
          end
        end
    end.

(** ** Withdrawal resolution: PUT /withdrawals/:id/process (routes/admin.js) *)

Inductive process_response :=
| ProcBadStatus                         (* 400 'Status must be either ..' *)
| ProcNotFoundOrProcessed               (* 404 'Withdrawal not found or already processed' *)
| ProcOk (id : Z) (status : wstatus) (amount : Z) (refunded : bool).

Definition process_status (r : process_response) : Z :=
  match r with
  | ProcBadStatus => 400
  | ProcNotFoundOrProcessed => 404
  | ProcOk _ _ _ _ => 200
  end.

(** [['approved', 'declined'].includes(status)] *)
Definition decision_of_string (s : string) : option wstatus :=
  if String.eqb s "approved" then Some approved
  else if String.eqb s "declined" then Some declined
  else None.

Definition is_pending (w : withdrawal_row) : bool :=
  match w_status w with pending => true | _ => false end.

Definition is_declined (st : wstatus) : bool :=
  match st with declined => true | _ => false end.

(** [notes || null] *)
Definition notes_or_null (notes : option string) : option string :=
  match notes with
  | Some n => if String.eqb n "" then None else Some n
  | None => None
  end.

(** [SELECT w.*, .. FROM withdrawals w JOIN users u ON w.user_id = u.id
     WHERE w.id = ? AND w.status = 'pending'] *)
Definition pending_withdrawal (id : Z) (d : db) : list withdrawal_row :=
  select_where
    (fun w => (w_id w =? id) && is_pending w &&
              existsb (fun u => u_id u =? w_user_id w) (users d))
    (withdrawals d).

Definition process_withdrawal (id : Z) (status : string)
    (notes : option string) (now : Z) (d : db) : process_response * db :=
  match decision_of_string status with
  | None => (ProcBadStatus, d)
  | Some st =>
    match pending_withdrawal id d with
    | [] => (ProcNotFoundOrProcessed, d)
    | withdrawal :: _ =>
      let d1 :=
        if is_declined st then
          with_users d
            (update_where (fun u => u_id u =? w_user_id withdrawal)
                          (credit (w_amount withdrawal)) (users d))
        else d in
      let d2 :=
        with_withdrawals d1
          (update_where (fun w => w_id w =? id)
                        (set_resolution st (notes_or_null notes) now)
                        (withdrawals d1)) in
      (ProcOk id st (w_amount withdrawal) (is_declined st), d2)
    end
  end.

(** ** Sessions (middleware/auth.js, routes/user.js, routes/auth.js) *)

Record request := mkRequest {
  cookie_sessionId : option string;     (* req.cookies.sessionId *)
  authorization : option string         (* req.headers.authorization *)
}.

(** [req.user] *)
Record req_user := mkReqUser {
  ru_id : Z;
  ru_email : string;
  ru_batchLetter : string;
  ru_earnings : Z;
  ru_isVerified : bool;
  ru_isAdmin : bool
}.

Inductive auth_error :=
| NoSessionFound                        (* 401 'No session found' *)
| AuthenticationRequired                (* 401 'Authentication required' *)
| InvalidOrExpiredSession               (* 401 'Invalid or expired session' *)
| EmailVerificationRequired             (* 403 'Email verification required' *)
| AdminAccessRequired.                  (* 403 'Admin access required' *)

(** JavaScript truthiness of an optional string. *)
Definition truthy_str (v : option string) : option string :=
  match v with
  | Some s => if String.eqb s "" then None else Some s
  | None => None
  end.

(** [s.replace(pat, '')] with a string pattern: the first occurrence goes. *)
Fixpoint remove_first (pat s : string) : string :=
  if prefix pat s
  then substring (String.length pat) (String.length s - String.length pat) s
  else match s with
       | EmptyString => EmptyString
       | String c rest => String c (remove_first pat rest)
       end.

(** [req.cookies.sessionId ||
     (req.headers.authorization &&
      req.headers.authorization.replace('Bearer ', ''))] *)
Definition cookie_or_bearer (req : request) : option string :=
  match truthy_str (cookie_sessionId req) with
  | Some sid => Some sid
  | None =>
    match truthy_str (authorization req) with
    | Some h => truthy_str (Some (remove_first "Bearer " h))
    | None => None
    end
  end.

Definition seven_days : Z := 7 * 24 * 60 * 60.

(** [SELECT s.*, u.* FROM sessions s JOIN users u ON s.user_id = u.id
     WHERE s.id = ? AND s.expires_at > NOW()] *)
Definition live_sessions (sid : string) (now : Z) (d : db)
    : list (session_row * user_row) :=
  flat_map
    (fun s =>
       if String.eqb (s_id s) sid && (s_expires_at s >? now)
       then map (fun u => (s, u))
                (select_where (fun u => u_id u =? s_user_id s) (users d))
       else [])
    (sessions d).

Definition attach_user (u : user_row) : req_user :=
  mkReqUser (u_id u) (u_email u) (u_batch_letter u) (u_earnings u)
            (u_is_verified u) (u_is_admin u).

(** [sessionMiddleware] of middleware/auth.js: reads the cookie, and on a
    live session runs
    [UPDATE sessions SET expires_at = DATE_ADD(NOW(), INTERVAL 7 DAY)
     WHERE id = ?]. *)
Definition extend_session (sid : string) (now : Z) (d : db) : db :=
  with_sessions d
    (update_where (fun s => String.eqb (s_id s) sid)
                  (set_expires_at (now + seven_days)) (sessions d)).

Definition sessionMiddleware (now : Z) (req : request) (d : db)
    : (auth_error + req_user) * db :=
  match truthy_str (cookie_sessionId req) with
  | None => (inl NoSessionFound, d)
  | Some sid =>
    match live_sessions sid now d with
    | [] => (inl InvalidOrExpiredSession, d)
    | (_, u) :: _ => (inr (attach_user u), extend_session sid now d)
    end
  end.

(** The revision of [sessionMiddleware] that goes with the login handlers
    returning the session id in the response body: it reads the cookie or
    the bearer header and is otherwise the same. *)
Definition sessionMiddleware_bearer (now : Z) (req : request) (d : db)
    : (auth_error + req_user) * db :=
  match cookie_or_bearer req with
  | None => (inl NoSessionFound, d)
  | Some sid =>
    match live_sessions sid now d with
    | [] => (inl InvalidOrExpiredSession, d)
    | (_, u) :: _ => (inr (attach_user u), extend_session sid now d)
    end
  end.

(** [sessionAuth] of routes/user.js: cookie or bearer header, same lookup,
    no statement after it. *)
Definition sessionAuth (now : Z) (req : request) (d : db)
    : (auth_error + req_user) * db :=
  match cookie_or_bearer req with
  | None => (inl AuthenticationRequired, d)
  | Some sid =>
    match live_sessions sid now d with
    | [] => (inl InvalidOrExpiredSession, d)
    | (_, u) :: _ => (inr (attach_user u), d)
    end
  end.

Definition verifiedUserMiddleware (user : req_user) : option auth_error :=
  if negb (ru_isVerified user) then Some EmailVerificationRequired else None.

Definition adminMiddleware (user : req_user) : option auth_error :=
  if negb (ru_isAdmin user) then Some AdminAccessRequired else None.


(** [app.use('/api/user', sessionMiddleware, userRoutes)] and every route of
    the user router names [sessionAuth] before its handler. *)
Definition api_user {R : Type} (now : Z) (req : request)
    (handler : req_user -> db -> R * db) (d : db) : (auth_error + R) * db :=
  match sessionMiddleware now req d with
  | (inl e, d1) => (inl e, d1)
  | (inr _, d1) =>
    match sessionAuth now req d1 with
    | (inl e, d2) => (inl e, d2)
    | (inr user, d2) =>
      let '(r, d3) := handler user d2 in (inr r, d3)
    end
  end.

(** [app.use('/api/admin', sessionMiddleware, adminRoutes)] and the admin
    router opens with [router.use(sessionMiddleware)],
    [router.use(verifiedUserMiddleware)], [router.use(adminMiddleware)]. *)
Definition api_admin {R : Type} (now : Z) (req : request)
    (handler : req_user -> db -> R * db) (d : db) : (auth_error + R) * db :=
  match sessionMiddleware now req d with
  | (inl e, d1) => (inl e, d1)
  | (inr _, d1) =>
    match sessionMiddleware now req d1 with
    | (inl e, d2) => (inl e, d2)
    | (inr user, d2) =>
      match verifiedUserMiddleware user with
      | Some e => (inl e, d2)
      | None =>
        match adminMiddleware user with
        | Some e => (inl e, d2)
        | None => let '(r, d3) := handler user d2 in (inr r, d3)
        end
      end
    end
  end.

Definition api_user_submit_click (now : Z) (req : request) (body : click_body)
    : db -> (auth_error + click_response) * db :=
  api_user now req (fun user => submit_click (ru_id user) body).

Definition api_user_withdraw (now : Z) (req : request) (body : withdraw_body)
    : db -> (auth_error + withdraw_response) * db :=
  api_user now req (fun user => withdraw (ru_id user) body).

Definition api_admin_process (now : Z) (req : request) (id : Z)
    (status : string) (notes : option string)
    : db -> (auth_error + process_response) * db :=
  api_admin now req (fun _ => process_withdrawal id status notes now).

(** ** Permanent codes and batches (routes/auth.js, db/database.js) *)

Definition digit_char (n : N) : ascii := ascii_of_N (48 + n).

(** Decimal printing of a non-negative integer ([Number.prototype.toString]
    on the integers it is applied to here). The fuel, the binary length of
    the number, covers every decimal digit. *)
Fixpoint to_string_aux (fuel : nat) (n : N) (acc : string) : string :=
  let acc' := String (digit_char (n mod 10)) acc in
  match fuel with
  | O => acc'
  | S f => if (n / 10 =? 0)%N then acc' else to_string_aux f (n / 10) acc'
  end.

Definition toString (n : N) : string :=
  to_string_aux (N.to_nat (N.log2 n)) n "".

(** [s.slice(-k)]: the last [k] characters, the whole string when shorter. *)
Definition slice_last (k : nat) (s : string) : string :=
  substring (String.length s - k) k s.

Fixpoint repeat_char (c : ascii) (n : nat) : string :=
  match n with
  | O => EmptyString
  | S m => String c (repeat_char c m)
  end.

(** [s.padStart(k, c)] with a one-character filler. *)
Definition padStart (k : nat) (c : ascii) (s : string) : string :=
  (repeat_char c (k - String.length s) ++ s)%string.

(** [generateUniquePermanentCode]: [now_ms] is [Date.now()] and [rnd] is
    [Math.floor(Math.random() * 100)], a number from 0 to 99. *)
Definition generateUniquePermanentCode (now_ms rnd : N) : string :=
  let timestamp := slice_last 4 (toString now_ms) in
  let random := padStart 2 "0"%char (toString rnd) in
  (timestamp ++ random)%string.

(** [ORDER BY letter .. LIMIT 1]: the row whose letter is first under
    [before]. Letters are compared as byte strings, which is the table's
    collation order on labels made of capital letters. *)
Definition first_by (before : string -> string -> bool) (t : list batch_row)
    : option batch_row :=
  fold_left
    (fun best b =>
       match best with
       | None => Some b
       | Some a => if before (b_letter b) (b_letter a) then Some b else Some a
       end)
    t None.

Definition order_by_letter_asc_limit1 : list batch_row -> option batch_row :=
  first_by String.ltb.

Definition order_by_letter_desc_limit1 : list batch_row -> option batch_row :=
  first_by (fun x y => String.ltb y x).

(** [String.fromCharCode(s.charCodeAt(0) + 1)] on a non-empty label. *)
Definition next_char (c : ascii) : string :=
  String (ascii_of_N (N_of_ascii c + 1)) EmptyString.

(** [INSERT IGNORE INTO batches (letter, user_count, is_active)
     VALUES (?, 0, TRUE)]: a taken primary key leaves the table as it is. *)
Definition insert_ignore_batch (letter : string) (d : db) : db :=
  if existsb (fun b => String.eqb (b_letter b) letter) (batches d) then d
  else with_batches d (batches d ++ [mkBatch letter 0 true]).

(** [getNextBatch] of routes/auth.js, the allocator registration calls. *)
Definition getNextBatch (d : db) : string * db :=
  match order_by_letter_asc_limit1
          (select_where (fun b => b_is_active b && (b_user_count b <? 1000))
                        (batches d)) with
  | Some b => (b_letter b, d)
  | None =>
    let nextLetter :=
      match order_by_letter_desc_limit1 (batches d) with
      | Some lastBatch =>
          match b_letter lastBatch with
          | String c _ => next_char c
          | EmptyString => String zero EmptyString
          end
      | None => "A"
      end in
    (nextLetter, insert_ignore_batch nextLetter d)
  end.

(** The last character and what precedes it ([slice(0, -1)]). *)
Fixpoint split_last (s : string) : option (string * ascii) :=
  match s with
  | EmptyString => None
  | String c rest =>
      match split_last rest with
      | None => Some (EmptyString, c)
      | Some (init, l) => Some (String c init, l)
      end
  end.

(** [createNextBatch] of db/database.js. A plain [INSERT] throws on a taken
    primary key and the [catch] returns ['A']. *)
Definition createNextBatch (d : db) : string * db :=
  let nextLetter :=
    match order_by_letter_desc_limit1 (batches d) with
    | Some latestBatch =>
        let lastLetter := b_letter latestBatch in
        if String.eqb lastLetter "Z" then "AA"
        else
          match split_last lastLetter with
          | Some (init, l) => (init ++ next_char l)%string
          | None => String zero EmptyString
          end
    | None => "A"
    end in
  if existsb (fun b => String.eqb (b_letter b) nextLetter) (batches d)
  then ("A", d)
  else (nextLetter, with_batches d (batches d ++ [mkBatch nextLetter 0 true])).

(** [getCurrentBatch] of db/database.js. *)
Definition getCurrentBatch (d : db) : string * db :=
  match order_by_letter_asc_limit1
          (select_where (fun b => b_is_active b && (b_user_count b <? 1000))
                        (batches d)) with
  | Some b => (b_letter b, d)
  | None => createNextBatch d
  end.

(** ** Registration: POST /register (routes/auth.js)

    The transaction of the handler, entered once the request fields have
    passed the shape checks. The verification-code table and the e-mail
    queue are not part of the store modelled here. *)

Record register_body := mkRegisterBody {
  r_email : string;
  r_instagramId : string;
  r_profile : profile_columns             (* the other fields, [x || null] *)
}.

Inductive register_response :=
| RegOk (batchLetter : string)
| RegEmailRegistered       (* 400 'Email address is already registered' *)
| RegInstagramTaken        (* 400 'Instagram username is already taken' *)
| RegConflict              (* 500 'Registration conflict. Please try again.' *)
| RegFailed.               (* 500 'Registration failed. Please try again.' *)

Definition register_status (r : register_response) : Z :=
  match r with
  | RegOk _ => 200
  | RegEmailRegistered => 400
  | RegInstagramTaken => 400
  | RegConflict => 500
  | RegFailed => 500
  end.

(** The unique keys of [users] an INSERT can trip over. *)
Inductive dup_entry := DupEmail | DupPermanentLoginCode.

Definition holds_code (code : string) (u : user_row) : bool :=
  match u_permanent_login_code u with
  | Some c => String.eqb c code
  | None => false
  end.

(** [INSERT INTO users (.., batch_letter, is_verified, permanent_login_code,
    earnings, ..) VALUES (.., ?, FALSE, ?, 0, NOW())] under
    [email .. UNIQUE] and [permanent_login_code VARCHAR(6) UNIQUE]. *)
Definition insert_user (email instagram batchLetter permanentCode : string)
    (profile : profile_columns) (d : db) : dup_entry + db :=
  if existsb (fun u => String.eqb (u_email u) email) (users d)
  then inl DupEmail
  else if existsb (holds_code permanentCode) (users d)
  then inl DupPermanentLoginCode
  else
    let uid := next_user_id d in
    inr (mkDb (users d ++
                 [mkUser uid email instagram batchLetter 0 false false
                         (Some permanentCode) profile])
              (sessions d) (posts d) (user_clicks d) (withdrawals d)
              (batches d)
              (uid + 1) (next_click_id d) (next_withdrawal_id d)).

(** [DELETE FROM users WHERE id = ?] with the [ON DELETE CASCADE] foreign
    keys of sessions, user_clicks and withdrawals. *)
Definition delete_user (uid : Z) (d : db) : db :=
  mkDb (delete_where (fun u => u_id u =? uid) (users d))
       (delete_where (fun s => s_user_id s =? uid) (sessions d))
       (posts d)
       (delete_where (fun c => c_user_id c =? uid) (user_clicks d))
       (delete_where (fun w => w_user_id w =? uid) (withdrawals d))
       (batches d)
       (next_user_id d) (next_click_id d) (next_withdrawal_id d).

(** [MAX(CASE WHEN email = ? AND is_verified = FALSE THEN id END)] *)
Definition unverified_id (email : string) (d : db) : option Z :=
  fold_left
    (fun best u =>
       if String.eqb (u_email u) email && negb (u_is_verified u)
       then match best with
            | None => Some (u_id u)
            | Some m => Some (Z.max m (u_id u))
            end
       else best)
    (users d) None.

Definition register (body : register_body) (now_ms rnd : N) (d : db)
    : register_response * db :=
  let email := r_email body in
  let instagramId := r_instagramId body in
  let verified_email_count :=
    List.length
      (select_where (fun u => String.eqb (u_email u) email && u_is_verified u)
                    (users d)) in
  let instagram_count :=
    List.length
      (select_where (fun u => String.eqb (u_instagram_id u) instagramId)
                    (users d)) in
  if (0 <? verified_email_count)%nat then (RegEmailRegistered, d)
  else if (0 <? instagram_count)%nat then (RegInstagramTaken, d)
  else
    let d1 :=
      match truthy_num (unverified_id email d) with
      | Some uid => delete_user uid d
      | None => d
      end in
    let '(batchLetter, d2) := getNextBatch d1 in
    let permanentCode := generateUniquePermanentCode now_ms rnd in
    match insert_user email instagramId batchLetter permanentCode
                      (r_profile body) d2 with
    | inl DupEmail => (RegEmailRegistered, d)
    | inl DupPermanentLoginCode => (RegConflict, d)
    | inr d3 =>
      (RegOk batchLetter,
       with_batches d3
         (update_where (fun b => String.eqb (b_letter b) batchLetter)
                       bump_user_count (batches d3)))
    end.

(** Successive registrations. *)
Fixpoint register_all (rs : list (register_body * N * N)) (d : db) : db :=
  match rs with
  | [] => d
  | (body, now_ms, rnd) :: rest =>
      register_all rest (snd (register body now_ms rnd d))
  end.

(** ** The client-side form check (pages/user/WithdrawEarnings.tsx)

    [handleSubmit] validates the form in the browser before anything is
    sent. Amounts are in hundredths; [earnings] is the balance the page
    holds for the signed-in user. *)

Definition MIN_WITHDRAWAL_AMOUNT : Z := 3000.

(** [WITHDRAWAL_METHODS.find(m => m.id === selectedMethod)?.minAmount] *)
Definition method_minAmount (m : string) : option Z :=
  if String.eqb m "paytm" then Some 3000
  else if String.eqb m "amazon" then Some 10000
  else if String.eqb m "phonepe" then Some 50000
  else None.

Definition is_digit (c : ascii) : bool :=
  let n := N_of_ascii c in ((48 <=? n) && (n <=? 57))%N.

Fixpoint all_chars (f : ascii -> bool) (s : string) : bool :=
  match s with
  | EmptyString => true
  | String c rest => f c && all_chars f rest
  end.

Fixpoint includes_char (c : ascii) (s : string) : bool :=
  match s with
  | EmptyString => false
  | String x rest => Ascii.eqb x c || includes_char c rest
  end.

(** [/^\d{10}$/.test(s)] *)
Definition ten_digits (s : string) : bool :=
  Nat.eqb (String.length s) 10 && all_chars is_digit s.

(** The two format checks of [handleSubmit]: an ['@'] for amazon, ten
    digits for phonepe and paytm. *)
Definition destination_shape_ok (m details : string) : bool :=
  if String.eqb m "amazon" then includes_char "@"%char details
  else if String.eqb m "phonepe" || String.eqb m "paytm"
  then ten_digits details
  else true.

Definition handleSubmit_accepts (m : string) (a : option Q) (details : string)
    (earnings : Z) : bool :=
  if String.eqb m "" then false
  else
    match a with
    | None => false
    | Some withdrawalAmount =>
      if Qle_bool withdrawalAmount 0 then false
      else if Qlt_b withdrawalAmount (inject_Z MIN_WITHDRAWAL_AMOUNT) then false
      else
        match method_minAmount m with
        | None => false
        | Some least =>
          if Qlt_b withdrawalAmount (inject_Z least) then false
          else if Qlt_b (inject_Z earnings) withdrawalAmount then false
          else if String.eqb details "" then false
          else destination_shape_ok m details
        end
    end.

(** ** Predicates used in the statements *)

(** The uniqueness constraint [unique_user_post] as a property of a store. *)
Definition unique_user_post (d : db) : Prop :=
  NoDup (map (fun c => (c_user_id c, c_post_id c)) (user_clicks d)).

(** What a successful settlement writes, table by table. *)
Record settled (u pid : Z) (post : post_row) (del : bool) (d d' : db) : Prop := {
  st_users :
    users d' = update_where (fun v => u_id v =? u)
                            (credit (p_reward_amount post)) (users d);
  st_posts :
    posts d' =
      let bumped :=
        update_where (fun p => p_id p =? pid)
                     (set_click_count (or_zero (p_click_count post) + 1))
                     (posts d) in
      if del then delete_where (fun p => p_id p =? pid) bumped else bumped;
  st_clicks :
    user_clicks d' =
      let added :=
        (user_clicks d ++
           [mkClick (next_click_id d) u pid (p_reward_amount post)])%list in
      if del then delete_where (fun c => c_post_id c =? pid) added else added;
  st_sessions : sessions d' = sessions d;
  st_withdrawals : withdrawals d' = withdrawals d;
  st_batches : batches d' = batches d;
  st_next_withdrawal_id : next_withdrawal_id d' = next_withdrawal_id d
}.

(** A settlement that answers 200 without retiring the post. *)
Definition settled_in_place (post : post_row) (r : click_response) : Prop :=
  exists id,
    r = ClickOk id (p_reward_amount post) false (p_engagement_type post).

Definition registered (d : db) (uid : Z) : Prop :=
  user_by_id d uid <> None.

(** The AUTO_INCREMENT counter of [withdrawals] is above every stored id. *)
Definition withdrawal_ids_fresh (d : db) : bool :=
  forallb (fun w => w_id w <? next_withdrawal_id d) (withdrawals d).

(** What an accepted withdrawal request writes. *)
Record requested (uid : Z) (a : Q) (wm : wmethod) (details : string)
    (d d' : db) : Prop := {
  rq_users :
    users d' = update_where (fun v => u_id v =? uid) (withdrawn a) (users d);
  rq_withdrawals :
    withdrawals d' =
      (withdrawals d ++
         [mkWithdrawal (next_withdrawal_id d) uid (to_decimal a) wm details
                       pending None None])%list;
  rq_sessions : sessions d' = sessions d;
  rq_posts : posts d' = posts d;
  rq_user_clicks : user_clicks d' = user_clicks d;
  rq_batches : batches d' = batches d;
  rq_next_withdrawal_id : next_withdrawal_id d' = next_withdrawal_id d + 1
}.

(** A request that presents, in its cookie, the id of a stored session that
    has not expired and whose user exists. *)
Record valid_session (req : request) (now : Z) (d : db) (sid : string)
    (s : session_row) (u : user_row) : Prop := {
  vs_cookie : cookie_sessionId req = Some sid;
  vs_non_empty : sid <> "";
  vs_stored : session_by_id d sid = Some s;
  vs_live : now < s_expires_at s;
  vs_user : user_by_id d (s_user_id s) = Some u
}.

Definition expiry_of (d : db) (sid : string) : option Z :=
  option_map s_expires_at (session_by_id d sid).

(** The non-null permanent codes held by the stored users. *)
Definition codes_of_rows (t : list user_row) : list string :=
  flat_map (fun u => match u_permanent_login_code u with
                     | Some c => [c]
                     | None => []
                     end)
           t.

Definition permanent_codes (d : db) : list string := codes_of_rows (users d).

(** The constraint [permanent_login_code VARCHAR(6) UNIQUE] as a property
    of a store. *)
Definition unique_permanent_codes (d : db) : Prop := NoDup (permanent_codes d).

(** The primary key of [users]. *)
Definition unique_user_ids (d : db) : Prop := NoDup (map u_id (users d)).

Definition has_room (b : batch_row) : bool :=
  b_is_active b && (b_user_count b <? 1000).

(** The AUTO_INCREMENT counter of [users] is above every stored id. *)
Definition user_ids_fresh (d : db) : bool :=
  forallb (fun u => u_id u <? next_user_id d) (users d).

(** ** Stores and requests used in the examples *)

Definition ex_profile (name phone : string) : profile_columns :=
  mkProfile name phone None None None None None None.

Definition ex_alice : user_row :=
  mkUser 1 "alice@example.org" "alice" "A" 20000 true false (Some "111111")
         (ex_profile "Alice" "5550102").

Definition ex_bob : user_row :=
  mkUser 2 "bob@example.org" "bob" "A" 5000 false false (Some "222222")
         (ex_profile "Bob" "5550101").

(** The administrator row [createTables] seeds. *)
Definition ex_admin : user_row :=
  mkUser 3 "admin@socialplatform.com" "admin_user" "ADMIN" 0 true true
         (Some "123456") (ex_profile "Admin User" "+1234567890").

(** Reward 0.15, click limit 2, auto-delete on. *)
Definition ex_post : post_row :=
  mkPost 7 like 15 true (Some 0) (Some 2) true.

(** The same post with a single click left. *)
Definition ex_post_last : post_row :=
  mkPost 7 like 15 true (Some 1) (Some 2) true.

(** Sessions issued at time 0, each with the seven-day expiry. *)
Definition ex_sessions : list session_row :=
  [mkSession "sess-alice" 1 604800;
   mkSession "sess-bob" 2 604800;
   mkSession "sess-admin" 3 604800].

Definition ex_db : db :=
  mkDb [ex_alice; ex_bob; ex_admin] ex_sessions [ex_post] [] []
       [mkBatch "A" 2 true] 4 1 1.

Definition ex_db_last : db :=
  mkDb [ex_alice; ex_bob; ex_admin] ex_sessions [ex_post_last] [] []
       [mkBatch "A" 2 true] 4 1 1.

Definition ex_full_batch (letter : string) : batch_row :=
  mkBatch letter 1000 true.

(** Batches A to Z, every one at capacity. *)
Definition ex_db_full : db :=
  with_batches ex_db
    (map ex_full_batch
       ["A"; "B"; "C"; "D"; "E"; "F"; "G"; "H"; "I"; "J"; "K"; "L"; "M";
        "N"; "O"; "P"; "Q"; "R"; "S"; "T"; "U"; "V"; "W"; "X"; "Y"; "Z"]).

(** A store where withdrawal 1 of the second user has been approved. *)
Definition ex_db_approved : db :=
  mkDb [ex_alice; ex_bob; ex_admin] ex_sessions [ex_post] []
       [mkWithdrawal 1 2 3000 paytm "9876543210" approved (Some "paid")
                     (Some 50)]
       [mkBatch "A" 2 true] 4 1 2.

(** A store where the same withdrawal is still pending. *)
Definition ex_db_pending : db :=
  mkDb [ex_alice; ex_bob; ex_admin] ex_sessions [ex_post] []
       [mkWithdrawal 1 2 3000 paytm "9876543210" pending None None]
       [mkBatch "A" 2 true] 4 1 2.

Definition one_day : Z := 24 * 60 * 60.

Definition ex_request_bob : request := mkRequest (Some "sess-bob") None.

Definition ex_request_bob_bearer : request :=
  mkRequest None (Some "Bearer sess-bob").

Definition ex_click_body : click_body := mkClickBody (Some 7) None None [].

(** A request body that names the example post and carries extra fields. *)
Definition ex_click_body_noisy : click_body :=
  mkClickBody (Some 7) (Some "https://example.org/p/7") (Some true)
              [("rewardAmount", "9999.00"); ("reward", "500")].

Definition ex_withdraw_body : withdraw_body :=
  mkWithdrawBody "paytm" (AmountNum 3000) "9876543210".


(** A Paytm request of one rupee. *)
Definition ex_withdraw_body_one_rupee : withdraw_body :=
  mkWithdrawBody "paytm" (AmountNum 100) "9876543210".

Definition ex_register_body : register_body :=
  mkRegisterBody "carol@example.org" "carol" (ex_profile "Carol" "5550100").

(** A reading of [Date.now()] whose last four digits are 1234. *)
Definition ex_now_ms : N := 1762128001234.

(** An Amazon gift-card request of 100.005 to an e-mail address. *)
Definition ex_withdraw_body_third_decimal : withdraw_body :=
  mkWithdrawBody "amazon" (AmountNum (20001 # 2)) "alice@example.org".

(** * The rest of the server

    The code around the settlement and withdrawal handlers: request
    validation, the verification and login flows with their code table,
    e-mail queue and login cache ([server/routes/auth.js]), the periodic
    cleanup ([server/db/database.js]) and the administrator and profile
    routes ([routes/admin.js], [routes/user.js]).

    Strings are sequences of code units below 256; the regular
    expressions are read on such strings. *)

(** ** Request validation (POST /register, PUT /profile) *)

(** [\s] on code units below 256: tab, line feed, vertical tab, form feed,
    carriage return, space and the no-break space. *)
Definition is_space (c : ascii) : bool :=
  let n := N_of_ascii c in
  ((9 <=? n) && (n <=? 13) || (n =? 32) || (n =? 160))%N.

(** [[^\s@]] *)
Definition plain_char (c : ascii) : bool :=
  negb (is_space c) && negb (Ascii.eqb c "@").

(** The string before the first [c] and the string after it. *)
Fixpoint split_first (c : ascii) (s : string) : option (string * string) :=
  match s with
  | EmptyString => None
  | String x rest =>
      if Ascii.eqb x c then Some (EmptyString, rest)
      else match split_first c rest with
           | Some (a, b) => Some (String x a, b)
           | None => None
           end
  end.

(** A ['.'] with at least one character after it. *)
Fixpoint dot_then_more (s : string) : bool :=
  match s with
  | String c (String _ _ as rest) => Ascii.eqb c "." || dot_then_more rest
  | _ => false
  end.

(** A ['.'] that is neither the first nor the last character. *)
Definition inner_dot (s : string) : bool :=
  match s with
  | EmptyString => false
  | String _ rest => dot_then_more rest
  end.

(** [/^[^\s@]+@[^\s@]+\.[^\s@]+$/.test(s)] *)
Definition emailRegex_test (s : string) : bool :=
  match split_first "@" s with
  | None => false
  | Some (a, b) =>
      negb (String.eqb a "") && all_chars plain_char a &&
      all_chars plain_char b && inner_dot b
  end.

(** [[a-zA-Z0-9._]] *)
Definition username_char (c : ascii) : bool :=
  let n := N_of_ascii c in
  ((97 <=? n) && (n <=? 122) || (65 <=? n) && (n <=? 90) ||
   (48 <=? n) && (n <=? 57) || (n =? 46) || (n =? 95))%N.

(** [/^[a-zA-Z0-9._]+$/.test(s)], the pattern of POST /register. *)
Definition usernameRegex_test (s : string) : bool :=
  negb (String.eqb s "") && all_chars username_char s.

(** [/^[a-zA-Z0-9._]*$/.test(s)], the pattern of PUT /profile. *)
Definition usernameRegex_star_test (s : string) : bool :=
  all_chars username_char s.

(** [.] matches any code unit but the line terminators. *)
Definition is_line_terminator (c : ascii) : bool :=
  let n := N_of_ascii c in ((n =? 10) || (n =? 13))%N.

Definition starts_with_then_some (p s : string) : bool :=
  prefix p s &&
  match substring (String.length p) 1 s with
  | String c _ => negb (is_line_terminator c)
  | EmptyString => false
  end.

(** [/^https?:\/\/.+/.test(s)] *)
Definition websiteRegex_test (s : string) : bool :=
  starts_with_then_some "http://" s || starts_with_then_some "https://" s.

(** The fields of the registration and profile forms; an absent field is
    the empty string. A date of birth that is given is one the DATE
    column takes. *)
Record profile_body := mkProfileBody {
  pb_email : string;
  pb_fullName : string;
  pb_phone : string;
  pb_instagramId : string;
  pb_facebookId : string;
  pb_twitterId : string;
  pb_linkedinId : string;
  pb_city : string;
  pb_dateOfBirth : string;
  pb_website : string
}.

Inductive field_error :=
| RequiredFieldsMissing   (* 'Email, full name, phone, and Instagram ID are required' *)
| InvalidEmail            (* 'Please enter a valid email address' *)
| InvalidInstagram        (* 'Instagram username can only contain ..' *)
| InvalidFacebook
| InvalidTwitter
| InvalidLinkedin
| InvalidWebsite.         (* 'Website must be a valid URL ..' *)

(** [value && !pattern.test(value)] *)
Definition given_and_fails (test : string -> bool) (v : string) : bool :=
  negb (String.eqb v "") && negb (test v).

(** The checks of POST /register before the transaction. *)
Definition register_checks (b : profile_body) : option field_error :=
  if String.eqb (pb_email b) "" || String.eqb (pb_fullName b) ""
     || String.eqb (pb_phone b) "" || String.eqb (pb_instagramId b) ""
  then Some RequiredFieldsMissing
  else if negb (emailRegex_test (pb_email b)) then Some InvalidEmail
  else if negb (usernameRegex_test (pb_instagramId b)) then Some InvalidInstagram
  else if given_and_fails usernameRegex_test (pb_facebookId b)
  then Some InvalidFacebook
  else if given_and_fails usernameRegex_test (pb_twitterId b)
  then Some InvalidTwitter
  else if given_and_fails usernameRegex_test (pb_linkedinId b)
  then Some InvalidLinkedin
  else if given_and_fails websiteRegex_test (pb_website b)
  then Some InvalidWebsite
  else None.

(** The checks of PUT /profile before the transaction: the Instagram name
    is only required to be present. *)
Definition profile_checks (b : profile_body) : option field_error :=
  if String.eqb (pb_email b) "" || String.eqb (pb_fullName b) ""
     || String.eqb (pb_phone b) "" || String.eqb (pb_instagramId b) ""
  then Some RequiredFieldsMissing
  else if negb (emailRegex_test (pb_email b)) then Some InvalidEmail
  else if given_and_fails usernameRegex_star_test (pb_facebookId b)
  then Some InvalidFacebook
  else if given_and_fails usernameRegex_star_test (pb_twitterId b)
  then Some InvalidTwitter
  else if given_and_fails usernameRegex_star_test (pb_linkedinId b)
  then Some InvalidLinkedin
  else if given_and_fails websiteRegex_test (pb_website b)
  then Some InvalidWebsite
  else None.

(** [value || null] *)
Definition or_null (v : string) : option string :=
  if String.eqb v "" then None else Some v.

(** The profile columns as POST /register and PUT /profile bind them:
    [fullName, phone, facebookId || null, twitterId || null,
     linkedinId || null, city || null, dateOfBirth || null,
     website || null]. *)
Definition profile_of (b : profile_body) : profile_columns :=
  mkProfile (pb_fullName b) (pb_phone b) (or_null (pb_facebookId b))
            (or_null (pb_twitterId b)) (or_null (pb_linkedinId b))
            (or_null (pb_city b)) (or_null (pb_dateOfBirth b))
            (or_null (pb_website b)).

(** ** Verification codes, e-mail jobs and the server state *)

Inductive code_type := for_register | for_login.

(** A row of [verification_codes]. *)
Record code_row := mkCode {
  vc_id : Z;
  vc_email : string;
  vc_code : string;
  vc_type : code_type;
  vc_expires_at : Z;
  vc_used : bool
}.

(** A row of [rate_limits]. *)
Record rate_limit_row := mkRateLimit {
  rl_id : string;
  rl_count : Z;
  rl_reset_time : Z
}.

Inductive job_type := job_verification | job_permanent | job_login.

(** An entry of [emailQueue]; [j_code] is [code] or [permanentCode]. *)
Record email_job := mkJob {
  j_id : string;
  j_type : job_type;
  j_email : string;
  j_code : option string;
  j_retries : Z
}.

(** The module state of routes/auth.js ([emailQueue], [processingEmails],
    [userCache]) with the callbacks [setImmediate] has scheduled and not
    yet finished, and the tables the flows use beside the store. *)
Record server := mkServer {
  sv_db : db;
  verification_codes : list code_row;
  next_code_id : Z;
  rate_limits : list rate_limit_row;
  emailQueue : list email_job;
  processingEmails : list string;
  in_flight : list email_job;
  userCache : list (string * user_row)
}.

Definition with_db (s : server) (d : db) : server :=
  mkServer d (verification_codes s) (next_code_id s) (rate_limits s)
           (emailQueue s) (processingEmails s) (in_flight s) (userCache s).

Definition with_codes (s : server) (t : list code_row) : server :=
  mkServer (sv_db s) t (next_code_id s) (rate_limits s)
           (emailQueue s) (processingEmails s) (in_flight s) (userCache s).

(** [emailQueue.push(job)] *)
Definition push_job (j : email_job) (s : server) : server :=
  mkServer (sv_db s) (verification_codes s) (next_code_id s) (rate_limits s)
           (emailQueue s ++ [j]) (processingEmails s) (in_flight s)
           (userCache s).

Definition with_cache (s : server) (c : list (string * user_row)) : server :=
  mkServer (sv_db s) (verification_codes s) (next_code_id s) (rate_limits s)
           (emailQueue s) (processingEmails s) (in_flight s) c.

Definition code_type_eqb (a b : code_type) : bool :=
  match a, b with
  | for_register, for_register | for_login, for_login => true
  | _, _ => false
  end.

Definition fifteen_minutes : Z := 15 * 60.
Definition ten_minutes : Z := 10 * 60.

(** [cleanupOldCodes]:
    [DELETE FROM verification_codes
     WHERE email = ? AND type = ? AND (expires_at < NOW() OR used = TRUE)] *)
Definition cleanupOldCodes (email : string) (ty : code_type) (now : Z)
    (t : list code_row) : list code_row :=
  delete_where
    (fun c => String.eqb (vc_email c) email && code_type_eqb (vc_type c) ty &&
              ((vc_expires_at c <? now) || vc_used c))
    t.

(** [INSERT INTO verification_codes (email, code, type, expires_at)] *)
Definition insert_code (email code : string) (ty : code_type) (expires : Z)
    (s : server) : server :=
  mkServer (sv_db s)
           (verification_codes s ++
              [mkCode (next_code_id s) email code ty expires false])
           (next_code_id s + 1) (rate_limits s)
           (emailQueue s) (processingEmails s) (in_flight s) (userCache s).

(** ** POST /register, the whole handler

    [verificationCode] is what [generateCode()] of utils/email returned and
    [jobId] the [uuidv4()] of the queued job. The transaction is the one of
    [register] with the two statements on the code table around it; a
    rollback undoes them too. *)

Inductive register_request_response :=
| RegRejected (e : field_error)         (* 400, before the transaction *)
| RegAnswered (r : register_response).

Definition register_request (b : profile_body) (now : Z) (now_ms rnd : N)
    (verificationCode jobId : string) (s : server)
    : register_request_response * server :=
  match register_checks b with
  | Some e => (RegRejected e, s)
  | None =>
    let cleaned :=
      cleanupOldCodes (pb_email b) for_register now (verification_codes s) in
    match register (mkRegisterBody (pb_email b) (pb_instagramId b)
                                   (profile_of b))
                   now_ms rnd (sv_db s) with
    | (RegOk batchLetter, d') =>
      let s1 := with_db (with_codes s cleaned) d' in
      let s2 := insert_code (pb_email b) verificationCode for_register
                            (now + fifteen_minutes) s1 in
      (RegAnswered (RegOk batchLetter),
       push_job (mkJob jobId job_verification (pb_email b)
                       (Some verificationCode) 0) s2)
    | (r, _) => (RegAnswered r, s)
    end
  end.

(** ** POST /verify-email *)

Inductive verify_email_response :=
| VerifyFieldsRequired      (* 400 'Email and code are required' *)
| VerifyInvalidOrExpired    (* 400 'Invalid or expired verification code' *)
| VerifyOk.                 (* 200, permanentCodeSent *)

(** [SELECT vc.id, u.id, u.permanent_login_code
     FROM verification_codes vc JOIN users u ON vc.email = u.email
     WHERE vc.email = ? AND vc.code = ? AND vc.type = 'register'
       AND vc.expires_at > NOW() AND vc.used = FALSE
       AND u.is_verified = FALSE LIMIT 1] *)
Definition open_registrations (email code : string) (now : Z) (s : server)
    : list (code_row * user_row) :=
  flat_map
    (fun vc =>
       if String.eqb (vc_email vc) email && String.eqb (vc_code vc) code &&
          code_type_eqb (vc_type vc) for_register &&
          (vc_expires_at vc >? now) && negb (vc_used vc)
       then map (fun u => (vc, u))
                (select_where
                   (fun u => String.eqb (u_email u) (vc_email vc) &&
                             negb (u_is_verified u))
                   (users (sv_db s)))
       else [])
    (verification_codes s).

Definition set_used (c : code_row) : code_row :=
  mkCode (vc_id c) (vc_email c) (vc_code c) (vc_type c) (vc_expires_at c) true.

Definition set_is_verified (v : bool) (u : user_row) : user_row :=
  mkUser (u_id u) (u_email u) (u_instagram_id u) (u_batch_letter u)
         (u_earnings u) v (u_is_admin u) (u_permanent_login_code u)
         (u_profile u).

Definition verify_email (email code : string) (now : Z) (jobId : string)
    (s : server) : verify_email_response * server :=
  if String.eqb email "" || String.eqb code "" then (VerifyFieldsRequired, s)
  else
    match open_registrations email code now s with
    | [] => (VerifyInvalidOrExpired, s)
    | (vc, u) :: _ =>
      let codes1 :=
        update_where (fun c => vc_id c =? vc_id vc) set_used
                     (verification_codes s) in
      let d1 :=
        with_users (sv_db s)
          (update_where (fun r => u_id r =? u_id u) (set_is_verified true)
                        (users (sv_db s))) in
      let codes2 := cleanupOldCodes email for_register now codes1 in
      (VerifyOk,
       push_job (mkJob jobId job_permanent email (u_permanent_login_code u) 0)
                (with_db (with_codes s codes2) d1))
    end.

(** ** POST /resend-verification *)

Inductive resend_response :=
| ResendEmailRequired       (* 400 'Email is required' *)
| ResendUserNotFound        (* 400 'User not found' *)
| ResendAlreadyVerified     (* 400 'Email is already verified' *)
| ResendOk.

Definition resend_verification (email : string) (now : Z)
    (verificationCode jobId : string) (s : server)
    : resend_response * server :=
  if String.eqb email "" then (ResendEmailRequired, s)
  else
    match select_where (fun u => String.eqb (u_email u) email)
                       (users (sv_db s)) with
    | [] => (ResendUserNotFound, s)
    | u :: _ =>
      if u_is_verified u then (ResendAlreadyVerified, s)
      else
        let s1 :=
          with_codes s
            (cleanupOldCodes email for_register now (verification_codes s)) in
        let s2 := insert_code email verificationCode for_register
                              (now + fifteen_minutes) s1 in
        (ResendOk,
         push_job (mkJob jobId job_verification email (Some verificationCode) 0)
                  s2)
    end.

(** ** POST /login and the permanent-code login *)

Inductive login_response :=
| LoginEmailRequired                    (* 400 'Email or permanent code is required' *)
| LoginUserNotFound                     (* 400 'User not found' *)
| LoginVerifyEmailFirst                 (* 400 'Please verify your email first' *)
| LoginUsePermanentCode (hint : string) (* 200, hasPermanentCode *)
| LoginCodeSent                         (* 200 'Login code sent to your email' *)
| LoginInvalidPermanentCode             (* 400 'Invalid permanent login code' *)
| LoginUnhandled                        (* the INSERT threw outside any catch *)
| LoginOk (sessionId : string) (user : req_user).

(** JavaScript truthiness of a nullable string column. *)
Definition truthy_code (u : user_row) : option string :=
  truthy_str (u_permanent_login_code u).

(** [userCache.get(key)] *)
Definition cache_get (key : string) (c : list (string * user_row))
    : option user_row :=
  option_map snd (find (fun e => String.eqb (fst e) key) c).

(** [userCache.set(key, user)] *)
Definition cache_set (key : string) (u : user_row)
    (c : list (string * user_row)) : list (string * user_row) :=
  (delete_where (fun e => String.eqb (fst e) key) c ++ [(key, u)])%list.

(** [userCache.delete(key)], what the five-minute timer runs. *)
Definition cache_delete (key : string) (c : list (string * user_row))
    : list (string * user_row) :=
  delete_where (fun e => String.eqb (fst e) key) c.

Definition cacheKey (permanentCode : string) : string :=
  ("perm_" ++ permanentCode)%string.

(** The callback of [setTimeout(() => userCache.delete(cacheKey), ..)]. *)
Definition cache_timeout (permanentCode : string) (s : server) : server :=
  with_cache s (cache_delete (cacheKey permanentCode) (userCache s)).

(** [INSERT INTO sessions (id, user_id, expires_at, ip_address, user_agent)
    VALUES (?, ?, ?, ?, ?)] with [req.ip] and [req.get('User-Agent')] as
    the last two values, under the primary key and the foreign key to
    users. [userAgent = None] is a request without the header:
    [req.get] returns [undefined] and [execute] throws on an undefined
    bind parameter before anything is sent to the engine. *)
Definition insert_session (sid : string) (uid expires : Z)
    (userAgent : option string) (d : db) : option db :=
  match userAgent with
  | None => None
  | Some _ =>
    if existsb (fun x => String.eqb (s_id x) sid) (sessions d) then None
    else if negb (existsb (fun u => u_id u =? uid) (users d)) then None
    else Some (with_sessions d (sessions d ++ [mkSession sid uid expires]))
  end.

(** [handlePermanentCodeLoginOptimized]; [sessionId] is the [uuidv4()]
    and [userAgent] the User-Agent header of the request. The INSERT of
    the session stands in a [try] with a [finally] and no [catch]: when it
    throws, the handler's promise is rejected and no answer is written
    ([LoginUnhandled]); the cache entry made before it stays. *)
Definition handlePermanentCodeLoginOptimized (permanentCode : string)
    (now : Z) (sessionId : string) (userAgent : option string) (s : server)
    : login_response * server :=
  let found :=
    match cache_get (cacheKey permanentCode) (userCache s) with
    | Some user => Some (user, s)
    | None =>
      match select_where
              (fun u => holds_code permanentCode u && u_is_verified u)
              (users (sv_db s)) with
      | [] => None
      | user :: _ =>
          Some (user,
                with_cache s (cache_set (cacheKey permanentCode) user
                                        (userCache s)))
      end
    end in
  match found with
  | None => (LoginInvalidPermanentCode, s)
  | Some (user, s1) =>
    match insert_session sessionId (u_id user) (now + seven_days)
                         userAgent (sv_db s1) with
    | None => (LoginUnhandled, s1)
    | Some d' => (LoginOk sessionId (attach_user user), with_db s1 d')
    end
  end.

(** [permanent_login_code.substring(0, 2) + '****'] *)
Definition permanentCodeHint (code : string) : string :=
  (substring 0 2 code ++ "****")%string.

Definition login (email permanentCode : string) (now : Z)
    (loginCode jobId sessionId : string) (userAgent : option string)
    (s : server) : login_response * server :=
  if negb (String.eqb permanentCode "")
  then handlePermanentCodeLoginOptimized permanentCode now sessionId
                                         userAgent s
  else if String.eqb email "" then (LoginEmailRequired, s)
  else
    match select_where (fun u => String.eqb (u_email u) email)
                       (users (sv_db s)) with
    | [] => (LoginUserNotFound, s)
    | u :: _ =>
      if negb (u_is_verified u) then (LoginVerifyEmailFirst, s)
      else
        match truthy_code u with
        | Some code => (LoginUsePermanentCode (permanentCodeHint code), s)
        | None =>
          let s1 :=
            with_codes s
              (cleanupOldCodes email for_login now (verification_codes s)) in
          let s2 := insert_code email loginCode for_login (now + ten_minutes)
                                s1 in
          (LoginCodeSent,
           push_job (mkJob jobId job_login email (Some loginCode) 0) s2)
        end
    end.

(** ** POST /verify-login *)

Inductive verify_login_response :=
| VerifyLoginFieldsRequired   (* 400 'Email and code are required' *)
| VerifyLoginInvalid          (* 400 'Invalid or expired login code' *)
| VerifyLoginUserNotFound     (* 400 'User not found' *)
| VerifyLoginFailed           (* 500 'Login verification failed' *)
| VerifyLoginOk (sessionId : string) (user : req_user).

Definition verify_login (email code : string) (now : Z) (sessionId : string)
    (userAgent : option string) (s : server)
    : verify_login_response * server :=
  if String.eqb email "" || String.eqb code "" then (VerifyLoginFieldsRequired, s)
  else
    match select_where
            (fun c => String.eqb (vc_email c) email &&
                      String.eqb (vc_code c) code &&
                      code_type_eqb (vc_type c) for_login &&
                      (vc_expires_at c >? now) && negb (vc_used c))
            (verification_codes s) with
    | [] => (VerifyLoginInvalid, s)
    | c :: _ =>
      match select_where (fun u => String.eqb (u_email u) email)
                         (users (sv_db s)) with
      | [] => (VerifyLoginUserNotFound, s)
      | user :: _ =>
        let codes1 :=
          update_where (fun x => vc_id x =? vc_id c) set_used
                       (verification_codes s) in
        let codes2 := cleanupOldCodes email for_login now codes1 in
        match insert_session sessionId (u_id user) (now + seven_days)
                             userAgent (sv_db s) with
        | None => (VerifyLoginFailed, s)
        | Some d' =>
          (VerifyLoginOk sessionId (attach_user user),
           with_db (with_codes s codes2) d')
        end
      end
    end.

(** ** POST /logout *)

(** [DELETE FROM sessions WHERE id = ?] when the request carries a token;
    the answer is 200 'Logged out successfully' either way. *)
Definition logout (req : request) (d : db) : db :=
  match cookie_or_bearer req with
  | Some sid =>
      with_sessions d
        (delete_where (fun x => String.eqb (s_id x) sid) (sessions d))
  | None => d
  end.

(** ** The e-mail queue ([processEmailQueue], routes/auth.js)

    One run of [processEmailQueue] is the synchronous part of the timer
    callback: it takes up to five jobs off the queue and starts a send for
    each one whose id is not being processed. A send finishes later, with
    success or failure; what the [catch] and [finally] blocks do then is
    [send_finished]. *)

Definition start_job (acc : list string * list email_job) (job : email_job)
    : list string * list email_job :=
  let '(processing, flight) := acc in
  if existsb (String.eqb (j_id job)) processing then acc
  else ((processing ++ [j_id job])%list, (flight ++ [job])%list).

Definition processEmailQueue (s : server) : server :=
  if (List.length (emailQueue s) =? 0)%nat
     || (5 <=? List.length (processingEmails s))%nat
  then s
  else
    let batch := firstn 5 (emailQueue s) in
    let '(processing, flight) :=
      fold_left start_job batch (processingEmails s, in_flight s) in
    mkServer (sv_db s) (verification_codes s) (next_code_id s) (rate_limits s)
             (skipn 5 (emailQueue s)) processing flight (userCache s).

Definition retried (job : email_job) : email_job :=
  mkJob (j_id job) (j_type job) (j_email job) (j_code job) (j_retries job + 1).

(** The send of the job in flight with id [jobId] has finished; [ok] tells
    whether it threw. *)
Definition send_finished (jobId : string) (ok : bool) (s : server) : server :=
  match find (fun j => String.eqb (j_id j) jobId) (in_flight s) with
  | None => s
  | Some job =>
    let queue :=
      if ok then emailQueue s
      else if j_retries job <? 3 then (emailQueue s ++ [retried job])%list
      else emailQueue s in
    mkServer (sv_db s) (verification_codes s) (next_code_id s) (rate_limits s)
             queue
             (delete_where (fun i => String.eqb i jobId) (processingEmails s))
             (delete_where (fun j => String.eqb (j_id j) jobId) (in_flight s))
             (userCache s)
  end.

Inductive mail_event :=
| Enqueue (jobId : string) (ty : job_type) (email : string)
          (code : option string)
| Tick
| Finished (jobId : string) (ok : bool).

Definition mail_step (s : server) (e : mail_event) : server :=
  match e with
  | Enqueue jobId ty email code => push_job (mkJob jobId ty email code 0) s
  | Tick => processEmailQueue s
  | Finished jobId ok => send_finished jobId ok s
  end.

Definition mail_run (es : list mail_event) (s : server) : server :=
  fold_left mail_step es s.

(** The sends that finish along a run: the [Finished] events that find
    their job in flight. *)
Fixpoint sends_finished (es : list mail_event) (s : server) : nat :=
  match es with
  | [] => 0
  | e :: rest =>
      (match e with
       | Finished jobId _ =>
           if existsb (fun j => String.eqb (j_id j) jobId) (in_flight s)
           then 1 else 0
       | _ => 0
       end + sends_finished rest (mail_step s e))%nat
  end.

(** ** The periodic cleanup ([cleanupExpiredData], db/database.js) *)

(** [DELETE .. WHERE cond LIMIT n], the rows taken in table order. *)
Fixpoint delete_where_limit {A : Type} (n : nat) (cond : A -> bool)
    (t : list A) : list A :=
  match t with
  | [] => []
  | x :: rest =>
      if cond x then
        match n with
        | O => x :: rest
        | S m => delete_where_limit m cond rest
        end
      else x :: delete_where_limit n cond rest
  end.

Definition cleanupExpiredData (now : Z) (s : server) : server :=
  mkServer
    (with_sessions (sv_db s)
       (delete_where_limit 1000 (fun x => s_expires_at x <? now - one_day)
                           (sessions (sv_db s))))
    (delete_where_limit 1000 (fun c => vc_expires_at c <? now - one_day)
                        (verification_codes s))
    (next_code_id s)
    (delete_where_limit 1000 (fun r => rl_reset_time r <? now - one_day)
                        (rate_limits s))
    (emailQueue s) (processingEmails s) (in_flight s) (userCache s).

(** ** Administrator routes on users (routes/admin.js) *)

Inductive admin_user_response :=
| AdminBadBoolean           (* 400 'isVerified must be a boolean' *)
| AdminFieldsRequired       (* 400 'All fields except earnings are required' *)
| AdminBadEarnings          (* 400 'Earnings must be a valid positive number' *)
| AdminUserNotFound         (* 404 'User not found' *)
| AdminEmailTaken           (* 400 'Email is already taken by another user' *)
| AdminUserOk (userId : Z).

(** PUT /users/:userId/toggle-verification; [isVerified = None] is a body
    value that is not a boolean. *)
Definition toggle_verification (userId : Z) (isVerified : option bool)
    (d : db) : admin_user_response * db :=
  match isVerified with
  | None => (AdminBadBoolean, d)
  | Some v =>
    match select_where (fun u => u_id u =? userId) (users d) with
    | [] => (AdminUserNotFound, d)
    | _ :: _ =>
      (AdminUserOk userId,
       with_users d
         (update_where (fun u => u_id u =? userId) (set_is_verified v)
                       (users d)))
    end
  end.

(** The [earnings] field of the update body: [undefined], a value that
    [parseFloat] turns into [NaN], or a number, in hundredths. *)
Inductive earnings_field :=
| EarningsUndefined
| EarningsNaN
| EarningsNum (hundredths : Q).

Arguments EarningsNum hundredths%_Q.

Record admin_update_body := mkAdminUpdateBody {
  ab_email : string;
  ab_fullName : string;
  ab_phone : string;
  ab_instagramId : string;
  ab_batchLetter : string;
  ab_earnings : earnings_field;
  ab_isVerified : option bool           (* [None] is [undefined] *)
}.

(** [UPDATE users SET email = ?, full_name = ?, phone = ?,
    instagram_id = ?, batch_letter = ?], with [earnings = ?] when the body
    carries earnings (the column keeps the number rounded) and
    [is_verified = ?] when it carries the flag. *)
Definition admin_set (b : admin_update_body) (u : user_row) : user_row :=
  mkUser (u_id u) (ab_email b) (ab_instagramId b) (ab_batchLetter b)
         (match ab_earnings b with
          | EarningsNum e => to_decimal e
          | _ => u_earnings u
          end)
         (match ab_isVerified b with
          | Some v => v
          | None => u_is_verified u
          end)
         (u_is_admin u) (u_permanent_login_code u)
         (mkProfile (ab_fullName b) (ab_phone b)
                    (pf_facebook_id (u_profile u))
                    (pf_twitter_id (u_profile u))
                    (pf_linkedin_id (u_profile u))
                    (pf_city (u_profile u))
                    (pf_date_of_birth (u_profile u))
                    (pf_website (u_profile u))).

(** [earnings !== undefined &&
     (isNaN(parseFloat(earnings)) || parseFloat(earnings) < 0)] *)
Definition bad_earnings (e : earnings_field) : bool :=
  match e with
  | EarningsUndefined => false
  | EarningsNaN => true
  | EarningsNum h => Qlt_b h 0
  end.

(** PUT /users/:userId/update *)
Definition admin_update_user (userId : Z) (b : admin_update_body) (d : db)
    : admin_user_response * db :=
  if String.eqb (ab_email b) "" || String.eqb (ab_fullName b) ""
     || String.eqb (ab_phone b) "" || String.eqb (ab_instagramId b) ""
     || String.eqb (ab_batchLetter b) ""
  then (AdminFieldsRequired, d)
  else if bad_earnings (ab_earnings b) then (AdminBadEarnings, d)
  else
    match select_where (fun u => u_id u =? userId) (users d) with
    | [] => (AdminUserNotFound, d)
    | existing :: _ =>
      if negb (String.eqb (ab_email b) (u_email existing)) &&
         existsb (fun u => String.eqb (u_email u) (ab_email b) &&
                           negb (u_id u =? userId)) (users d)
      then (AdminEmailTaken, d)
      else
        (AdminUserOk userId,
         with_users d
           (update_where (fun u => u_id u =? userId) (admin_set b) (users d)))
    end.

(** DELETE /users/:userId: the clicks and withdrawals of the user, then
    the user row, whose deletion takes the sessions along. *)
Definition admin_delete_user (userId : Z) (d : db)
    : admin_user_response * db :=
  match select_where (fun u => u_id u =? userId) (users d) with
  | [] => (AdminUserNotFound, d)
  | _ :: _ => (AdminUserOk userId, delete_user userId d)
  end.

(** ** PUT /profile (routes/user.js) *)

Inductive profile_response :=
| ProfileRejected (e : field_error)     (* 400, before the transaction *)
| ProfileEmailTaken         (* 400 'Email is already taken by another user' *)
| ProfileInstagramTaken     (* 400 'Instagram username is already taken ..' *)
| ProfileUserNotFound       (* 404 'User not found' *)
| ProfileOk.

(** [UPDATE users SET email = ?, full_name = ?, phone = ?,
    instagram_id = ?, facebook_id = ?, twitter_id = ?, linkedin_id = ?,
    city = ?, date_of_birth = ?, website = ?, updated_at = NOW()]. *)
Definition set_profile (b : profile_body) (u : user_row) : user_row :=
  mkUser (u_id u) (pb_email b) (pb_instagramId b) (u_batch_letter u)
         (u_earnings u) (u_is_verified u) (u_is_admin u)
         (u_permanent_login_code u) (profile_of b).

Definition update_profile (userId : Z) (b : profile_body) (d : db)
    : profile_response * db :=
  match profile_checks b with
  | Some e => (ProfileRejected e, d)
  | None =>
    if existsb (fun u => String.eqb (u_email u) (pb_email b) &&
                         negb (u_id u =? userId)) (users d)
    then (ProfileEmailTaken, d)
    else if existsb (fun u => String.eqb (u_instagram_id u) (pb_instagramId b)
                              && negb (u_id u =? userId)) (users d)
    then (ProfileInstagramTaken, d)
    else if negb (existsb (fun u => u_id u =? userId) (users d))
    then (ProfileUserNotFound, d)
    else
      (ProfileOk,
       with_users d
         (update_where (fun u => u_id u =? userId) (set_profile b) (users d)))
  end.

Definition api_user_update_profile (now : Z) (req : request)
    (b : profile_body) : db -> (auth_error + profile_response) * db :=
  api_user now req (fun user => update_profile (ru_id user) b).

(** ** Administrator routes on posts (routes/admin.js) *)

(** The [targetBatches] field: a falsy value, a truthy value that is not an
    array, or an array. *)
Inductive batches_field :=
| BatchesFalsy
| BatchesNotArray
| BatchesArray (letters : list string).

Record post_body := mkPostBody {
  po_title : string;
  po_socialLink : string;
  po_engagementType : string;
  po_rewardAmount : amount_field;
  po_targetBatches : batches_field;
  po_clickLimit : option Z;
  po_autoDeleteEnabled : bool;
  po_postMessage : string
}.

Inductive post_error :=
| PostFieldsRequired        (* 'All required fields must be provided' *)
| PostBatchRequired         (* 'At least one target batch is required' *)
| PostClickLimitRequired    (* 'Valid click limit required when auto-delete is enabled' *)
| PostRewardRequired        (* 'Valid reward amount is required' (bulk only) *)
| PostInvalidType.          (* 'Invalid engagement type' *)

(** [['like', 'like_comment', 'like_comment_share', 'vip'].includes(..)] *)
Definition engagement_of_string (s : string) : option engagement :=
  if String.eqb s "like" then Some like
  else if String.eqb s "like_comment" then Some like_comment
  else if String.eqb s "like_comment_share" then Some like_comment_share
  else if String.eqb s "vip" then Some vip
  else None.

(** [!title || !socialLink || !engagementType || !rewardAmount ||
     !targetBatches] *)
Definition post_fields_missing (p : post_body) : bool :=
  String.eqb (po_title p) "" || String.eqb (po_socialLink p) ""
  || String.eqb (po_engagementType p) ""
  || amount_is_falsy (po_rewardAmount p)
  || match po_targetBatches p with BatchesFalsy => true | _ => false end.

(** [!Array.isArray(targetBatches) || targetBatches.length === 0] *)
Definition post_batches_missing (p : post_body) : bool :=
  match po_targetBatches p with
  | BatchesArray (_ :: _) => false
  | _ => true
  end.

(** [autoDeleteEnabled && (!clickLimit || clickLimit < 1)] *)
Definition post_limit_missing (p : post_body) : bool :=
  po_autoDeleteEnabled p &&
  match truthy_num (po_clickLimit p) with
  | Some n => n <? 1
  | None => true
  end.

(** [isNaN(parseFloat(rewardAmount)) || parseFloat(rewardAmount) <= 0] *)
Definition post_reward_invalid (p : post_body) : bool :=
  match parseFloat (po_rewardAmount p) with
  | Some r => Qle_bool r 0
  | None => true
  end.

(** The checks of POST /posts, in their order. *)
Definition post_checks (p : post_body) : option post_error :=
  if post_fields_missing p then Some PostFieldsRequired
  else if post_batches_missing p then Some PostBatchRequired
  else if post_limit_missing p then Some PostClickLimitRequired
  else match engagement_of_string (po_engagementType p) with
       | None => Some PostInvalidType
       | Some _ => None
       end.

(** The checks POST /posts/bulk runs on each post, in their order. *)
Definition bulk_post_checks (p : post_body) : option post_error :=
  if post_fields_missing p then Some PostFieldsRequired
  else if post_batches_missing p then Some PostBatchRequired
  else if post_limit_missing p then Some PostClickLimitRequired
  else if post_reward_invalid p then Some PostRewardRequired
  else match engagement_of_string (po_engagementType p) with
       | None => Some PostInvalidType
       | Some _ => None
       end.

(** What the column [reward_amount DECIMAL(4,2)] keeps of a number: the
    number rounded to hundredths when that lies between -99.99 and 99.99;
    in the strict SQL mode, which is the engine's default, a value out of
    that range is an error. *)
Definition reward_column (r : Q) : option Z :=
  let stored := to_decimal r in
  if (stored <=? -10000) || (10000 <=? stored) then None else Some stored.

(** [INSERT INTO posts (.., is_active, click_count, click_limit,
    auto_delete_enabled, ..) VALUES (.., TRUE, 0, ?, ?, ..)]; [id] is the
    AUTO_INCREMENT value the engine hands out. The statement throws on a
    taken primary key and on a reward or type the column does not take.
    A click limit is an integer. *)
Definition insert_post (id : Z) (p : post_body) (d : db) : option db :=
  match engagement_of_string (po_engagementType p),
        match parseFloat (po_rewardAmount p) with
        | Some r => reward_column r
        | None => None
        end with
  | Some et, Some reward =>
      if existsb (fun x => p_id x =? id) (posts d) then None
      else
        Some (with_posts d
                (posts d ++
                   [mkPost id et reward true (Some 0)
                           (if po_autoDeleteEnabled p then po_clickLimit p
                            else None)
                           (po_autoDeleteEnabled p)]))
  | _, _ => None
  end.

Inductive create_post_response :=
| PostRejected (e : post_error)         (* 400 *)
| PostFailed                            (* 500 'Failed to create post' *)
| PostCreated (postId : Z).

(** POST /posts *)
Definition create_post (insertId : Z) (p : post_body) (d : db)
    : create_post_response * db :=
  match post_checks p with
  | Some e => (PostRejected e, d)
  | None =>
    match insert_post insertId p d with
    | None => (PostFailed, d)
    | Some d' => (PostCreated insertId, d')
    end
  end.

(** The index and the error of the first post that fails the checks. *)
Fixpoint first_invalid (i : nat) (ps : list post_body)
    : option (nat * post_error) :=
  match ps with
  | [] => None
  | p :: rest =>
      match bulk_post_checks p with
      | Some e => Some (i, e)
      | None => first_invalid (S i) rest
      end
  end.

(** The insert loop of POST /posts/bulk: the ids created and the number of
    inserts that threw. [ids] are the values the engine hands out, one per
    insert. *)
Fixpoint bulk_insert (ps : list post_body) (ids : list Z) (d : db)
    : list Z * nat * db :=
  match ps with
  | [] => ([], O, d)
  | p :: rest =>
      match ids with
      | [] =>
          let '(created, failed, d') := bulk_insert rest [] d in
          (created, S failed, d')
      | id :: ids' =>
          match insert_post id p d with
          | Some d1 =>
              let '(created, failed, d') := bulk_insert rest ids' d1 in
              (id :: created, failed, d')
          | None =>
              let '(created, failed, d') := bulk_insert rest ids' d in
              (created, S failed, d')
          end
      end
  end.

Inductive bulk_response :=
| BulkPostsRequired                     (* 400 'Posts array is required ..' *)
| BulkInvalid (postIndex : nat) (e : post_error)        (* 400 *)
| BulkFailed                            (* 500 'Failed to create any posts' *)
| BulkPartial (created : list Z) (failed : nat)         (* 207 *)
| BulkOk (created : list Z).

(** POST /posts/bulk *)
Definition bulk_create_posts (ids : list Z) (ps : list post_body) (d : db)
    : bulk_response * db :=
  match ps with
  | [] => (BulkPostsRequired, d)
  | _ :: _ =>
    match first_invalid 0 ps with
    | Some (i, e) => (BulkInvalid i e, d)
    | None =>
      let '(created, failed, d') := bulk_insert ps ids d in
      match failed, created with
      | O, _ => (BulkOk created, d')
      | S _, [] => (BulkFailed, d)
      | S _, _ :: _ => (BulkPartial created failed, d')
      end
    end
  end.

Inductive post_admin_response :=
| PostAdminFailed           (* 500 *)
| PostAdminNotFound         (* 404 'Post not found' *)
| PostAdminOk.

Definition set_is_active (v : bool) (p : post_row) : post_row :=
  mkPost (p_id p) (p_engagement_type p) (p_reward_amount p) v
         (p_click_count p) (p_click_limit p) (p_auto_delete_enabled p).

(** PUT /posts/:postId/toggle-status; [isActive = None] is an absent field,
    which the driver refuses to bind. *)
Definition toggle_post_status (postId : Z) (isActive : option bool) (d : db)
    : post_admin_response * db :=
  match isActive with
  | None => (PostAdminFailed, d)
  | Some v =>
    if existsb (fun p => p_id p =? postId) (posts d)
    then (PostAdminOk,
          with_posts d
            (update_where (fun p => p_id p =? postId) (set_is_active v)
                          (posts d)))
    else (PostAdminNotFound, d)
  end.

(** DELETE /posts/:postId *)
Definition delete_post (postId : Z) (d : db) : post_admin_response * db :=
  let d1 :=
    with_user_clicks d
      (delete_where (fun c => c_post_id c =? postId) (user_clicks d)) in
  if existsb (fun p => p_id p =? postId) (posts d1)
  then (PostAdminOk,
        with_posts d1 (delete_where (fun p => p_id p =? postId) (posts d1)))
  else (PostAdminNotFound, d).

(** ** GET /dashboard (routes/user.js)

    The handler reads and writes nothing. Rows carry no [created_at] and
    no [clicked_at] here: a table lists its rows in the order of their
    insertion, and [ORDER BY .. DESC] on the insertion time is read as the
    reverse of that order. *)

Record dashboard_post := mkDashboardPost {
  dp_id : Z;
  dp_engagementType : engagement;
  dp_rewardAmount : Z
}.

Record dashboard_response := mkDashboard {
  dash_posts : list dashboard_post;
  dash_userClicks : list Z;                 (* [postId] of each click *)
  dash_clickAnalytics : engagement -> nat
}.

Definition engagement_eqb (a b : engagement) : bool :=
  match a, b with
  | like, like | like_comment, like_comment
  | like_comment_share, like_comment_share | vip, vip => true
  | _, _ => false
  end.

(** [SELECT .. FROM user_clicks uc JOIN posts p ON uc.post_id = p.id
     WHERE uc.user_id = ?] *)
Definition clicks_with_posts (userId : Z) (d : db)
    : list (click_row * post_row) :=
  flat_map
    (fun uc =>
       if c_user_id uc =? userId
       then map (fun p => (uc, p))
                (select_where (fun p => p_id p =? c_post_id uc) (posts d))
       else [])
    (user_clicks d).

Definition dashboard (user : req_user) (d : db) : dashboard_response :=
  mkDashboard
    (rev (map (fun p => mkDashboardPost (p_id p) (p_engagement_type p)
                                        (p_reward_amount p))
              (select_where p_is_active (posts d))))
    (rev (map c_post_id
              (select_where (fun uc => c_user_id uc =? ru_id user)
                            (user_clicks d))))
    (fun t =>
       List.length
         (filter (fun row => engagement_eqb (p_engagement_type (snd row)) t)
                 (clicks_with_posts (ru_id user) d))).

Definition api_user_dashboard (now : Z) (req : request)
    : db -> (auth_error + dashboard_response) * db :=
  api_user now req (fun user d => (dashboard user d, d)).

(** ** Predicates and examples for the rest of the server *)

(** No stored session with this id is still running at [now]. *)
Definition no_live_session (sid : string) (now : Z) (d : db) : Prop :=
  forall x, In x (sessions d) -> s_id x = sid -> s_expires_at x <= now.

Definition ex_request_alice : request := mkRequest (Some "sess-alice") None.

Definition ex_request_admin : request := mkRequest (Some "sess-admin") None.

Definition ex_server : server := mkServer ex_db [] 1 [] [] [] [] [].

(** The constraint [email VARCHAR(255) UNIQUE] as a property of a store. *)
Definition unique_emails (d : db) : Prop := NoDup (map u_email (users d)).

(** Every stored user holds a non-empty permanent code. *)
Definition every_user_has_a_code (d : db) : Prop :=
  forall u, In u (users d) ->
            exists c, u_permanent_login_code u = Some c /\ c <> "".

(** The example server after Alice has logged in with her permanent code
    at time 0 and the administrator has then withdrawn her verification. *)
Definition ex_server_alice_logged_in : server :=
  snd (login "" "111111" 0 "000000" "job-0" "sess-alice-2"
             (Some "Mozilla/5.0") ex_server).

Definition ex_server_alice_unverified : server :=
  with_db ex_server_alice_logged_in
    (snd (toggle_verification 1 (Some false)
                              (sv_db ex_server_alice_logged_in))).

Definition ex_profile_carol : profile_body :=
  mkProfileBody "carol@example.org" "Carol" "5550100" "carol.c" "" "" "" ""
                "" "".

(** ** The handlers as events

    One event is one run of a handler that writes: a route handler with
    the arguments it reads from the request and from the session, the
    UPDATE of the session middleware, or one of the timer callbacks. A
    request to a route behind the session middleware is [UseSession]
    followed by the event of the route. *)

Inductive event :=
| SubmitClick (userId : Z) (body : click_body)
| Withdraw (userId : Z) (body : withdraw_body)
| ProcessWithdrawal (id : Z) (status : string) (notes : option string)
                    (now : Z)
| UpdateProfile (userId : Z) (b : profile_body)
| ToggleVerification (userId : Z) (isVerified : option bool)
| AdminUpdateUser (userId : Z) (b : admin_update_body)
| AdminDeleteUser (userId : Z)
| CreatePost (insertId : Z) (p : post_body)
| BulkCreatePosts (ids : list Z) (ps : list post_body)
| TogglePostStatus (postId : Z) (isActive : option bool)
| DeletePost (postId : Z)
| UseSession (sid : string) (now : Z)
| Logout (req : request)
| RegisterRequest (b : profile_body) (now : Z) (now_ms rnd : N)
                  (verificationCode jobId : string)
| VerifyEmail (email code : string) (now : Z) (jobId : string)
| ResendVerification (email : string) (now : Z)
                     (verificationCode jobId : string)
| Login (email permanentCode : string) (now : Z)
        (loginCode jobId sessionId : string) (userAgent : option string)
| VerifyLogin (email code : string) (now : Z) (sessionId : string)
              (userAgent : option string)
| CacheTimeout (permanentCode : string)
| QueueTick
| SendFinished (jobId : string) (ok : bool)
| Cleanup (now : Z).

Definition on_db {R : Type} (h : db -> R * db) (s : server) : server :=
  with_db s (snd (h (sv_db s))).

Definition handle (s : server) (e : event) : server :=
  match e with
  | SubmitClick userId body => on_db (submit_click userId body) s
  | Withdraw userId body => on_db (withdraw userId body) s
  | ProcessWithdrawal id status notes now =>
      on_db (process_withdrawal id status notes now) s
  | UpdateProfile userId b => on_db (update_profile userId b) s
  | ToggleVerification userId v => on_db (toggle_verification userId v) s
  | AdminUpdateUser userId b => on_db (admin_update_user userId b) s
  | AdminDeleteUser userId => on_db (admin_delete_user userId) s
  | CreatePost insertId p => on_db (create_post insertId p) s
  | BulkCreatePosts ids ps => on_db (bulk_create_posts ids ps) s
  | TogglePostStatus postId v => on_db (toggle_post_status postId v) s
  | DeletePost postId => on_db (delete_post postId) s
  | UseSession sid now => with_db s (extend_session sid now (sv_db s))
  | Logout req => with_db s (logout req (sv_db s))
  | RegisterRequest b now now_ms rnd verificationCode jobId =>
      snd (register_request b now now_ms rnd verificationCode jobId s)
  | VerifyEmail email code now jobId =>
      snd (verify_email email code now jobId s)
  | ResendVerification email now verificationCode jobId =>
      snd (resend_verification email now verificationCode jobId s)
  | Login email permanentCode now loginCode jobId sessionId userAgent =>
      snd (login email permanentCode now loginCode jobId sessionId userAgent
                 s)
  | VerifyLogin email code now sessionId userAgent =>
      snd (verify_login email code now sessionId userAgent s)
  | CacheTimeout permanentCode => cache_timeout permanentCode s
  | QueueTick => processEmailQueue s
  | SendFinished jobId ok => send_finished jobId ok s
  | Cleanup now => cleanupExpiredData now s
  end.

Definition handle_all (es : list event) (s : server) : server :=
  fold_left handle es s.

(** What an event may do to the rows of one user id. *)
Inductive row_update (d : db) (uid : Z) : (user_row -> user_row) -> Prop :=
| ru_reward post :
    In post (posts d) ->
    row_update d uid (credit (p_reward_amount post))
| ru_refund w :
    In w (withdrawals d) -> w_status w = pending ->
    row_update d uid (credit (w_amount w))
| ru_debit a row :
    user_by_id d uid = Some row ->
    (0 < a)%Q -> (a <= inject_Z (u_earnings row))%Q ->
    row_update d uid (withdrawn a)
| ru_verified v : row_update d uid (set_is_verified v)
| ru_admin b existing :
    user_by_id d uid = Some existing ->
    (ab_email b = u_email existing \/
     forall u, In u (users d) -> u_email u = ab_email b -> u_id u = uid) ->
    bad_earnings (ab_earnings b) = false ->
    row_update d uid (admin_set b)
| ru_profile b :
    (forall u, In u (users d) -> u_email u = pb_email b -> u_id u = uid) ->
    row_update d uid (set_profile b).

(** What an event may do to the table of users. *)
Inductive users_effect (d d' : db) : Prop :=
| ue_same :
    users d' = users d -> next_user_id d' = next_user_id d ->
    users_effect d d'
| ue_update uid set :
    row_update d uid set ->
    users d' = update_where (fun u => u_id u =? uid) set (users d) ->
    next_user_id d' = next_user_id d ->
    users_effect d d'
| ue_delete uid :
    users d' = delete_where (fun u => u_id u =? uid) (users d) ->
    next_user_id d' = next_user_id d ->
    users_effect d d'
| ue_insert base email instagram batchLetter code profile :
    (base = users d \/
     exists uid, base = delete_where (fun u => u_id u =? uid) (users d)) ->
    existsb (fun u => String.eqb (u_email u) email) base = false ->
    existsb (holds_code code) base = false ->
    code <> "" ->
    users d' = (base ++ [mkUser (next_user_id d) email instagram batchLetter
                                0 false false (Some code) profile])%list ->
    next_user_id d' = next_user_id d + 1 ->
    users_effect d d'.

(** A post a handler has just inserted: its reward is within the range of
    the column and, unless the request carried a reward below zero, not
    below zero. *)
Definition fresh_post (below_zero : bool) (x : post_row) : Prop :=
  p_is_active x = true /\ p_click_count x = Some 0 /\
  (p_auto_delete_enabled x = true ->
   exists l, p_click_limit x = Some l /\ 1 <= l) /\
  (below_zero = false -> 0 <= p_reward_amount x) /\
  -10000 < p_reward_amount x < 10000.

(** What an event may do to the table of posts; [below_zero] tells whether
    the event carries a reward below zero. *)
Inductive posts_effect (below_zero : bool) (d d' : db) : Prop :=
| pe_same : posts d' = posts d -> posts_effect below_zero d d'
| pe_settle pid post :
    post_by_id d pid = Some post -> p_is_active post = true ->
    posts d' =
      (let bumped :=
         update_where (fun p => p_id p =? pid)
                      (set_click_count (or_zero (p_click_count post) + 1))
                      (posts d) in
       if limit_reached post (or_zero (p_click_count post) + 1)
       then delete_where (fun p => p_id p =? pid) bumped else bumped) ->
    posts_effect below_zero d d'
| pe_insert added :
    Forall (fresh_post below_zero) added ->
    (NoDup (map p_id (posts d)) -> NoDup (map p_id (posts d ++ added))) ->
    posts d' = (posts d ++ added)%list ->
    posts_effect below_zero d d'
| pe_toggle pid v :
    posts d' = update_where (fun p => p_id p =? pid) (set_is_active v)
                            (posts d) ->
    posts_effect below_zero d d'
| pe_delete pid :
    posts d' = delete_where (fun p => p_id p =? pid) (posts d) ->
    posts_effect below_zero d d'.

(** Whether the post of a [CreatePost] carries a reward below zero: the
    checks of POST /posts let such a post through. *)
Definition reward_below_zero (e : event) : bool :=
  match e with
  | CreatePost _ p =>
      match parseFloat (po_rewardAmount p) with
      | Some r => Qlt_b r 0
      | None => false
      end
  | _ => false
  end.

(** What an event may do to the table of withdrawals. *)
Inductive withdrawals_effect (d d' : db) : Prop :=
| we_same : withdrawals d' = withdrawals d -> withdrawals_effect d d'
| we_request uid a wm details :
    (0 < a)%Q ->
    withdrawals d' =
      (withdrawals d ++
         [mkWithdrawal (next_withdrawal_id d) uid (to_decimal a) wm details
                       pending None None])%list ->
    withdrawals_effect d d'
| we_resolve id st notes now :
    withdrawals d' =
      update_where (fun w => w_id w =? id) (set_resolution st notes now)
                   (withdrawals d) ->
    withdrawals_effect d d'
| we_delete uid :
    withdrawals d' = delete_where (fun w => w_user_id w =? uid)
                                  (withdrawals d) ->
    withdrawals_effect d d'.

Record effects (below_zero : bool) (d d' : db) : Prop := {
  ef_users : users_effect d d';
  ef_posts : posts_effect below_zero d d';
  ef_withdrawals : withdrawals_effect d d'
}.

(** The keys of [users]: the primary key with its AUTO_INCREMENT counter
    and the two UNIQUE columns. *)
Record users_keys (d : db) : Prop := {
  uk_ids : unique_user_ids d;
  uk_fresh : user_ids_fresh d = true;
  uk_emails : unique_emails d;
  uk_codes : unique_permanent_codes d
}.

(** Wallets, rewards and requested amounts are not below zero. *)
Record money_ok (d : db) : Prop := {
  mo_ids : unique_user_ids d;
  mo_fresh : user_ids_fresh d = true;
  mo_wallets : forall u, In u (users d) -> 0 <= u_earnings u;
  mo_rewards : forall p, In p (posts d) -> 0 <= p_reward_amount p;
  mo_amounts : forall w, In w (withdrawals d) -> 0 <= w_amount w
}.

(** The counter of a post with auto-delete is below its click limit. *)
Definition below_limit (p : post_row) : Prop :=
  p_auto_delete_enabled p = true ->
  forall l, truthy_num (p_click_limit p) = Some l ->
            or_zero (p_click_count p) < l.

Record posts_ok (d : db) : Prop := {
  po_ids : NoDup (map p_id (posts d));
  po_below : forall p, In p (posts d) -> below_limit p
}.

(** A day of the example server: Alice settles the example post, Bob asks
    for a withdrawal that is declined, Carol registers, the administrator
    creates a post and renames Bob's e-mail, Alice edits her profile. *)
Definition ex_post_body : post_body :=
  mkPostBody "Like this" "https://example.org/p/8" "like" (AmountNum 25)
             (BatchesArray ["A"]) (Some 3) true "".

Definition ex_events : list event :=
  [SubmitClick 1 ex_click_body;
   Withdraw 2 ex_withdraw_body;
   ProcessWithdrawal 1 "declined" None 10;
   RegisterRequest ex_profile_carol 20 ex_now_ms 42 "654321" "job-1";
   CreatePost 8 ex_post_body;
   AdminUpdateUser 2 (mkAdminUpdateBody "bob@example.net" "Bob" "5550101"
                                        "bob" "A" (EarningsNum 100) None);
   UpdateProfile 1 (mkProfileBody "alice@example.net" "Alice" "5550102"
                                  "alice" "" "" "" "" "" "");
   SubmitClick 2 ex_click_body].

(** The example server after Carol has registered at time 20, and after
    she has verified her address at time 100. *)
Definition ex_server_carol : server :=
  snd (register_request ex_profile_carol 20 ex_now_ms 42 "654321" "job-1"
                        ex_server).

Definition ex_server_carol_verified : server :=
  snd (verify_email "carol@example.org" "654321" 100 "job-2" ex_server_carol).

(** The columns of a user row that PUT /profile does not write (apart
    from the creation time, which no UPDATE names). *)
Definition account_of (u : user_row)
    : Z * string * Z * bool * bool * option string :=
  (u_id u, u_batch_letter u, u_earnings u, u_is_verified u, u_is_admin u,
   u_permanent_login_code u).

(** The example store after the example post has been taken offline. *)
Definition ex_db_offline : db :=
  snd (toggle_post_status 7 (Some false) ex_db).

(** The example store with one click of Alice on the example post. *)
Definition ex_db_clicked : db := snd (submit_click 1 ex_click_body ex_db).

(** The strings [/^[^\s@]+@[^\s@]+\.[^\s@]+$/] describes: three non-empty
    runs of characters that are neither blank nor ['@'], joined by an
    ['@'] and a ['.']. *)
Definition email_shape (s : string) : Prop :=
  exists a b c,
    s = (a ++ "@" ++ b ++ "." ++ c)%string /\
    a <> "" /\ b <> "" /\ c <> "" /\
    all_chars plain_char a = true /\ all_chars plain_char b = true /\
    all_chars plain_char c = true.

(** The sends a job can still cause: one, and one more for every retry
    that is left. *)
Definition attempts_left (j : email_job) : nat :=
  Z.to_nat (Z.max 1 (4 - j_retries j)).

Definition budget (s : server) : nat :=
  list_sum (map attempts_left (emailQueue s ++ in_flight s)).

Definition is_enqueue (e : mail_event) : bool :=
  match e with Enqueue _ _ _ _ => true | _ => false end.

(** The ids being processed are the ids of the jobs in flight. *)
Definition queue_ok (s : server) : Prop :=
  map j_id (in_flight s) = processingEmails s /\
  (List.length (processingEmails s) <= 9)%nat.

(** Four jobs are queued and started, five more are queued and started
    before any of the first four has finished. *)
Definition ex_mail_events : list mail_event :=
  [Enqueue "j1" job_verification "a@example.org" (Some "100001");
   Enqueue "j2" job_verification "b@example.org" (Some "100002");
   Enqueue "j3" job_verification "c@example.org" (Some "100003");
   Enqueue "j4" job_verification "d@example.org" (Some "100004");
   Tick;
   Enqueue "j5" job_verification "e@example.org" (Some "100005");
   Enqueue "j6" job_verification "f@example.org" (Some "100006");
   Enqueue "j7" job_verification "g@example.org" (Some "100007");
   Enqueue "j8" job_verification "h@example.org" (Some "100008");
   Enqueue "j9" job_verification "i@example.org" (Some "100009");
   Tick].

(** Batches A to Z, and the store after [createNextBatch] has run on it. *)
Definition ex_db_AA : db := snd (createNextBatch ex_db_full).

(** The keys of [user_clicks]: the pair (user, post) is unique and both
    foreign keys point at stored rows. *)
Record clicks_ok (d : db) : Prop := {
  ck_pairs : unique_user_post d;
  ck_user : forall c, In c (user_clicks d) -> registered d (c_user_id c);
  ck_post : forall c, In c (user_clicks d) ->
                      post_by_id d (c_post_id c) <> None
}.

(** The events that delete users or posts, or write clicks. *)
Definition writes_clicks (e : event) : bool :=
  match e with
  | SubmitClick _ _ | DeletePost _ | AdminDeleteUser _
  | RegisterRequest _ _ _ _ _ _ => true
  | _ => false
  end.

(** An event that leaves the clicks alone and deletes no user and no
    post. *)
Definition quiet (d d' : db) : Prop :=
  user_clicks d' = user_clicks d /\
  map u_id (users d') = map u_id (users d) /\
  forall p, In p (posts d) -> exists p', In p' (posts d') /\ p_id p' = p_id p.

(** The login codes POST /verify-login would accept for an address. *)
Definition login_codes (email code : string) (now : Z) (s : server)
    : list code_row :=
  select_where
    (fun c => String.eqb (vc_email c) email && String.eqb (vc_code c) code &&
              code_type_eqb (vc_type c) for_login &&
              (vc_expires_at c >? now) && negb (vc_used c))
    (verification_codes s).

(** The example server with a login code issued to Alice at time 0. *)
Definition ex_server_login_code : server :=
  insert_code "alice@example.org" "424242" for_login ten_minutes ex_server.
(** * Numbers and the DECIMAL columns *)

Lemma to_decimal_comp x y : (x == y)%Q -> to_decimal x = to_decimal y.
Proof.
  intros H. unfold to_decimal. rewrite <- H.
  destruct (Qle_bool 0 x); [|f_equal]; apply Qfloor_comp; now rewrite H.
Qed.

Lemma to_decimal_whole n : to_decimal (inject_Z n) = n.
Proof.
  unfold to_decimal.
  destruct (Qle_bool 0 (inject_Z n)) eqn:E.
  - unfold Qfloor, Qplus, inject_Z. simpl.
    symmetry. apply (Z.div_unique_pos _ _ _ 1); lia.
  - unfold Qfloor, Qplus, Qopp, inject_Z. simpl.
    assert (H : (- n * 2 + 1) / 2 = - n)
      by (symmetry; apply (Z.div_unique_pos _ _ _ 1); lia).
    rewrite H. lia.
Qed.

Lemma to_decimal_nonneg x : (0 <= x)%Q -> 0 <= to_decimal x.
Proof.
  intros H. unfold to_decimal.
  rewrite (proj2 (Qle_bool_iff 0 x) H).
  rewrite <- (Qfloor_Z 0). apply Qfloor_resp_le.
  apply Qle_trans with x; [exact H|].
  rewrite <- (Qplus_0_r x) at 1. apply Qplus_le_r. discriminate.
Qed.

Lemma to_decimal_difference e n :
  to_decimal (inject_Z e - inject_Z n) = e - n.
Proof.
  rewrite <- (to_decimal_whole (e - n)). apply to_decimal_comp.
  unfold Z.sub, Qminus. now rewrite inject_Z_plus, inject_Z_opp.
Qed.

Lemma Qlt_b_false x y : Qlt_b x y = false <-> (y <= x)%Q.
Proof.
  unfold Qlt_b. rewrite negb_false_iff. apply Qle_bool_iff.
Qed.

Lemma Qlt_b_true x y : Qlt_b x y = true <-> (x < y)%Q.
Proof.
  unfold Qlt_b. rewrite negb_true_iff. split.
  - intros H. apply Qnot_le_lt. intros Hle.
    apply Qle_bool_iff in Hle. congruence.
  - intros H. destruct (Qle_bool y x) eqn:E; [|reflexivity].
    apply Qle_bool_iff in E. exfalso. now apply (Qlt_not_le x y).
Qed.

Lemma Qle_bool_false x y : Qle_bool x y = false <-> (y < x)%Q.
Proof.
  rewrite <- Qlt_b_true. unfold Qlt_b. now rewrite negb_true_iff.
Qed.

(** * Properties *)

(** ** Tables as lists *)

Section Tables.
Context {A : Type}.
Implicit Types (cond : A -> bool) (set : A -> A) (t : list A).

Lemma select_where_find_some cond t x :
  find cond t = Some x -> exists rest, select_where cond t = x :: rest.
Proof.
  unfold select_where. induction t as [|y t IH]; simpl; [discriminate|].
  destruct (cond y).
  - intros [= ->]. eauto.
  - exact IH.
Qed.

Lemma select_where_find_none cond t :
  find cond t = None -> select_where cond t = [].
Proof.
  unfold select_where. induction t as [|y t IH]; simpl; [reflexivity|].
  destruct (cond y); [discriminate | exact IH].
Qed.

Lemma select_where_head cond t :
  find cond t = hd_error (select_where cond t).
Proof.
  unfold select_where. induction t as [|y t IH]; simpl; [reflexivity|].
  destruct (cond y); [reflexivity | exact IH].
Qed.

Lemma select_where_nil_existsb cond t :
  select_where cond t = [] -> existsb cond t = false.
Proof.
  unfold select_where. induction t as [|y t IH]; simpl; [reflexivity|].
  destruct (cond y); [discriminate | exact IH].
Qed.

Lemma find_some_existsb cond t x : find cond t = Some x -> existsb cond t = true.
Proof.
  intros H. apply find_some in H. apply existsb_exists. eauto.
Qed.

Lemma find_app_none cond t x :
  find cond t = None -> find cond (t ++ [x]) = if cond x then Some x else None.
Proof.
  induction t as [|y t IH]; simpl; [reflexivity|].
  destruct (cond y); [discriminate | exact IH].
Qed.

Lemma find_app_some cond t t' x :
  find cond t = Some x -> find cond (t ++ t') = Some x.
Proof.
  induction t as [|y t IH]; simpl; [discriminate|].
  destruct (cond y); [trivial | exact IH].
Qed.

(** An UPDATE whose setter keeps the looked-up key rewrites the row found. *)
Lemma find_update_where (look cond : A -> bool) set t :
  (forall r, look (set r) = look r) ->
  find look (update_where cond set t)
  = option_map (fun r => if cond r then set r else r) (find look t).
Proof.
  intros Hkey. unfold update_where. induction t as [|y t IH]; simpl; [reflexivity|].
  assert (Hy : look (if cond y then set y else y) = look y)
    by (destruct (cond y); [apply Hkey | reflexivity]).
  rewrite Hy. destruct (look y); [reflexivity | exact IH].
Qed.

Lemma existsb_update_where (look cond : A -> bool) set t :
  (forall r, look (set r) = look r) ->
  existsb look (update_where cond set t) = existsb look t.
Proof.
  intros Hkey. unfold update_where. induction t as [|y t IH]; simpl; [reflexivity|].
  rewrite IH. f_equal. destruct (cond y); [apply Hkey | reflexivity].
Qed.

Lemma update_where_untouched cond set t :
  existsb cond t = false -> update_where cond set t = t.
Proof.
  unfold update_where. induction t as [|y t IH]; simpl; [reflexivity|].
  destruct (cond y); simpl; [discriminate|]. intros H. now rewrite IH.
Qed.

Lemma find_delete_where_same cond t : find cond (delete_where cond t) = None.
Proof.
  unfold delete_where. induction t as [|y t IH]; simpl; [reflexivity|].
  destruct (cond y) eqn:E; simpl; [exact IH|]. now rewrite E.
Qed.

Lemma select_delete_where_same cond t :
  select_where cond (delete_where cond t) = [].
Proof.
  apply select_where_find_none, find_delete_where_same.
Qed.

Lemma filter_update_where (look cond : A -> bool) set t :
  (forall r, look (set r) = look r) ->
  filter look (update_where cond set t)
  = update_where cond set (filter look t).
Proof.
  intros Hkey. unfold update_where. induction t as [|y t IH]; simpl; [reflexivity|].
  assert (Hy : look (if cond y then set y else y) = look y)
    by (destruct (cond y); [apply Hkey | reflexivity]).
  rewrite Hy. destruct (look y); simpl; now rewrite IH.
Qed.

End Tables.

Lemma NoDup_map_filter {A B : Type} (f : A -> B) (keep : A -> bool) (t : list A) :
  NoDup (map f t) -> NoDup (map f (filter keep t)).
Proof.
  induction t as [|y t IH]; simpl; [trivial|].
  intros H. inversion H as [|? ? Hnotin Hnd]; subst.
  destruct (keep y); simpl; [|auto].
  constructor; [|auto].
  intros Hin. apply Hnotin. apply in_map_iff in Hin as (z & Hz & Hzin).
  apply filter_In in Hzin as [Hzin _]. apply in_map_iff. eauto.
Qed.

Lemma truthy_num_some n : n <> 0 -> truthy_num (Some n) = Some n.
Proof.
  intros H. unfold truthy_num. destruct (Z.eqb_spec n 0); [contradiction | reflexivity].
Qed.

Lemma truthy_num_inv v n : truthy_num v = Some n -> v = Some n /\ n <> 0.
Proof.
  unfold truthy_num. destruct v as [m|]; [|discriminate].
  destruct (Z.eqb_spec m 0); [discriminate|]. intros [= ->]. auto.
Qed.

(** ** Settlement *)

Lemma submit_click_inv u body d id rw ad et d' :
  submit_click u body d = (ClickOk id rw ad et, d') ->
  exists pid post,
    postId body = Some pid /\ pid <> 0 /\
    post_by_id d pid = Some post /\ p_is_active post = true /\
    clicks_of_pair d u pid = [] /\
    existsb (fun v => u_id v =? u) (users d) = true /\
    id = next_click_id d /\ rw = p_reward_amount post /\
    ad = limit_reached post (or_zero (p_click_count post) + 1) /\
    et = p_engagement_type post /\
    settled u pid post ad d d'.
Proof.
  unfold submit_click.
  destruct (truthy_num (postId body)) as [pid|] eqn:Hpid; [|discriminate].
  apply truthy_num_inv in Hpid as [Hbody Hnz].
  destruct (select_where _ (posts d)) as [|post rest] eqn:Hsel; [discriminate|].
  destruct (p_is_active post) eqn:Hact; simpl; [|discriminate].
  destruct (clicks_of_pair d u pid) eqn:Hpair; [|discriminate].
  unfold insert_user_click. fold (clicks_of_pair d u pid).
  unfold clicks_of_pair in Hpair.
  rewrite (select_where_nil_existsb _ _ Hpair).
  destruct (existsb (fun v => u_id v =? u) (users d)) eqn:Hu; simpl; [|discriminate].
  destruct (existsb (fun p => p_id p =? pid) (posts d)) eqn:Hp; simpl; [|discriminate].
  intros H. injection H as <- <- <- <- <-.
  exists pid, post. repeat split; trivial;
    try (simpl; destruct (limit_reached _ _); reflexivity).
  unfold post_by_id. rewrite select_where_head, Hsel. reflexivity.
Qed.

Lemma submit_click_settles u body d pid post :
  postId body = Some pid -> pid <> 0 ->
  post_by_id d pid = Some post -> p_is_active post = true ->
  clicks_of_pair d u pid = [] ->
  existsb (fun v => u_id v =? u) (users d) = true ->
  exists d',
    submit_click u body d
    = (ClickOk (next_click_id d) (p_reward_amount post)
               (limit_reached post (or_zero (p_click_count post) + 1))
               (p_engagement_type post), d')
    /\ settled u pid post
               (limit_reached post (or_zero (p_click_count post) + 1)) d d'.
Proof.
  intros Hbody Hnz Hpost Hact Hpair Hu.
  destruct (submit_click u body d) as [r d'] eqn:E.
  assert (Hr : exists id rw ad et, r = ClickOk id rw ad et).
  { revert E. unfold submit_click. rewrite Hbody, (truthy_num_some _ Hnz).
    unfold post_by_id in Hpost.
    destruct (select_where_find_some _ _ _ Hpost) as [rest ->].
    rewrite Hact, Hpair. simpl.
    unfold insert_user_click. unfold clicks_of_pair in Hpair.
    rewrite (select_where_nil_existsb _ _ Hpair), Hu.
    rewrite (find_some_existsb _ _ _ Hpost). simpl.
    intros [= <- _]. eauto. }
  destruct Hr as (id & rw & ad & et & ->).
  destruct (submit_click_inv _ _ _ _ _ _ _ _ E)
    as (pid' & post' & Hb' & _ & Hp' & _ & _ & _ & -> & -> & -> & -> & Hs).
  assert (pid' = pid) by congruence. subst pid'.
  assert (post' = post) by congruence. subst post'.
  exists d'. split; [reflexivity | exact Hs].
Qed.

(** Every way out of the handler other than success is taken before the
    first write or after a rollback. *)
Lemma submit_click_failure_keeps_store u body d r d' :
  submit_click u body d = (r, d') ->
  (forall id rw ad et, r <> ClickOk id rw ad et) -> d' = d.
Proof.
  unfold submit_click.
  destruct (truthy_num (postId body)) as [pid|]; [|now intros [= _ <-]].
  destruct (select_where _ (posts d)) as [|post rest]; [now intros [= _ <-]|].
  destruct (negb (p_is_active post)); [now intros [= _ <-]|].
  destruct (clicks_of_pair d u pid); [|now intros [= _ <-]].
  destruct (insert_user_click _ _ _ d) as [[i d1]|]; [|now intros [= _ <-]].
  intros [= <- _] H. exfalso. eapply H. reflexivity.
Qed.

Lemma existsb_false_forall {A : Type} (f : A -> bool) (t : list A) :
  existsb f t = false -> forall x, In x t -> f x = false.
Proof.
  intros H x Hin. destruct (f x) eqn:E; [|reflexivity].
  assert (existsb f t = true) by (apply existsb_exists; eauto). congruence.
Qed.

Lemma filter_nil_forall {A : Type} (f : A -> bool) (t : list A) :
  (forall x, In x t -> f x = false) -> filter f t = [].
Proof.
  induction t as [|y t IH]; simpl; [reflexivity|]. intros H.
  rewrite (H y) by auto. apply IH. auto.
Qed.

Lemma existsb_find_some {A : Type} (f : A -> bool) (t : list A) :
  existsb f t = true -> exists x, find f t = Some x.
Proof.
  induction t as [|y t IH]; simpl; [discriminate|].
  destruct (f y); simpl; eauto.
Qed.

Lemma no_click_of_pair_existsb d u pid :
  clicks_of_pair d u pid = [] ->
  existsb (fun c => (c_user_id c =? u) && (c_post_id c =? pid)) (user_clicks d)
  = false.
Proof. apply select_where_nil_existsb. Qed.

(** The insert of a settlement keeps [unique_user_post]; the cascade of an
    auto-delete only removes rows. *)
Lemma settled_unique_user_post u pid post del d d' :
  clicks_of_pair d u pid = [] ->
  settled u pid post del d d' ->
  unique_user_post d -> unique_user_post d'.
Proof.
  intros Hpair Hs Hnd. unfold unique_user_post in *.
  rewrite (st_clicks _ _ _ _ _ _ Hs). cbv zeta.
  assert (Hadded :
    NoDup (map (fun c => (c_user_id c, c_post_id c))
               (user_clicks d ++
                  [mkClick (next_click_id d) u pid (p_reward_amount post)]))).
  { rewrite map_app. simpl. apply NoDup_app; trivial.
    - constructor; [intros [] | constructor].
    - intros key Hin [<-|[]].
      apply in_map_iff in Hin as (c & Hc & Hcin).
      pose proof (existsb_false_forall _ _
                    (no_click_of_pair_existsb _ _ _ Hpair) c Hcin) as Hno.
      simpl in Hno. injection Hc as Hcu Hcp.
      rewrite Hcu, Hcp, !Z.eqb_refl in Hno. discriminate. }
  destruct del; [apply NoDup_map_filter|]; exact Hadded.
Qed.

Lemma submit_click_keeps_unique_user_post u body d :
  unique_user_post d -> unique_user_post (snd (submit_click u body d)).
Proof.
  intros Hnd. destruct (submit_click u body d) as [r d'] eqn:E. simpl.
  destruct r; try (rewrite (submit_click_failure_keeps_store _ _ _ _ _ E);
                   [exact Hnd | intros; discriminate]).
  destruct (submit_click_inv _ _ _ _ _ _ _ _ E)
    as (pid & post & _ & _ & _ & _ & Hpair & _ & _ & _ & _ & _ & Hs).
  eapply settled_unique_user_post; eauto.
Qed.

Lemma submit_click_post_gone u body d pid :
  postId body = Some pid -> pid <> 0 -> post_by_id d pid = None ->
  submit_click u body d = (ClickPostNotFound, d).
Proof.
  intros Hbody Hnz Hnone. unfold submit_click.
  rewrite Hbody, (truthy_num_some _ Hnz).
  unfold post_by_id in Hnone. now rewrite (select_where_find_none _ _ Hnone).
Qed.

Lemma settled_post_kept u pid post d d' :
  post_by_id d pid = Some post ->
  settled u pid post false d d' ->
  post_by_id d' pid
  = Some (set_click_count (or_zero (p_click_count post) + 1) post).
Proof.
  intros Hpost Hs. unfold post_by_id in *.
  rewrite (st_posts _ _ _ _ _ _ Hs). cbv zeta.
  rewrite find_update_where by reflexivity. rewrite Hpost. simpl.
  apply find_some in Hpost as [_ ->]. reflexivity.
Qed.

Lemma settled_post_deleted u pid post d d' :
  settled u pid post true d d' ->
  post_by_id d' pid = None /\ clicks_of_post d' pid = [].
Proof.
  intros Hs. unfold post_by_id, clicks_of_post.
  rewrite (st_posts _ _ _ _ _ _ Hs), (st_clicks _ _ _ _ _ _ Hs). cbv zeta.
  split; [apply find_delete_where_same | apply select_delete_where_same].
Qed.

Lemma settled_row_of_pair u pid post del d d' :
  clicks_of_pair d u pid = [] ->
  settled u pid post del d d' ->
  clicks_of_pair d' u pid
  = if del then []
    else [mkClick (next_click_id d) u pid (p_reward_amount post)].
Proof.
  intros Hpair Hs. unfold clicks_of_pair in *.
  rewrite (st_clicks _ _ _ _ _ _ Hs). cbv zeta.
  destruct del.
  - unfold select_where, delete_where. apply filter_nil_forall.
    intros c Hin. apply filter_In in Hin as [_ Hc].
    destruct (c_post_id c =? pid); [discriminate | apply andb_false_r].
  - unfold select_where in *. rewrite filter_app, Hpair. simpl.
    now rewrite !Z.eqb_refl.
Qed.

Lemma settled_other_pair u v pid post d d' :
  v <> u ->
  clicks_of_pair d v pid = [] ->
  settled u pid post false d d' ->
  clicks_of_pair d' v pid = [].
Proof.
  intros Hne Hpair Hs. unfold clicks_of_pair in *.
  rewrite (st_clicks _ _ _ _ _ _ Hs). cbv zeta.
  unfold select_where in *. rewrite filter_app, Hpair. simpl.
  destruct (Z.eqb_spec u v); [congruence | reflexivity].
Qed.

Lemma settled_users_known u v pid post del d d' :
  settled u pid post del d d' ->
  existsb (fun r => u_id r =? v) (users d')
  = existsb (fun r => u_id r =? v) (users d).
Proof.
  intros Hs. rewrite (st_users _ _ _ _ _ _ Hs).
  now apply existsb_update_where.
Qed.

Lemma settled_balance u pid post del d d' :
  existsb (fun v => u_id v =? u) (users d) = true ->
  settled u pid post del d d' ->
  exists B, balance_of d u = Some B /\
            balance_of d' u = Some (B + p_reward_amount post).
Proof.
  intros Hu Hs. unfold balance_of, user_by_id.
  rewrite (st_users _ _ _ _ _ _ Hs).
  rewrite find_update_where by reflexivity.
  destruct (existsb_find_some _ _ Hu) as [row Hrow]. rewrite Hrow. simpl.
  apply find_some in Hrow as [_ ->]. eauto.
Qed.

Lemma registered_existsb d uid :
  registered d uid -> existsb (fun r => u_id r =? uid) (users d) = true.
Proof.
  unfold registered, user_by_id. intros H.
  destruct (find _ (users d)) as [row|] eqn:E; [|contradiction].
  eapply find_some_existsb; eauto.
Qed.

(** C1 (as amended). A store keeps at most one click row per (user, post)
    pair across a successful submit-click, and the same user submitting the
    same body again changes nothing in the store: the answer is the
    duplicate-submission error while the post still exists, and NotFound
    when the first settlement retired the post. *)
Theorem second_submit_click_changes_nothing u body d id rw ad et d1 :
  unique_user_post d ->
  submit_click u body d = (ClickOk id rw ad et, d1) ->
  unique_user_post d1 /\
  submit_click u body d1
  = (if ad then ClickPostNotFound else ClickAlreadySubmitted, d1).
Proof.
  intros Hnd E.
  destruct (submit_click_inv _ _ _ _ _ _ _ _ E)
    as (pid & post & Hbody & Hnz & Hpost & Hact & Hpair & Hu & _ & _ & Had & _ & Hs).
  split; [eapply settled_unique_user_post; eauto|].
  destruct ad.
  - apply submit_click_post_gone with (pid := pid); trivial.
    apply (settled_post_deleted _ _ _ _ _ Hs).
  - pose proof (settled_post_kept _ _ _ _ _ Hpost Hs) as Hkept.
    pose proof (settled_row_of_pair _ _ _ _ _ _ Hpair Hs) as Hrow.
    unfold submit_click. rewrite Hbody, (truthy_num_some _ Hnz).
    unfold post_by_id in Hkept.
    destruct (select_where_find_some _ _ _ Hkept) as [rest ->].
    simpl. rewrite Hact, Hrow. reflexivity.
Qed.

Lemma second_submit_click_changes_nothing_witness :
  unique_user_post ex_db /\
  submit_click 1 ex_click_body ex_db
  = (ClickOk 1 15 false like, snd (submit_click 1 ex_click_body ex_db)) /\
  unique_user_post (snd (submit_click 1 ex_click_body ex_db)) /\
  submit_click 1 ex_click_body (snd (submit_click 1 ex_click_body ex_db))
  = (ClickAlreadySubmitted, snd (submit_click 1 ex_click_body ex_db)).
Proof.
  assert (H0 : unique_user_post ex_db) by constructor.
  assert (H1 : submit_click 1 ex_click_body ex_db
               = (ClickOk 1 15 false like,
                  snd (submit_click 1 ex_click_body ex_db))) by reflexivity.
  split; [exact H0|]. split; [exact H1|].
  exact (second_submit_click_changes_nothing _ _ _ _ _ _ _ _ H0 H1).
Defined.

(** C1 as stated fails: with one click left before the limit, the first
    submit-click succeeds and retires the post, and the second one by the
    same user answers 404 'Post not found', not the duplicate error. *)
Lemma second_click_on_retired_post_is_not_found :
  fst (submit_click 1 ex_click_body ex_db_last) = ClickOk 1 15 true like /\
  fst (submit_click 1 ex_click_body
         (snd (submit_click 1 ex_click_body ex_db_last)))
  = ClickPostNotFound /\
  fst (submit_click 1 ex_click_body
         (snd (submit_click 1 ex_click_body ex_db_last)))
  <> ClickAlreadySubmitted.
Proof.
  split; [reflexivity|]. split; [reflexivity | discriminate].
Qed.

(** C8. Two submit-click requests of one user that agree on [postId] run
    identically whatever else their bodies carry, and on success the
    returned reward, the wallet credit and the reward of the click row are
    the stored post's [reward_amount]. *)
Theorem settlement_depends_on_post_id_only u b1 b2 d :
  postId b1 = postId b2 ->
  submit_click u b1 d = submit_click u b2 d /\
  forall id rw ad et d',
    submit_click u b1 d = (ClickOk id rw ad et, d') ->
    exists pid post B,
      postId b1 = Some pid /\ post_by_id d pid = Some post /\
      rw = p_reward_amount post /\
      balance_of d u = Some B /\
      balance_of d' u = Some (B + p_reward_amount post) /\
      clicks_of_pair d' u pid
      = if ad then [] else [mkClick id u pid (p_reward_amount post)].
Proof.
  intros Hsame. split.
  - unfold submit_click. rewrite Hsame. reflexivity.
  - intros id rw ad et d' E.
    destruct (submit_click_inv _ _ _ _ _ _ _ _ E)
      as (pid & post & Hbody & _ & Hpost & _ & Hpair & Hu & -> & -> & _ & _ & Hs).
    destruct (settled_balance _ _ _ _ _ _ Hu Hs) as (B & HB & HB').
    exists pid, post, B. repeat split; trivial.
    apply (settled_row_of_pair _ _ _ _ _ _ Hpair Hs).
Qed.

Lemma settlement_depends_on_post_id_only_witness :
  postId ex_click_body = postId ex_click_body_noisy /\
  submit_click 2 ex_click_body ex_db = submit_click 2 ex_click_body_noisy ex_db /\
  fst (submit_click 2 ex_click_body_noisy ex_db) = ClickOk 1 15 false like /\
  balance_of (snd (submit_click 2 ex_click_body_noisy ex_db)) 2 = Some 5015.
Proof.
  assert (H0 : postId ex_click_body = postId ex_click_body_noisy) by reflexivity.
  split; [exact H0|].
  split; [exact (proj1 (settlement_depends_on_post_id_only 2 _ _ ex_db H0))|].
  split; reflexivity.
Defined.

(** Settlements below the limit, one user after another. *)
Lemma submit_all_below_limit pid N :
  pid <> 0 ->
  forall us d post,
    post_by_id d pid = Some post ->
    p_is_active post = true ->
    p_click_limit post = Some N ->
    or_zero (p_click_count post) + Z.of_nat (List.length us) < N ->
    NoDup us ->
    Forall (registered d) us ->
    Forall (fun v => clicks_of_pair d v pid = []) us ->
    exists rs d1 post1,
      submit_all us pid d = (rs, d1) /\
      Forall (settled_in_place post) rs /\
      post_by_id d1 pid = Some post1 /\
      or_zero (p_click_count post1)
      = or_zero (p_click_count post) + Z.of_nat (List.length us) /\
      p_is_active post1 = true /\
      p_click_limit post1 = Some N /\
      p_auto_delete_enabled post1 = p_auto_delete_enabled post /\
      p_reward_amount post1 = p_reward_amount post /\
      p_engagement_type post1 = p_engagement_type post /\
      (forall v, registered d v -> registered d1 v) /\
      (forall v, ~ In v us -> clicks_of_pair d v pid = [] ->
                 clicks_of_pair d1 v pid = []).
Proof.
  intros Hnz us. induction us as [|u us IH]; intros d post Hpost Hact Hlim Hlt Hnd Hreg Hno.
  - exists [], d, post. simpl. rewrite Z.add_0_r. repeat split; auto.
  - inversion Hnd as [|? ? Hnotin Hnd']; subst.
    inversion Hreg as [|? ? Hu Hreg']; subst.
    inversion Hno as [|? ? Hpair Hno']; subst.
    rewrite length_cons, Nat2Z.inj_succ in Hlt.
    destruct (submit_click_settles u (mkClickBody (Some pid) None None []) d pid post
                eq_refl Hnz Hpost Hact Hpair (registered_existsb _ _ Hu))
      as (d' & E & Hs).
    assert (Hdel : limit_reached post (or_zero (p_click_count post) + 1) = false).
    { unfold limit_reached. rewrite Hlim. unfold truthy_num.
      destruct (N =? 0); [reflexivity|].
      replace (or_zero (p_click_count post) + 1 >=? N) with false;
        [apply andb_false_r|].
      symmetry. rewrite Z.geb_leb. apply Z.leb_gt. lia. }
    rewrite Hdel in E, Hs.
    pose proof (settled_post_kept _ _ _ _ _ Hpost Hs) as Hkept.
    assert (Hreg1 : forall v, registered d v -> registered d' v).
    { intros v Hv. unfold registered, user_by_id.
      pose proof (registered_existsb _ _ Hv) as Hex.
      rewrite <- (settled_users_known _ v _ _ _ _ _ Hs) in Hex.
      destruct (existsb_find_some _ _ Hex) as [row ->]. discriminate. }
    destruct (IH d' (set_click_count (or_zero (p_click_count post) + 1) post))
      as (rs & d1 & post1 & Eall & Hrs & Hp1 & Hcnt & Hact1 & Hlim1 & Haut1
          & Hrw1 & Het1 & Hreg2 & Hno2); trivial.
    + simpl. lia.
    + eapply Forall_impl; [|exact Hreg']. auto.
    + apply Forall_forall. intros v Hv.
      rewrite Forall_forall in Hno'.
      apply (settled_other_pair u v pid post d d'); auto.
      intros ->. contradiction.
    + exists (ClickOk (next_click_id d) (p_reward_amount post) false
                      (p_engagement_type post) :: rs), d1, post1.
      simpl in *. rewrite E, Eall.
      repeat split; trivial.
      * constructor; [eexists; reflexivity | exact Hrs].
      * lia.
      * auto.
      * intros v Hv Hpv. apply Hno2; [tauto|].
        apply (settled_other_pair u v pid post d d'); auto.
Qed.

(** C3. A post with click limit [N] and auto-delete on, no click counted
    yet: distinct users settle it one after another. Each of the first
    [N-1] settlements answers with [autoDeleted = false] and leaves the post
    in place with its counter one higher. The [N]th answers with
    [autoDeleted = true], and afterwards neither the post nor any click row
    of it (the [N]th user's included) is stored, and every further
    submit-click for that id answers 404 'Post not found'. *)
Theorem auto_delete_at_click_limit d pid post N us u body :
  pid <> 0 ->
  post_by_id d pid = Some post ->
  p_is_active post = true ->
  p_auto_delete_enabled post = true ->
  p_click_limit post = Some N ->
  or_zero (p_click_count post) = 0 ->
  Z.of_nat (List.length us) < N ->
  NoDup (us ++ [u]) ->
  Forall (registered d) (us ++ [u]) ->
  Forall (fun v => clicks_of_pair d v pid = []) (us ++ [u]) ->
  postId body = Some pid ->
  exists rs d1 post1 id d2,
    submit_all us pid d = (rs, d1) /\
    Forall (settled_in_place post) rs /\
    post_by_id d1 pid = Some post1 /\
    or_zero (p_click_count post1) = Z.of_nat (List.length us) /\
    if Z.of_nat (List.length us) + 1 <? N
    then
      submit_click u body d1
      = (ClickOk id (p_reward_amount post) false (p_engagement_type post), d2) /\
      option_map p_click_count (post_by_id d2 pid)
      = Some (Some (Z.of_nat (List.length us) + 1))
    else
      submit_click u body d1
      = (ClickOk id (p_reward_amount post) true (p_engagement_type post), d2) /\
      post_by_id d2 pid = None /\
      clicks_of_post d2 pid = [] /\
      forall v body',
        postId body' = Some pid ->
        submit_click v body' d2 = (ClickPostNotFound, d2).
Proof.
  intros Hnz Hpost Hact Hauto Hlim Hzero Hlt Hnd Hreg Hno Hbody.
  apply NoDup_remove in Hnd as [Hnd Hnotin]. rewrite app_nil_r in Hnd, Hnotin.
  apply Forall_app in Hreg as [Hreg Hregu]. inversion Hregu as [|? ? Hu _]; subst.
  apply Forall_app in Hno as [Hno Hnou]. inversion Hnou as [|? ? Hpair _]; subst.
  destruct (submit_all_below_limit pid N Hnz us d post)
    as (rs & d1 & post1 & Eall & Hrs & Hp1 & Hcnt & Hact1 & Hlim1 & Haut1
        & Hrw1 & Het1 & Hreg1 & Hno1); trivial; [lia|].
  rewrite Hzero, Z.add_0_l in Hcnt.
  destruct (submit_click_settles u body d1 pid post1 Hbody Hnz Hp1 Hact1
              (Hno1 u Hnotin Hpair) (registered_existsb _ _ (Hreg1 u Hu)))
    as (d2 & E & Hs).
  rewrite Hrw1, Het1, Hcnt in E. rewrite Hcnt in Hs.
  assert (Hdel : limit_reached post1 (Z.of_nat (List.length us) + 1)
                 = negb (Z.of_nat (List.length us) + 1 <? N)).
  { unfold limit_reached. rewrite Hlim1, Haut1, Hauto. unfold truthy_num.
    destruct (Z.eqb_spec N 0); [lia|]. simpl.
    rewrite Z.geb_leb. apply Z.leb_antisym. }
  rewrite Hdel in E, Hs.
  exists rs, d1, post1, (next_click_id d1), d2.
  repeat split; trivial.
  destruct (Z.of_nat (List.length us) + 1 <? N); simpl in E, Hs.
  - split; [exact E|].
    rewrite (settled_post_kept _ _ _ _ _ Hp1 Hs). simpl. now rewrite Hcnt.
  - destruct (settled_post_deleted _ _ _ _ _ Hs) as [Hgone Hclicks].
    repeat split; trivial.
    intros v body' Hb'. now apply submit_click_post_gone with (pid := pid).
Qed.

Lemma auto_delete_at_click_limit_witness :
  exists rs d1 post1 id d2,
    submit_all [1] 7 ex_db = (rs, d1) /\
    Forall (settled_in_place ex_post) rs /\
    post_by_id d1 7 = Some post1 /\
    or_zero (p_click_count post1) = Z.of_nat (List.length [1]) /\
    if Z.of_nat (List.length [1]) + 1 <? 2
    then
      submit_click 2 ex_click_body_noisy d1
      = (ClickOk id (p_reward_amount ex_post) false
                 (p_engagement_type ex_post), d2) /\
      option_map p_click_count (post_by_id d2 7)
      = Some (Some (Z.of_nat (List.length [1]) + 1))
    else
      submit_click 2 ex_click_body_noisy d1
      = (ClickOk id (p_reward_amount ex_post) true
                 (p_engagement_type ex_post), d2) /\
      post_by_id d2 7 = None /\
      clicks_of_post d2 7 = [] /\
      forall v body',
        postId body' = Some 7 ->
        submit_click v body' d2 = (ClickPostNotFound, d2).
Proof.
  apply (auto_delete_at_click_limit ex_db 7 ex_post 2 [1] 2 ex_click_body_noisy).
  - discriminate.
  - reflexivity.
  - reflexivity.
  - reflexivity.
  - reflexivity.
  - reflexivity.
  - simpl. lia.
  - simpl. constructor.
    + simpl. intros [H|[]]. discriminate.
    + constructor; [intros [] | constructor].
  - simpl. repeat constructor; discriminate.
  - simpl. repeat constructor.
  - reflexivity.
Defined.

(** ** Withdrawals *)

Lemma withdraw_inv uid body d a m d1 :
  withdraw uid body d = (WdOk a m, d1) ->
  m = method body /\ m <> "" /\ accountDetails body <> "" /\
  amount body = AmountNum a /\ (0 < a)%Q /\
  below_minimum a m = None /\
  exists row wm,
    user_by_id d uid = Some row /\ (a <= inject_Z (u_earnings row))%Q /\
    method_of_string m = Some wm /\
    requested uid a wm (accountDetails body) d d1.
Proof.
  unfold withdraw.
  destruct (String.eqb_spec (method body) "") as [|Hm]; simpl; [discriminate|].
  destruct (amount body) as [| |h] eqn:Ha; simpl; try discriminate.
  - destruct (String.eqb (accountDetails body) ""); discriminate.
  - destruct (String.eqb_spec (accountDetails body) "") as [|Hd]; [discriminate|].
    destruct (Qle_bool h 0) eqn:Hpos; [discriminate|].
    destruct (below_minimum h (method body)) eqn:Hmin; [discriminate|].
    destruct (select_where _ (users d)) as [|row rest] eqn:Hsel; [discriminate|].
    destruct (Qlt_b (inject_Z (u_earnings row)) h) eqn:Hle; [discriminate|].
    unfold insert_withdrawal.
    destruct (method_of_string (method body)) as [wm|] eqn:Hwm; [|discriminate].
    destruct (existsb _ (users d)); simpl; [|discriminate].
    intros [= <- <- <-]. repeat split; trivial.
    + now apply Qle_bool_false.
    + exists row, wm. repeat split; trivial.
      * unfold user_by_id. rewrite select_where_head, Hsel. reflexivity.
      * now apply Qlt_b_false.
Qed.

Lemma withdraw_failure_keeps_store uid body d r d1 :
  withdraw uid body d = (r, d1) ->
  (forall a m, r <> WdOk a m) -> d1 = d.
Proof.
  unfold withdraw.
  destruct (_ || _); [now intros [= _ <-]|].
  destruct (parseFloat (amount body)) as [h|]; [|now intros [= _ <-]].
  destruct (Qle_bool h 0); [now intros [= _ <-]|].
  destruct (below_minimum h (method body)); [now intros [= _ <-]|].
  destruct (select_where _ (users d)) as [|row rest]; [now intros [= _ <-]|].
  destruct (Qlt_b _ h); [now intros [= _ <-]|].
  destruct (insert_withdrawal _ _ _ _ d); [|now intros [= _ <-]].
  intros [= <- _] H. exfalso. eapply H. reflexivity.
Qed.

Lemma requested_balance uid a wm details d d' row :
  user_by_id d uid = Some row ->
  requested uid a wm details d d' ->
  user_by_id d' uid = Some (withdrawn a row).
Proof.
  intros Hrow Hr. unfold user_by_id in *.
  rewrite (rq_users _ _ _ _ _ _ Hr), find_update_where by reflexivity.
  rewrite Hrow. simpl. apply find_some in Hrow as [_ ->]. reflexivity.
Qed.

Lemma requested_is_pending uid a wm details d d' row :
  withdrawal_ids_fresh d = true ->
  user_by_id d uid = Some row ->
  requested uid a wm details d d' ->
  pending_withdrawal (next_withdrawal_id d) d'
  = [mkWithdrawal (next_withdrawal_id d) uid (to_decimal a) wm details
                  pending None None].
Proof.
  intros Hfresh Hrow Hr. unfold pending_withdrawal, select_where.
  rewrite (rq_withdrawals _ _ _ _ _ _ Hr), filter_app.
  rewrite filter_nil_forall.
  - simpl. rewrite Z.eqb_refl. simpl.
    rewrite (rq_users _ _ _ _ _ _ Hr), existsb_update_where by reflexivity.
    unfold user_by_id in Hrow. now rewrite (find_some_existsb _ _ _ Hrow).
  - intros w Hin. unfold withdrawal_ids_fresh in Hfresh.
    rewrite forallb_forall in Hfresh. specialize (Hfresh w Hin).
    apply Z.ltb_lt in Hfresh.
    destruct (Z.eqb_spec (w_id w) (next_withdrawal_id d)); [lia | reflexivity].
Qed.

(** What a decline does after an accepted request of any amount: the
    request leaves the balance at the rounded difference, the withdrawal
    row keeps the rounded amount, and the decline adds the latter to the
    former. *)
Lemma decline_after_request uid body d B q m d1 notes now :
  withdrawal_ids_fresh d = true ->
  balance_of d uid = Some B ->
  withdraw uid body d = (WdOk q m, d1) ->
  (0 < q)%Q /\ (q <= inject_Z B)%Q /\
  balance_of d1 uid = Some (to_decimal (inject_Z B - q)) /\
  exists d2,
    process_withdrawal (next_withdrawal_id d) "declined" notes now d1
    = (ProcOk (next_withdrawal_id d) declined (to_decimal q) true, d2) /\
    balance_of d2 uid = Some (to_decimal (inject_Z B - q) + to_decimal q).
Proof.
  intros Hfresh HB E.
  destruct (withdraw_inv _ _ _ _ _ _ E)
    as (_ & _ & _ & _ & Hpos & _ & row & wm & Hrow & Hle & _ & Hr).
  assert (HBrow : B = u_earnings row).
  { unfold balance_of in HB. rewrite Hrow in HB. simpl in HB. congruence. }
  subst B.
  pose proof (requested_balance _ _ _ _ _ _ _ Hrow Hr) as Hrow1.
  split; [exact Hpos|]. split; [exact Hle|]. split.
  - unfold balance_of. rewrite Hrow1. reflexivity.
  - unfold process_withdrawal. simpl decision_of_string. cbv iota.
    rewrite (requested_is_pending _ _ _ _ _ _ _ Hfresh Hrow Hr).
    simpl. eexists. split; [reflexivity|].
    unfold balance_of, user_by_id in *. simpl.
    rewrite find_update_where by reflexivity. rewrite Hrow1. simpl.
    replace (u_id row =? uid) with true
      by (symmetry; apply find_some in Hrow as [_ ->]; reflexivity).
    reflexivity.
Qed.

(** C2 (as amended). A user with balance [B] whose withdrawal request of a
    whole number [a] of hundredths is accepted is debited exactly [a];
    declining that withdrawal, with nothing else written in between,
    refunds the stored amount [a] in full and the balance is [B] again. *)
Theorem decline_restores_balance uid body d B q a m d1 notes now :
  withdrawal_ids_fresh d = true ->
  balance_of d uid = Some B ->
  withdraw uid body d = (WdOk q m, d1) ->
  (q == inject_Z a)%Q ->
  0 < a <= B /\
  balance_of d1 uid = Some (B - a) /\
  exists d2,
    process_withdrawal (next_withdrawal_id d) "declined" notes now d1
    = (ProcOk (next_withdrawal_id d) declined a true, d2) /\
    balance_of d2 uid = Some B.
Proof.
  intros Hfresh HB E Hq.
  destruct (decline_after_request _ _ _ _ _ _ _ notes now Hfresh HB E)
    as (Hpos & Hle & H1 & d2 & E2 & H2).
  assert (Ha : to_decimal q = a)
    by (rewrite (to_decimal_comp _ _ Hq); apply to_decimal_whole).
  assert (Hd : to_decimal (inject_Z B - q) = B - a).
  { rewrite (to_decimal_comp _ (inject_Z B - inject_Z a))
      by (now rewrite Hq).
    apply to_decimal_difference. }
  rewrite Hq in Hpos, Hle.
  change 0%Q with (inject_Z 0) in Hpos.
  rewrite <- Zlt_Qlt in Hpos. rewrite <- Zle_Qle in Hle.
  split; [lia|]. split; [now rewrite H1, Hd|].
  exists d2. rewrite <- Ha at 1. split; [exact E2|].
  rewrite H2, Hd, Ha. f_equal; lia.
Qed.

Lemma decline_restores_balance_witness :
  withdrawal_ids_fresh ex_db = true /\
  balance_of ex_db 2 = Some 5000 /\
  withdraw 2 ex_withdraw_body ex_db
  = (WdOk 3000 "paytm", snd (withdraw 2 ex_withdraw_body ex_db)) /\
  (3000 == inject_Z 3000)%Q /\
  0 < 3000 <= 5000 /\
  balance_of (snd (withdraw 2 ex_withdraw_body ex_db)) 2 = Some (5000 - 3000) /\
  exists d2,
    process_withdrawal (next_withdrawal_id ex_db) "declined" None 86400
                       (snd (withdraw 2 ex_withdraw_body ex_db))
    = (ProcOk (next_withdrawal_id ex_db) declined 3000 true, d2) /\
    balance_of d2 2 = Some 5000.
Proof.
  assert (H0 : withdrawal_ids_fresh ex_db = true) by reflexivity.
  assert (H1 : balance_of ex_db 2 = Some 5000) by reflexivity.
  assert (H2 : withdraw 2 ex_withdraw_body ex_db
               = (WdOk 3000 "paytm", snd (withdraw 2 ex_withdraw_body ex_db)))
    by reflexivity.
  assert (H3 : (3000 == inject_Z 3000)%Q) by reflexivity.
  split; [exact H0|]. split; [exact H1|]. split; [exact H2|].
  split; [exact H3|].
  exact (decline_restores_balance 2 ex_withdraw_body ex_db 5000 3000 3000
           "paytm" _ None 86400 H0 H1 H2 H3).
Defined.

(** C2 as stated fails: the first user holds 200.00 and asks for an Amazon
    gift card of 100.005 to an e-mail address. The request is valid in
    every respect (a positive number above the minimum of 100 for amazon,
    not above the balance, a destination with an ['@']; the form's own
    check passes it too) and is accepted. The balance column keeps
    200.00 - 100.005 rounded, which is 100.00, and the withdrawal row
    keeps 100.005 rounded, which is 100.01: the request has debited
    100.00, not the amount, and the decline adds the stored 100.01, so the
    balance ends at 200.01, not at the 200.00 it started from. *)
Lemma decline_overpays_third_decimal :
  withdrawal_ids_fresh ex_db = true /\
  balance_of ex_db 1 = Some 20000 /\
  handleSubmit_accepts "amazon" (Some (20001 # 2)%Q) "alice@example.org" 20000
  = true /\
  fst (withdraw 1 ex_withdraw_body_third_decimal ex_db)
  = WdOk (20001 # 2) "amazon" /\
  balance_of (snd (withdraw 1 ex_withdraw_body_third_decimal ex_db)) 1
  = Some 10000 /\
  fst (process_withdrawal 1 "declined" None 86400
         (snd (withdraw 1 ex_withdraw_body_third_decimal ex_db)))
  = ProcOk 1 declined 10001 true /\
  balance_of
    (snd (process_withdrawal 1 "declined" None 86400
            (snd (withdraw 1 ex_withdraw_body_third_decimal ex_db)))) 1
  = Some 20001 /\
  Some 20001 <> Some 20000.
Proof. repeat split; try reflexivity. discriminate. Qed.





(** For the record: [minAmounts] has no entry for paytm, so a one-rupee
    Paytm request passes the server although the form's floor is 30.00. *)
Example withdraw_one_rupee_by_paytm :
  fst (withdraw 1 ex_withdraw_body_one_rupee ex_db) = WdOk 100 "paytm" /\
  handleSubmit_accepts "paytm" (Some 100%Q) "9876543210" 20000 = false.
Proof. split; reflexivity. Qed.


Lemma pending_withdrawal_sound id d w rest :
  pending_withdrawal id d = w :: rest ->
  In w (withdrawals d) /\ w_id w = id /\ w_status w = pending.
Proof.
  intros H. assert (Hin : In w (pending_withdrawal id d)) by (rewrite H; left; reflexivity).
  unfold pending_withdrawal, select_where in Hin.
  apply filter_In in Hin as [Hin Hc].
  apply andb_prop in Hc as [Hc _]. apply andb_prop in Hc as [Hid Hp].
  apply Z.eqb_eq in Hid. unfold is_pending in Hp.
  destruct (w_status w); try discriminate. auto.
Qed.

Lemma pending_withdrawal_none id d :
  (forall w, In w (withdrawals d) -> w_id w = id -> w_status w <> pending) ->
  pending_withdrawal id d = [].
Proof.
  intros H. unfold pending_withdrawal, select_where.
  apply filter_nil_forall. intros w Hin.
  destruct (Z.eqb_spec (w_id w) id) as [Hid|]; [|reflexivity].
  specialize (H w Hin Hid). unfold is_pending.
  destruct (w_status w); [contradiction | reflexivity | reflexivity].
Qed.

Lemma decision_of_string_not_pending s st :
  decision_of_string s = Some st -> st <> pending.
Proof.
  unfold decision_of_string.
  destruct (String.eqb s "approved"); [intros [= <-]; discriminate|].
  destruct (String.eqb s "declined"); [intros [= <-]; discriminate | discriminate].
Qed.

Lemma resolved_rows id st notes t (ws : list withdrawal_row) n w :
  nth_error ws n = Some w ->
  exists w',
    nth_error (update_where (fun x => w_id x =? id)
                            (set_resolution st notes t) ws) n = Some w' /\
    w_id w' = w_id w /\ w_user_id w' = w_user_id w /\
    w_amount w' = w_amount w /\ w_method w' = w_method w /\
    w_account_details w' = w_account_details w /\
    (w_id w = id ->
     w_status w' = st /\ w_admin_notes w' = notes /\
     w_processed_at w' = Some t) /\
    (w_id w <> id -> w' = w).
Proof.
  intros Hn. unfold update_where. rewrite nth_error_map, Hn. simpl.
  eexists. split; [reflexivity|].
  destruct (Z.eqb_spec (w_id w) id) as [Heq|Hne]; simpl.
  - do 5 (split; [reflexivity|]). split; [auto | intros Hne; contradiction].
  - do 5 (split; [reflexivity|]). split; [intros Heq; contradiction | auto].
Qed.

(** C4. Resolution succeeds only on a withdrawal stored as pending. When
    the rows with the given id are all approved or declined, a resolution
    with either decision answers 404 'Withdrawal not found or already
    processed' and leaves the whole store as it was. An approval refunds
    nothing and leaves every user row as it was; the withdrawals table
    keeps its rows in place: a row with that id ends approved, with the
    note of the request (or NULL) as its admin note and the time of the
    request as its processing time, and with its id, user, amount, method
    and destination as before; a row with another id is as it was. After
    a successful resolution a further one is refused. *)
Theorem resolve_requires_pending id status notes now d :
  (forall id' st amt rf d',
      process_withdrawal id status notes now d = (ProcOk id' st amt rf, d') ->
      exists w, In w (withdrawals d) /\ w_id w = id /\
                w_status w = pending /\ amt = w_amount w) /\
  ((forall w, In w (withdrawals d) -> w_id w = id -> w_status w <> pending) ->
   decision_of_string status <> None ->
   process_withdrawal id status notes now d = (ProcNotFoundOrProcessed, d)) /\
  (forall id' amt rf d',
      process_withdrawal id status notes now d
      = (ProcOk id' approved amt rf, d') ->
      id' = id /\ status = "approved" /\ rf = false /\
      users d' = users d /\
      withdrawals d'
      = update_where (fun w => w_id w =? id)
                     (set_resolution approved (notes_or_null notes) now)
                     (withdrawals d) /\
      List.length (withdrawals d') = List.length (withdrawals d) /\
      (forall n w,
          nth_error (withdrawals d) n = Some w ->
          exists w',
            nth_error (withdrawals d') n = Some w' /\
            w_id w' = w_id w /\ w_user_id w' = w_user_id w /\
            w_amount w' = w_amount w /\ w_method w' = w_method w /\
            w_account_details w' = w_account_details w /\
            (w_id w = id ->
             w_status w' = approved /\
             w_admin_notes w'
             = match notes with Some "" => None | _ => notes end /\
             w_processed_at w' = Some now) /\
            (w_id w <> id -> w' = w)) /\
      (exists w', In w' (withdrawals d') /\ w_id w' = id /\
                  w_status w' = approved /\ w_amount w' = amt /\
                  w_processed_at w' = Some now) /\
      sessions d' = sessions d /\ posts d' = posts d /\
      user_clicks d' = user_clicks d /\ batches d' = batches d) /\
  (forall id' st amt rf d',
      process_withdrawal id status notes now d = (ProcOk id' st amt rf, d') ->
      forall status' notes' now',
        decision_of_string status' <> None ->
        process_withdrawal id status' notes' now' d'
        = (ProcNotFoundOrProcessed, d')).
Proof.
  unfold process_withdrawal.
  destruct (decision_of_string status) as [dec|] eqn:Hdec.
  2:{ repeat split; try discriminate. intros _ H. now contradiction H. }
  destruct (pending_withdrawal id d) as [|w rest] eqn:Hpend.
  { repeat split; try discriminate. }
  destruct (pending_withdrawal_sound _ _ _ _ Hpend) as (Hin & Hid & Hst).
  split; [|split; [|split]].
  - intros id' st amt rf d' [= _ _ <- _ _]. eauto.
  - intros Hterm _. exfalso. exact (Hterm w Hin Hid Hst).
  - intros id' amt rf d' H. inversion H; subst; clear H.
    simpl.
    split; [reflexivity|]. split.
    { revert Hdec. unfold decision_of_string.
      destruct (String.eqb_spec status "approved") as [->|_]; [reflexivity|].
      destruct (String.eqb status "declined"); discriminate. }
    split; [reflexivity|]. split; [reflexivity|]. split; [reflexivity|].
    split; [unfold update_where; apply length_map|].
    split.
    { intros n w0 Hn.
      destruct (resolved_rows (w_id w) approved (notes_or_null notes) now
                  _ n w0 Hn) as (w' & Hn' & H1 & H2 & H3 & H4 & H5 & H6 & H7).
      exists w'. repeat split; trivial; try (now apply H6).
      destruct (H6 H) as (_ & Hnotes & _). rewrite Hnotes.
      unfold notes_or_null. destruct notes as [[|c s]|]; reflexivity. }
    split.
    { apply In_nth_error in Hin as [n Hn].
      destruct (resolved_rows (w_id w) approved (notes_or_null notes) now
                  _ n w Hn) as (w' & Hn' & H1 & H2 & H3 & H4 & H5 & H6 & H7).
      exists w'. destruct (H6 eq_refl) as (Hs & _ & Ht).
      repeat split; trivial. eapply nth_error_In; eauto. }
    repeat split; reflexivity.
  - intros id' st amt rf d' [= _ <- _ _ <-] status' notes' now' Hdec'.
    destruct (decision_of_string status') as [dec'|]; [|contradiction].
    rewrite pending_withdrawal_none; [reflexivity|].
    intros w' Hin' Hid'. simpl in Hin'.
    assert (Hw' : w_status w' = dec).
    { destruct (is_declined dec); simpl in Hin';
        unfold update_where in Hin';
        apply in_map_iff in Hin' as (w0 & <- & _);
        (destruct (Z.eqb_spec (w_id w0) id) as [_|Hne];
         [reflexivity | simpl in Hid'; contradiction]). }
    rewrite Hw'. eapply decision_of_string_not_pending; eauto.
Qed.

Lemma resolve_requires_pending_witness :
  process_withdrawal 1 "declined" None 100 ex_db_approved
  = (ProcNotFoundOrProcessed, ex_db_approved) /\
  users (snd (process_withdrawal 1 "approved" (Some "paid") 100 ex_db_pending))
  = users ex_db_pending /\
  withdrawals
    (snd (process_withdrawal 1 "approved" (Some "paid") 100 ex_db_pending))
  = [mkWithdrawal 1 2 3000 paytm "9876543210" approved (Some "paid")
                  (Some 100)].
Proof.
  split; [|split].
  - apply (proj1 (proj2 (resolve_requires_pending 1 "declined" None 100
                           ex_db_approved))).
    + intros w [<-|[]] _. discriminate.
    + discriminate.
  - apply (proj1 (proj2 (proj2 (resolve_requires_pending 1 "approved"
                                  (Some "paid") 100 ex_db_pending)))
             1 3000 false _ eq_refl).
  - reflexivity.
Defined.

(** ** Sessions *)

Lemma seven_days_positive : 0 < seven_days.
Proof. reflexivity. Qed.

Lemma truthy_str_some s : s <> "" -> truthy_str (Some s) = Some s.
Proof.
  intros H. unfold truthy_str. destruct (String.eqb_spec s ""); [contradiction | reflexivity].
Qed.

Lemma live_sessions_head sid now d s u :
  session_by_id d sid = Some s ->
  now < s_expires_at s ->
  user_by_id d (s_user_id s) = Some u ->
  exists rest, live_sessions sid now d = (s, u) :: rest.
Proof.
  unfold session_by_id, live_sessions, user_by_id.
  intros Hs Hlive Hu. induction (sessions d) as [|x ss IH]; simpl in *; [discriminate|].
  destruct (String.eqb (s_id x) sid).
  - injection Hs as ->.
    replace (s_expires_at s >? now) with true
      by (symmetry; apply Z.gtb_lt; exact Hlive).
    simpl. destruct (select_where_find_some _ _ _ Hu) as [rest ->].
    simpl. eauto.
  - simpl. apply IH. exact Hs.
Qed.

Lemma extend_session_expiry sid now d s :
  session_by_id d sid = Some s ->
  session_by_id (extend_session sid now d) sid
  = Some (set_expires_at (now + seven_days) s).
Proof.
  intros Hs. unfold session_by_id, extend_session in *. simpl.
  rewrite find_update_where by reflexivity. rewrite Hs. simpl.
  apply find_some in Hs as [_ ->]. reflexivity.
Qed.

Lemma extend_session_twice sid now d :
  extend_session sid now (extend_session sid now d) = extend_session sid now d.
Proof.
  unfold extend_session, with_sessions. simpl. f_equal.
  unfold update_where. rewrite map_map. apply map_ext. intros x.
  destruct (String.eqb (s_id x) sid) eqn:E; simpl; rewrite E; reflexivity.
Qed.

Lemma sessionMiddleware_valid req now d sid s u :
  valid_session req now d sid s u ->
  sessionMiddleware now req d = (inr (attach_user u), extend_session sid now d).
Proof.
  intros [Hc Hne Hs Hlive Hu]. unfold sessionMiddleware.
  rewrite Hc, (truthy_str_some _ Hne).
  destruct (live_sessions_head _ _ _ _ _ Hs Hlive Hu) as [rest ->]. reflexivity.
Qed.

(** Both revisions of the middleware slide the expiry; the second one also
    for a token that arrives in the Authorization header. *)
Lemma sessionMiddleware_bearer_slides req now d sid s u :
  cookie_or_bearer req = Some sid ->
  session_by_id d sid = Some s ->
  now < s_expires_at s ->
  user_by_id d (s_user_id s) = Some u ->
  sessionMiddleware_bearer now req d
  = (inr (attach_user u), extend_session sid now d) /\
  expiry_of (extend_session sid now d) sid = Some (now + seven_days).
Proof.
  intros Hc Hs Hlive Hu. unfold sessionMiddleware_bearer. rewrite Hc.
  destruct (live_sessions_head _ _ _ _ _ Hs Hlive Hu) as [rest ->].
  split; [reflexivity|].
  unfold expiry_of. now rewrite (extend_session_expiry _ _ _ _ Hs).
Qed.

Example bearer_token_slides :
  expiry_of (snd (sessionMiddleware_bearer one_day ex_request_bob_bearer ex_db))
            "sess-bob"
  = Some (one_day + seven_days) /\
  fst (sessionMiddleware one_day ex_request_bob_bearer ex_db)
  = inl NoSessionFound.
Proof. split; reflexivity. Qed.

Lemma valid_session_extended req now d sid s u :
  valid_session req now d sid s u ->
  valid_session req now (extend_session sid now d) sid
                (set_expires_at (now + seven_days) s) u.
Proof.
  intros [Hc Hne Hs Hlive Hu]. constructor; trivial.
  - now apply extend_session_expiry.
  - simpl. pose proof seven_days_positive. lia.
Qed.

Lemma sessionAuth_valid req now d sid s u :
  valid_session req now d sid s u ->
  sessionAuth now req d = (inr (attach_user u), d).
Proof.
  intros [Hc Hne Hs Hlive Hu]. unfold sessionAuth, cookie_or_bearer.
  rewrite Hc, (truthy_str_some _ Hne).
  destruct (live_sessions_head _ _ _ _ _ Hs Hlive Hu) as [rest ->]. reflexivity.
Qed.

Lemma api_user_valid {R : Type} req now d sid s u
    (handler : req_user -> db -> R * db) :
  valid_session req now d sid s u ->
  api_user now req handler d
  = (inr (fst (handler (attach_user u) (extend_session sid now d))),
     snd (handler (attach_user u) (extend_session sid now d))).
Proof.
  intros Hv. unfold api_user.
  rewrite (sessionMiddleware_valid _ _ _ _ _ _ Hv).
  rewrite (sessionAuth_valid _ _ _ _ _ _ (valid_session_extended _ _ _ _ _ _ Hv)).
  destruct (handler _ _). reflexivity.
Qed.






Lemma ex_request_bob_valid :
  valid_session ex_request_bob one_day ex_db "sess-bob"
                (mkSession "sess-bob" 2 604800) ex_bob.
Proof. constructor; [reflexivity | discriminate | reflexivity | reflexivity | reflexivity]. Qed.



Lemma withdraw_accepts uid body d row a wm :
  user_by_id d uid = Some row ->
  amount body = AmountNum a -> (0 < a)%Q ->
  (a <= inject_Z (u_earnings row))%Q ->
  method_of_string (method body) = Some wm ->
  below_minimum a (method body) = None ->
  accountDetails body <> "" ->
  exists d',
    withdraw uid body d = (WdOk a (method body), d') /\
    requested uid a wm (accountDetails body) d d'.
Proof.
  intros Hrow Ha Hpos Hle Hwm Hmin Hdet. unfold withdraw.
  assert (Hm : String.eqb (method body) "" = false).
  { destruct (String.eqb_spec (method body) "") as [Heq|]; [|reflexivity].
    rewrite Heq in Hwm. discriminate. }
  rewrite Hm, Ha. simpl.
  destruct (String.eqb_spec (accountDetails body) ""); [contradiction|].
  rewrite (proj2 (Qle_bool_false _ _) Hpos). rewrite Hmin.
  unfold user_by_id in Hrow.
  destruct (select_where_find_some _ _ _ Hrow) as [rest ->].
  rewrite (proj2 (Qlt_b_false _ _) Hle).
  unfold insert_withdrawal. rewrite Hwm, (find_some_existsb _ _ _ Hrow). simpl.
  eexists. split; [reflexivity|]. constructor; reflexivity.
Qed.

Lemma valid_session_user_id req now d sid s u :
  valid_session req now d sid s u ->
  u_id u = s_user_id s /\ user_by_id d (u_id u) = Some u.
Proof.
  intros Hv. pose proof (vs_user _ _ _ _ _ _ Hv) as Hu.
  assert (Hid : u_id u = s_user_id s).
  { unfold user_by_id in Hu. apply find_some in Hu as [_ Hu].
    now apply Z.eqb_eq. }
  split; [exact Hid | now rewrite Hid].
Qed.

(** C10. The user routes ask for a live session and nothing else: a user
    whose [is_verified] flag is false and who presents a stored, unexpired
    session settles an active post not yet clicked by them, with the reward
    added to the wallet, and has a withdrawal request accepted and debited
    under the amount checks alone. *)
Theorem unverified_user_settles_and_withdraws req now d sid s u :
  valid_session req now d sid s u ->
  u_is_verified u = false ->
  (forall body pid post,
      postId body = Some pid -> pid <> 0 ->
      post_by_id d pid = Some post -> p_is_active post = true ->
      clicks_of_pair d (u_id u) pid = [] ->
      exists id ad d',
        api_user_submit_click now req body d
        = (inr (ClickOk id (p_reward_amount post) ad (p_engagement_type post)),
           d') /\
        balance_of d' (u_id u) = Some (u_earnings u + p_reward_amount post)) /\
  (forall body a wm,
      amount body = AmountNum a -> (0 < a)%Q ->
      (a <= inject_Z (u_earnings u))%Q ->
      method_of_string (method body) = Some wm ->
      below_minimum a (method body) = None ->
      accountDetails body <> "" ->
      exists d',
        api_user_withdraw now req body d
        = (inr (WdOk a (method body)), d') /\
        balance_of d' (u_id u)
        = Some (to_decimal (inject_Z (u_earnings u) - a)) /\
        forall n, (a == inject_Z n)%Q ->
                  balance_of d' (u_id u) = Some (u_earnings u - n)).
Proof.
  intros Hv Hflag.
  destruct (valid_session_user_id _ _ _ _ _ _ Hv) as [Hid Hrow].
  split.
  - intros body pid post Hbody Hnz Hpost Hact Hpair.
    unfold api_user_submit_click.
    rewrite (api_user_valid _ _ _ _ _ _ _ Hv). simpl ru_id.
    destruct (submit_click_settles (u_id u) body (extend_session sid now d)
                pid post Hbody Hnz Hpost Hact Hpair) as (d' & E & Hs).
    { simpl. unfold user_by_id in Hrow. eapply find_some_existsb; eauto. }
    rewrite E. simpl. do 3 eexists. split; [reflexivity|].
    destruct (settled_balance _ _ _ _ _ _
                (find_some_existsb _ _ _ Hrow : existsb _ (users (extend_session sid now d)) = true)
                Hs) as (B & HB & HB').
    rewrite HB'. f_equal.
    assert (B = u_earnings u); [|lia].
    change (balance_of (extend_session sid now d) (u_id u))
      with (balance_of d (u_id u)) in HB.
    unfold balance_of in HB. rewrite Hrow in HB. simpl in HB. congruence.
  - intros body a wm Ha Hpos Hle Hwm Hmin Hdet.
    unfold api_user_withdraw.
    rewrite (api_user_valid _ _ _ _ _ _ _ Hv). simpl ru_id.
    destruct (withdraw_accepts (u_id u) body (extend_session sid now d) u a wm
                Hrow Ha Hpos Hle Hwm Hmin Hdet) as (d' & E & Hr).
    rewrite E. simpl. eexists. split; [reflexivity|].
    unfold balance_of.
    rewrite (requested_balance _ _ _ _ (extend_session sid now d) _ u Hrow Hr).
    split; [reflexivity|].
    intros n Hn. simpl. f_equal.
    rewrite (to_decimal_comp _ (inject_Z (u_earnings u) - inject_Z n))
      by (now rewrite Hn).
    apply to_decimal_difference.
Qed.

Lemma unverified_user_settles_and_withdraws_witness :
  u_is_verified ex_bob = false /\
  (exists id ad d',
      api_user_submit_click one_day ex_request_bob ex_click_body ex_db
      = (inr (ClickOk id (p_reward_amount ex_post) ad
                      (p_engagement_type ex_post)), d') /\
      balance_of d' (u_id ex_bob)
      = Some (u_earnings ex_bob + p_reward_amount ex_post)) /\
  (exists d',
      api_user_withdraw one_day ex_request_bob ex_withdraw_body ex_db
      = (inr (WdOk 3000 (method ex_withdraw_body)), d') /\
      balance_of d' (u_id ex_bob) = Some (u_earnings ex_bob - 3000)).
Proof.
  assert (Hflag : u_is_verified ex_bob = false) by reflexivity.
  pose proof (unverified_user_settles_and_withdraws ex_request_bob one_day
                ex_db "sess-bob" (mkSession "sess-bob" 2 604800) ex_bob
                ex_request_bob_valid Hflag) as [Hclick Hwd].
  split; [exact Hflag|]. split.
  - apply (Hclick ex_click_body 7 ex_post); try reflexivity. discriminate.
  - destruct (Hwd ex_withdraw_body 3000%Q paytm) as (d' & E & _ & Hn);
      try reflexivity; try discriminate.
    exists d'. split; [exact E|]. apply (Hn 3000). reflexivity.
Defined.

(** ** Permanent codes *)

Lemma string_length_app (a b : string) :
  String.length (a ++ b) = (String.length a + String.length b)%nat.
Proof. induction a as [|c a IH]; simpl; [reflexivity | now rewrite IH]. Qed.

Lemma all_chars_app f (a b : string) :
  all_chars f (a ++ b) = all_chars f a && all_chars f b.
Proof.
  induction a as [|c a IH]; simpl; [reflexivity|].
  now rewrite IH, andb_assoc.
Qed.

Lemma substring_length s : forall i k,
  (i + k <= String.length s)%nat -> String.length (substring i k s) = k.
Proof.
  induction s as [|c s IH]; intros i k H; simpl in *.
  - destruct i, k; simpl; trivial; lia.
  - destruct i as [|i].
    + destruct k as [|k]; simpl; [reflexivity|]. rewrite IH; [reflexivity | lia].
    + apply IH. lia.
Qed.

Lemma substring_all_chars f s : forall i k,
  all_chars f s = true -> all_chars f (substring i k s) = true.
Proof.
  induction s as [|c s IH]; intros i k H; simpl in *.
  - destruct i, k; reflexivity.
  - apply andb_prop in H as [Hc Hs].
    destruct i as [|i].
    + destruct k as [|k]; simpl; [reflexivity|]. now rewrite Hc, IH.
    + now apply IH.
Qed.

Lemma digit_char_is_digit n : (n < 10)%N -> is_digit (digit_char n) = true.
Proof.
  intros H. unfold is_digit, digit_char.
  rewrite N_ascii_embedding by lia.
  apply andb_true_intro. split; apply N.leb_le; lia.
Qed.

Lemma to_string_aux_digits fuel : forall n acc,
  all_chars is_digit acc = true ->
  all_chars is_digit (to_string_aux fuel n acc) = true.
Proof.
  induction fuel as [|f IH]; intros n acc Hacc; simpl.
  - rewrite digit_char_is_digit, Hacc; [reflexivity|].
    apply N.mod_lt. discriminate.
  - assert (Hstep : all_chars is_digit (String (digit_char (n mod 10)) acc) = true).
    { simpl. rewrite digit_char_is_digit, Hacc; [reflexivity|].
      apply N.mod_lt. discriminate. }
    destruct (n / 10 =? 0)%N; [exact Hstep | now apply IH].
Qed.

Lemma to_string_aux_length_ge fuel : forall n acc,
  (S (String.length acc) <= String.length (to_string_aux fuel n acc))%nat.
Proof.
  induction fuel as [|f IH]; intros n acc; simpl; [lia|].
  destruct (n / 10 =? 0)%N; simpl; [lia|].
  specialize (IH (n / 10)%N (String (digit_char (n mod 10)) acc)).
  simpl in IH. lia.
Qed.

Lemma toString_digits n : all_chars is_digit (toString n) = true.
Proof. apply to_string_aux_digits. reflexivity. Qed.

Lemma toString_four_digits n :
  (1000 <= n)%N -> (4 <= String.length (toString n))%nat.
Proof.
  intros H. unfold toString.
  assert (Hlog : (9 <= N.log2 n)%N).
  { change 9%N with (N.log2 1000). now apply N.log2_le_mono. }
  destruct (N.to_nat (N.log2 n)) as [|[|[|f]]] eqn:Hf; try lia.
  assert (H1 : (n / 10 =? 0)%N = false).
  { apply N.eqb_neq. intros H0.
    apply N.div_small_iff in H0; [lia | discriminate]. }
  assert (H2 : (n / 10 / 10 =? 0)%N = false).
  { apply N.eqb_neq. intros H0. rewrite N.Div0.div_div in H0.
    apply N.div_small_iff in H0; [lia | discriminate]. }
  assert (H3 : (n / 10 / 10 / 10 =? 0)%N = false).
  { apply N.eqb_neq. intros H0. rewrite !N.Div0.div_div in H0.
    apply N.div_small_iff in H0; [lia | discriminate]. }
  cbn [to_string_aux]. rewrite H1, H2, H3.
  match goal with
  | |- (4 <= String.length (to_string_aux ?g ?m ?acc))%nat =>
      pose proof (to_string_aux_length_ge g m acc) as Hge
  end.
  simpl String.length in Hge at 1. lia.
Qed.

Lemma toString_two_digits n :
  (n < 100)%N -> (1 <= String.length (toString n) <= 2)%nat.
Proof.
  intros H. unfold toString.
  destruct (N.eqb_spec (n / 10) 0) as [Hsmall|Hbig].
  - destruct (N.to_nat (N.log2 n)); simpl; [lia|].
    rewrite Hsmall. simpl. lia.
  - assert (Hten : (10 <= n)%N).
    { destruct (N.lt_ge_cases n 10) as [Hlt|]; [|assumption].
      exfalso. apply Hbig. now apply N.div_small. }
    assert (Hlog : (3 <= N.log2 n)%N).
    { change 3%N with (N.log2 10). now apply N.log2_le_mono. }
    destruct (N.to_nat (N.log2 n)) as [|f] eqn:Hf; [lia|].
    cbn [to_string_aux].
    replace (n / 10 =? 0)%N with false by (symmetry; now apply N.eqb_neq).
    assert (Hlast : (n / 10 / 10 = 0)%N).
    { rewrite N.Div0.div_div. apply N.div_small. lia. }
    destruct f; cbn [to_string_aux]; [simpl; lia|].
    rewrite Hlast. simpl. lia.
Qed.

Lemma repeat_char_length c k : String.length (repeat_char c k) = k.
Proof. induction k; simpl; [reflexivity | now rewrite IHk]. Qed.

Lemma repeat_char_all f c k : f c = true -> all_chars f (repeat_char c k) = true.
Proof. intros H. induction k; simpl; [reflexivity | now rewrite H, IHk]. Qed.

Lemma generated_code_shape now_ms rnd :
  (1000 <= now_ms)%N -> (rnd < 100)%N ->
  String.length (generateUniquePermanentCode now_ms rnd) = 6%nat /\
  all_chars is_digit (generateUniquePermanentCode now_ms rnd) = true.
Proof.
  intros Hnow Hrnd. unfold generateUniquePermanentCode, slice_last, padStart.
  pose proof (toString_four_digits _ Hnow) as H4.
  pose proof (toString_two_digits _ Hrnd) as H2.
  split.
  - rewrite !string_length_app, repeat_char_length.
    rewrite substring_length by lia. lia.
  - rewrite !all_chars_app.
    rewrite substring_all_chars by apply toString_digits.
    rewrite repeat_char_all by reflexivity.
    now rewrite toString_digits.
Qed.

Lemma in_codes_of_rows c t :
  In c (codes_of_rows t) <-> exists u, In u t /\ holds_code c u = true.
Proof.
  unfold codes_of_rows. rewrite in_flat_map. split.
  - intros (u & Hin & Hc). exists u. split; [exact Hin|].
    unfold holds_code. destruct (u_permanent_login_code u); [|contradiction].
    destruct Hc as [->|[]]. apply String.eqb_refl.
  - intros (u & Hin & Hc). exists u. split; [exact Hin|].
    unfold holds_code in Hc. destruct (u_permanent_login_code u); [|discriminate].
    apply String.eqb_eq in Hc. subst. now left.
Qed.

Lemma codes_of_rows_filter keep t :
  NoDup (codes_of_rows t) -> NoDup (codes_of_rows (filter keep t)).
Proof.
  induction t as [|y t IH]; simpl; [trivial|].
  intros H. unfold codes_of_rows in H. simpl in H.
  fold (codes_of_rows t) in H.
  assert (Hrest : NoDup (codes_of_rows t)) by (eapply NoDup_app_remove_l; eauto).
  destruct (keep y); [|auto].
  unfold codes_of_rows. simpl. fold (codes_of_rows (filter keep t)).
  destruct (u_permanent_login_code y) as [c|]; simpl in *; [|auto].
  inversion H as [|? ? Hnotin _]; subst. constructor; [|auto].
  intros Hin. apply Hnotin. apply in_codes_of_rows in Hin as (u & Hu & Hc).
  apply filter_In in Hu as [Hu _]. apply in_codes_of_rows. eauto.
Qed.

Lemma codes_of_rows_snoc t row c :
  u_permanent_login_code row = Some c ->
  existsb (holds_code c) t = false ->
  NoDup (codes_of_rows t) -> NoDup (codes_of_rows (t ++ [row])).
Proof.
  intros Hrow Hfree Hnd. unfold codes_of_rows. rewrite flat_map_app. simpl.
  rewrite Hrow. simpl. apply NoDup_app; trivial.
  - constructor; [intros [] | constructor].
  - intros x Hin [<-|[]]. apply in_codes_of_rows in Hin as (u & Hu & Hc).
    rewrite (existsb_false_forall _ _ Hfree u Hu) in Hc. discriminate.
Qed.

Lemma getNextBatch_users d : users (snd (getNextBatch d)) = users d.
Proof.
  unfold getNextBatch.
  destruct (order_by_letter_asc_limit1 _); [reflexivity|]. simpl.
  unfold insert_ignore_batch. destruct (existsb _ (batches d)); reflexivity.
Qed.

Lemma delete_user_rows uid d :
  users (delete_user uid d) = delete_where (fun u => u_id u =? uid) (users d).
Proof. reflexivity. Qed.

(** The rows the INSERT of a registration sees are rows of the store the
    request started from. *)
Lemma register_rows_before_insert email d :
  let d1 := match truthy_num (unverified_id email d) with
            | Some uid => delete_user uid d
            | None => d
            end in
  (forall u, In u (users (snd (getNextBatch d1))) -> In u (users d)) /\
  (NoDup (codes_of_rows (users d)) ->
   NoDup (codes_of_rows (users (snd (getNextBatch d1))))).
Proof.
  intros d1. rewrite getNextBatch_users. subst d1.
  destruct (truthy_num (unverified_id email d)) as [uid|]; [|auto].
  rewrite delete_user_rows. unfold delete_where. split.
  - intros u Hin. now apply filter_In in Hin.
  - apply codes_of_rows_filter.
Qed.

Lemma register_keeps_unique_codes body now_ms rnd d :
  unique_permanent_codes d ->
  unique_permanent_codes (snd (register body now_ms rnd d)).
Proof.
  intros Hnd. unfold register.
  destruct (0 <? _)%nat; [exact Hnd|].
  destruct (0 <? _)%nat; [exact Hnd|].
  destruct (register_rows_before_insert (r_email body) d) as [_ Hcodes].
  destruct (getNextBatch _) as [batchLetter d2] eqn:Hbatch. simpl in Hcodes.
  unfold insert_user.
  destruct (existsb _ (users d2)); [exact Hnd|].
  destruct (existsb (holds_code _) (users d2)) eqn:Hfree; [exact Hnd|].
  unfold unique_permanent_codes, permanent_codes. simpl.
  apply codes_of_rows_snoc with (c := generateUniquePermanentCode now_ms rnd);
    auto.
Qed.

Lemma register_all_keeps_unique_codes rs : forall d,
  unique_permanent_codes d -> unique_permanent_codes (register_all rs d).
Proof.
  induction rs as [|[[body now_ms] rnd] rs IH]; intros d Hnd; simpl; [exact Hnd|].
  apply IH. now apply register_keeps_unique_codes.
Qed.

Lemma unverified_id_fold email (t : list user_row) : forall acc uid,
  fold_left
    (fun best u =>
       if String.eqb (u_email u) email && negb (u_is_verified u)
       then match best with
            | None => Some (u_id u)
            | Some m => Some (Z.max m (u_id u))
            end
       else best) t acc = Some uid ->
  acc = Some uid \/ exists row, In row t /\ u_id row = uid /\ u_email row = email.
Proof.
  induction t as [|y t IH]; intros acc uid H; simpl in H; [now left|].
  apply IH in H as [H|(row & Hin & Hid & Hem)].
  - destruct (String.eqb_spec (u_email y) email) as [Hy|]; simpl in H; [|now left].
    destruct (negb (u_is_verified y)); [|now left].
    destruct acc as [m|].
    + injection H as H. destruct (Z.max_spec m (u_id y)) as [[_ Hmax]|[_ Hmax]].
      * right. exists y. simpl. repeat split; auto. congruence.
      * left. congruence.
    + injection H as H. right. exists y. simpl. auto.
  - right. exists row. simpl. auto.
Qed.

Lemma unique_ids_same_row (t : list user_row) a b :
  NoDup (map u_id t) -> In a t -> In b t -> u_id a = u_id b -> a = b.
Proof.
  induction t as [|y t IH]; simpl; [contradiction|].
  intros Hnd Ha Hb Hid. inversion Hnd as [|? ? Hnotin Hnd']; subst.
  destruct Ha as [->|Ha], Hb as [->|Hb]; auto.
  - exfalso. apply Hnotin. rewrite Hid. now apply in_map.
  - exfalso. apply Hnotin. rewrite <- Hid. now apply in_map.
Qed.

Lemma register_conflict_inv body now_ms rnd d :
  fst (register body now_ms rnd d) = RegConflict ->
  snd (register body now_ms rnd d) = d /\
  exists holder,
    In holder (users d) /\
    holds_code (generateUniquePermanentCode now_ms rnd) holder = true.
Proof.
  unfold register.
  destruct (0 <? _)%nat; [discriminate|].
  destruct (0 <? _)%nat; [discriminate|].
  destruct (register_rows_before_insert (r_email body) d) as [Hrows _].
  destruct (getNextBatch _) as [batchLetter d2] eqn:Hbatch. simpl in Hrows.
  unfold insert_user.
  destruct (existsb _ (users d2)); [discriminate|].
  destruct (existsb (holds_code _) (users d2)) eqn:Hheld; [|discriminate].
  intros _. split; [reflexivity|].
  apply existsb_exists in Hheld as (holder & Hin & Hc). eauto.
Qed.

Lemma register_collision_fails body now_ms rnd d holder :
  unique_user_ids d ->
  In holder (users d) ->
  holds_code (generateUniquePermanentCode now_ms rnd) holder = true ->
  u_email holder <> r_email body ->
  snd (register body now_ms rnd d) = d /\
  (fst (register body now_ms rnd d) = RegEmailRegistered \/
   fst (register body now_ms rnd d) = RegInstagramTaken \/
   fst (register body now_ms rnd d) = RegConflict).
Proof.
  intros Hids Hin Hc Hem. unfold register.
  destruct (0 <? _)%nat; [auto|].
  destruct (0 <? _)%nat; [auto|].
  assert (Hstill :
    In holder
       (users (snd (getNextBatch
                      match truthy_num (unverified_id (r_email body) d) with
                      | Some uid => delete_user uid d
                      | None => d
                      end)))).
  { rewrite getNextBatch_users.
    destruct (truthy_num (unverified_id (r_email body) d)) as [uid|] eqn:Hun;
      [|exact Hin].
    rewrite delete_user_rows. unfold delete_where. apply filter_In.
    split; [exact Hin|].
    destruct (Z.eqb_spec (u_id holder) uid) as [Hid|]; [|reflexivity].
    exfalso. apply truthy_num_inv in Hun as [Hun _].
    unfold unverified_id in Hun.
    apply unverified_id_fold in Hun as [|(row & Hrin & Hrid & Hrem)];
      [discriminate|].
    assert (holder = row)
      by (apply (unique_ids_same_row (users d)); auto; congruence).
    subst row. contradiction. }
  destruct (getNextBatch _) as [batchLetter d2]. simpl in Hstill.
  unfold insert_user.
  destruct (existsb _ (users d2)); [auto|].
  replace (existsb (holds_code (generateUniquePermanentCode now_ms rnd))
                   (users d2)) with true
    by (symmetry; apply existsb_exists; eauto).
  auto.
Qed.

Lemma register_ok_persists_code body now_ms rnd d b :
  fst (register body now_ms rnd d) = RegOk b ->
  exists row,
    In row (users (snd (register body now_ms rnd d))) /\
    u_email row = r_email body /\
    u_permanent_login_code row
    = Some (generateUniquePermanentCode now_ms rnd).
Proof.
  unfold register.
  destruct (0 <? _)%nat; [discriminate|].
  destruct (0 <? _)%nat; [discriminate|].
  destruct (getNextBatch _) as [batchLetter d2].
  unfold insert_user.
  destruct (existsb _ (users d2)); [discriminate|].
  destruct (existsb (holds_code _) (users d2)); [discriminate|].
  intros _. simpl. eexists. split; [apply in_or_app; right; left; reflexivity|].
  split; reflexivity.
Qed.

(** C7 (as amended). A registration draws a code of six decimal digits,
    the last four digits of the millisecond clock followed by two random
    digits, and a successful registration stores that code with the new
    user. Over any sequence of registrations no two stored users hold the
    same permanent code. A drawn code already held by a user with another
    e-mail address is caught by the uniqueness constraint when the row is
    inserted: the registration fails, with 500 'Registration conflict.
    Please try again.' when the code is the only obstacle, and nothing is
    stored. The server does not draw again. *)
Theorem permanent_codes_unique_by_constraint body now_ms rnd d :
  (1000 <= now_ms)%N -> (rnd < 100)%N ->
  unique_permanent_codes d -> unique_user_ids d ->
  String.length (generateUniquePermanentCode now_ms rnd) = 6%nat /\
  all_chars is_digit (generateUniquePermanentCode now_ms rnd) = true /\
  (forall b,
      fst (register body now_ms rnd d) = RegOk b ->
      exists row,
        In row (users (snd (register body now_ms rnd d))) /\
        u_email row = r_email body /\
        u_permanent_login_code row
        = Some (generateUniquePermanentCode now_ms rnd)) /\
  unique_permanent_codes (snd (register body now_ms rnd d)) /\
  (forall rs, unique_permanent_codes (register_all rs d)) /\
  (forall holder,
      In holder (users d) ->
      holds_code (generateUniquePermanentCode now_ms rnd) holder = true ->
      u_email holder <> r_email body ->
      snd (register body now_ms rnd d) = d /\
      (fst (register body now_ms rnd d) = RegEmailRegistered \/
       fst (register body now_ms rnd d) = RegInstagramTaken \/
       fst (register body now_ms rnd d) = RegConflict)) /\
  (fst (register body now_ms rnd d) = RegConflict ->
   snd (register body now_ms rnd d) = d /\
   exists holder,
     In holder (users d) /\
     holds_code (generateUniquePermanentCode now_ms rnd) holder = true).
Proof.
  intros Hnow Hrnd Hcodes Hids.
  destruct (generated_code_shape _ _ Hnow Hrnd) as [Hlen Hdig].
  split; [exact Hlen|]. split; [exact Hdig|].
  split; [intros b; apply register_ok_persists_code|].
  split; [now apply register_keeps_unique_codes|].
  split; [intros rs; now apply register_all_keeps_unique_codes|].
  split; [intros holder; now apply register_collision_fails|].
  apply register_conflict_inv.
Qed.

Lemma permanent_codes_unique_by_constraint_witness :
  (1000 <= ex_now_ms)%N /\ (56 < 100)%N /\
  unique_permanent_codes ex_db /\ unique_user_ids ex_db /\
  String.length (generateUniquePermanentCode ex_now_ms 56) = 6%nat /\
  unique_permanent_codes (snd (register ex_register_body ex_now_ms 56 ex_db)) /\
  snd (register ex_register_body ex_now_ms 56 ex_db) = ex_db.
Proof.
  assert (H1 : (1000 <= ex_now_ms)%N) by (unfold ex_now_ms; lia).
  assert (H2 : (56 < 100)%N) by lia.
  assert (H3 : unique_permanent_codes ex_db).
  { unfold unique_permanent_codes. simpl.
    repeat constructor; simpl; intuition discriminate. }
  assert (H4 : unique_user_ids ex_db).
  { unfold unique_user_ids. simpl.
    repeat constructor; simpl; intuition discriminate. }
  pose proof (permanent_codes_unique_by_constraint ex_register_body ex_now_ms 56
                ex_db H1 H2 H3 H4) as (Hlen & _ & _ & Huniq & _ & _ & Hconf).
  repeat split; trivial.
Defined.

(** C7 as stated fails: the code drawn at clock [..1234] with random part
    56 is the one the seeded administrator holds, and the registration is
    answered with 500 'Registration conflict. Please try again.' and stores
    nothing; no second code is drawn. *)
Lemma colliding_code_fails_registration :
  generateUniquePermanentCode ex_now_ms 56 = "123456" /\
  u_permanent_login_code ex_admin = Some "123456" /\
  register ex_register_body ex_now_ms 56 ex_db = (RegConflict, ex_db) /\
  register_status RegConflict = 500.
Proof. repeat split; reflexivity. Qed.

(** ** Batches *)

Lemma ltb_lt a b : String.ltb a b = true <-> OrderedTypeEx.String_as_OT.lt a b.
Proof.
  unfold String.ltb. rewrite <- OrderedTypeEx.String_as_OT.cmp_lt.
  unfold OrderedTypeEx.String_as_OT.cmp.
  destruct (String.compare a b); split; congruence.
Qed.

Lemma ltb_trans a b c :
  String.ltb a b = true -> String.ltb b c = true -> String.ltb a c = true.
Proof.
  rewrite !ltb_lt. apply OrderedTypeEx.String_as_OT.lt_trans.
Qed.

Lemma ltb_false_cases a b :
  String.ltb a b = false -> a = b \/ String.ltb b a = true.
Proof.
  unfold String.ltb. rewrite (String.compare_antisym b a).
  destruct (String.compare a b) eqn:E; simpl; try discriminate; auto.
  left. now apply String.compare_eq_iff.
Qed.

Lemma ltb_irrefl a : String.ltb a a = false.
Proof.
  destruct (String.ltb a a) eqn:E; [|reflexivity].
  apply ltb_lt in E. exfalso.
  now apply (OrderedTypeEx.String_as_OT.lt_not_eq a a).
Qed.

(** [ORDER BY letter ASC LIMIT 1] yields a row that no row of the table
    precedes. *)
Lemma first_by_ltb_least (t : list batch_row) : forall acc r,
  fold_left
    (fun best b =>
       match best with
       | None => Some b
       | Some a =>
           if String.ltb (b_letter b) (b_letter a) then Some b else Some a
       end) t acc = Some r ->
  (acc = Some r \/ In r t) /\
  (forall x, In x t -> String.ltb (b_letter x) (b_letter r) = false) /\
  (forall a, acc = Some a -> String.ltb (b_letter a) (b_letter r) = false).
Proof.
  induction t as [|y t IH]; intros acc r H; simpl in H.
  - subst acc. repeat split; auto.
    + intros x [].
    + intros a [= ->]. apply ltb_irrefl.
  - apply IH in H as (Hwhere & Hleast & Hacc).
    assert (Hstep : forall u v,
               String.ltb (b_letter u) (b_letter v) = true ->
               String.ltb (b_letter u) (b_letter r) = false ->
               String.ltb (b_letter v) (b_letter r) = false).
    { intros u v Huv Hur.
      destruct (String.ltb (b_letter v) (b_letter r)) eqn:E; [|reflexivity].
      rewrite (ltb_trans _ _ _ Huv E) in Hur. discriminate. }
    destruct acc as [a|].
    + destruct (String.ltb (b_letter y) (b_letter a)) eqn:Hya.
      * pose proof (Hacc y eq_refl) as Hyr. repeat split.
        -- destruct Hwhere as [[= <-]|Hin]; simpl; auto.
        -- intros x [<-|Hin]; auto.
        -- intros a' [= <-]. eapply Hstep; eauto.
      * pose proof (Hacc a eq_refl) as Har. repeat split.
        -- destruct Hwhere as [[= <-]|Hin]; simpl; auto.
        -- intros x [<-|Hin]; [|auto].
           destruct (ltb_false_cases _ _ Hya) as [Heq|Hlt].
           ++ now rewrite Heq.
           ++ eapply Hstep; eauto.
        -- intros a' [= <-]. exact Har.
    + pose proof (Hacc y eq_refl) as Hyr. repeat split.
      * destruct Hwhere as [[= <-]|Hin]; simpl; auto.
      * intros x [<-|Hin]; auto.
      * discriminate.
Qed.

Lemma first_by_some (before : string -> string -> bool) (t : list batch_row) :
  forall acc : option batch_row,
  (acc <> None \/ t <> []) ->
  exists r,
    fold_left
      (fun best b =>
         match best with
         | None => Some b
         | Some a => if before (b_letter b) (b_letter a) then Some b else Some a
         end) t acc = Some r.
Proof.
  induction t as [|y t IH]; intros acc H; simpl.
  - destruct acc as [a|]; [eauto|]. destruct H as [H|H]; contradiction.
  - apply IH. left. destruct acc as [a|]; [|discriminate].
    destruct (before _ _); discriminate.
Qed.

(** The first half of the allocator's contract: when some active batch has
    room, [getNextBatch] returns the lowest-lettered such batch and writes
    nothing. *)
Lemma getNextBatch_lowest_with_room d b :
  In b (batches d) -> has_room b = true ->
  exists r,
    getNextBatch d = (b_letter r, d) /\
    In r (batches d) /\ has_room r = true /\
    forall x, In x (batches d) -> has_room x = true ->
              String.ltb (b_letter x) (b_letter r) = false.
Proof.
  intros Hin Hroom. unfold getNextBatch, order_by_letter_asc_limit1, first_by.
  fold has_room.
  assert (Hne : select_where has_room (batches d) <> []).
  { intros Hnil. assert (Hb : In b (select_where has_room (batches d)))
      by (apply filter_In; auto).
    rewrite Hnil in Hb. contradiction. }
  destruct (first_by_some String.ltb _ None (or_intror Hne)) as [r Hr].
  change (fun b0 : batch_row => b_is_active b0 && (b_user_count b0 <? 1000))
    with has_room.
  rewrite Hr. exists r.
  apply first_by_ltb_least in Hr as ([Hr|Hr] & Hleast & _); [discriminate|].
  apply filter_In in Hr as [Hr1 Hr2].
  repeat split; trivial.
  intros x Hx Hxroom. apply Hleast. apply filter_In. auto.
Qed.

Lemma getNextBatch_next_char d lastBatch c rest :
  forallb (fun b => negb (has_room b)) (batches d) = true ->
  order_by_letter_desc_limit1 (batches d) = Some lastBatch ->
  b_letter lastBatch = String c rest ->
  fst (getNextBatch d) = next_char c.
Proof.
  intros Hfull Hlast Hletter. unfold getNextBatch.
  change (fun b0 : batch_row => b_is_active b0 && (b_user_count b0 <? 1000))
    with has_room.
  replace (select_where has_room (batches d)) with (@nil batch_row).
  - simpl. now rewrite Hlast, Hletter.
  - symmetry. apply filter_nil_forall. intros x Hx.
    rewrite forallb_forall in Hfull. specialize (Hfull x Hx).
    now apply negb_true_iff in Hfull.
Qed.

(** C9, the code at the failing input. With batches A to Z all at
    capacity, the allocator registration calls mints the label ["["], the
    character after ['Z'], and a registration is assigned to it; the
    allocator of db/database.js mints "AA" from the same store. *)
Theorem registration_after_Z_mints_bracket :
  fst (getNextBatch ex_db_full) = "[" /\
  fst (register ex_register_body ex_now_ms 57 ex_db_full) = RegOk "[" /\
  existsb (fun b => String.eqb (b_letter b) "[")
          (batches (snd (register ex_register_body ex_now_ms 57 ex_db_full)))
  = true /\
  fst (createNextBatch ex_db_full) = "AA".
Proof. repeat split; reflexivity. Qed.

(** ** The hypotheses on the store are invariants of the handlers *)

Lemma forallb_weaken {A : Type} (f g : A -> bool) (t : list A) :
  (forall x, f x = true -> g x = true) ->
  forallb f t = true -> forallb g t = true.
Proof.
  intros Hfg. rewrite !forallb_forall. auto.
Qed.

Lemma forallb_update_where {A : Type} (f cond : A -> bool) (set : A -> A)
    (t : list A) :
  (forall r, f (set r) = f r) ->
  forallb f (update_where cond set t) = forallb f t.
Proof.
  intros Hset. unfold update_where. induction t as [|y t IH]; simpl; [reflexivity|].
  rewrite IH. f_equal. destruct (cond y); [apply Hset | reflexivity].
Qed.

Lemma withdraw_keeps_ids_fresh uid body d :
  withdrawal_ids_fresh d = true ->
  withdrawal_ids_fresh (snd (withdraw uid body d)) = true.
Proof.
  intros Hfresh. destruct (withdraw uid body d) as [r d1] eqn:E. simpl.
  destruct r; try (rewrite (withdraw_failure_keeps_store _ _ _ _ _ E);
                   [exact Hfresh | intros; discriminate]).
  destruct (withdraw_inv _ _ _ _ _ _ E)
    as (_ & _ & _ & _ & _ & _ & row & wm & _ & _ & _ & Hr).
  unfold withdrawal_ids_fresh in *.
  rewrite (rq_withdrawals _ _ _ _ _ _ Hr), (rq_next_withdrawal_id _ _ _ _ _ _ Hr).
  rewrite forallb_app. apply andb_true_intro. split.
  - revert Hfresh. apply forallb_weaken. intros w Hw.
    apply Z.ltb_lt in Hw. apply Z.ltb_lt. lia.
  - simpl. rewrite andb_true_r. apply Z.ltb_lt. lia.
Qed.

Lemma process_withdrawal_keeps_ids_fresh id status notes now d :
  withdrawal_ids_fresh d = true ->
  withdrawal_ids_fresh (snd (process_withdrawal id status notes now d)) = true.
Proof.
  intros Hfresh. unfold process_withdrawal.
  destruct (decision_of_string status) as [st|]; [|exact Hfresh].
  destruct (pending_withdrawal id d); [exact Hfresh|].
  unfold withdrawal_ids_fresh in *.
  destruct (is_declined st); simpl;
    rewrite forallb_update_where by reflexivity; exact Hfresh.
Qed.

Lemma register_keeps_user_ids body now_ms rnd d :
  unique_user_ids d -> user_ids_fresh d = true ->
  unique_user_ids (snd (register body now_ms rnd d)) /\
  user_ids_fresh (snd (register body now_ms rnd d)) = true.
Proof.
  intros Hids Hfresh. unfold register.
  destruct (0 <? _)%nat; [auto|].
  destruct (0 <? _)%nat; [auto|].
  set (d1 := match truthy_num (unverified_id (r_email body) d) with
             | Some uid => delete_user uid d
             | None => d
             end).
  assert (H1 : unique_user_ids d1 /\ user_ids_fresh d1 = true).
  { subst d1. destruct (truthy_num _) as [uid|]; [|auto].
    unfold unique_user_ids, user_ids_fresh in *. simpl. split.
    - now apply NoDup_map_filter.
    - rewrite forallb_forall in *. intros u Hu.
      apply filter_In in Hu as [Hu _]. auto. }
  destruct H1 as [Hids1 Hfresh1].
  pose proof (getNextBatch_users d1) as Hsame.
  assert (Hnext : next_user_id (snd (getNextBatch d1)) = next_user_id d1).
  { unfold getNextBatch. destruct (order_by_letter_asc_limit1 _); [reflexivity|].
    simpl. unfold insert_ignore_batch. destruct (existsb _ _); reflexivity. }
  destruct (getNextBatch d1) as [batchLetter d2]. simpl in Hsame, Hnext.
  unfold insert_user.
  destruct (existsb _ (users d2)); [auto|].
  destruct (existsb (holds_code _) (users d2)); [auto|].
  unfold unique_user_ids, user_ids_fresh in *. simpl.
  rewrite Hsame, Hnext. split.
  - rewrite map_app. simpl. apply NoDup_app; trivial.
    + constructor; [intros [] | constructor].
    + intros i Hi [<-|[]]. apply in_map_iff in Hi as (u & Hu & Hin).
      rewrite forallb_forall in Hfresh1. specialize (Hfresh1 u Hin).
      apply Z.ltb_lt in Hfresh1. lia.
  - rewrite forallb_app. apply andb_true_intro. split.
    + revert Hfresh1. apply forallb_weaken. intros u Hu.
      apply Z.ltb_lt in Hu. apply Z.ltb_lt. lia.
    + simpl. rewrite andb_true_r. apply Z.ltb_lt. lia.
Qed.

(** ** The scenarios of the specification *)

(** A user with balance 50.00 asks for 30.00: the request is accepted, the
    balance is 20.00 and the withdrawal is pending. The administrator
    declines it: the balance is 50.00 again and the status is declined. A
    second decline is refused. *)
Example scenario_withdraw_decline :
  let d1 := snd (withdraw 2 ex_withdraw_body ex_db) in
  let d2 := snd (process_withdrawal 1 "declined" None one_day d1) in
  fst (withdraw 2 ex_withdraw_body ex_db) = WdOk 3000 "paytm" /\
  balance_of d1 2 = Some 2000 /\
  option_map w_status (withdrawal_by_id d1 1) = Some pending /\
  fst (process_withdrawal 1 "declined" None one_day d1)
  = ProcOk 1 declined 3000 true /\
  balance_of d2 2 = Some 5000 /\
  option_map w_status (withdrawal_by_id d2 1) = Some declined /\
  process_withdrawal 1 "declined" None one_day d2
  = (ProcNotFoundOrProcessed, d2).
Proof. repeat split; reflexivity. Qed.

(** A post with reward 0.15, click limit 2 and auto-delete on. The first
    user clicks: counter 1, 0.15 credited, the post still there. The second
    user clicks: 0.15 credited, the post and both clicks gone. *)
Example scenario_auto_delete :
  let d1 := snd (submit_click 1 ex_click_body ex_db) in
  let d2 := snd (submit_click 2 ex_click_body d1) in
  fst (submit_click 1 ex_click_body ex_db) = ClickOk 1 15 false like /\
  option_map p_click_count (post_by_id d1 7) = Some (Some 1) /\
  balance_of d1 1 = Some 20015 /\
  fst (submit_click 2 ex_click_body d1) = ClickOk 2 15 true like /\
  balance_of d2 2 = Some 5015 /\
  post_by_id d2 7 = None /\
  clicks_of_post d2 7 = [] /\
  fst (submit_click 3 ex_click_body d2) = ClickPostNotFound.
Proof. repeat split; reflexivity. Qed.

(** * Properties of the rest of the server *)

(** ** Refused requests *)

Lemma live_sessions_none sid now d :
  no_live_session sid now d -> live_sessions sid now d = [].
Proof.
  unfold no_live_session, live_sessions. intros H.
  induction (sessions d) as [|x t IH]; simpl; [reflexivity|].
  rewrite IH by (intros y Hy; apply H; now right).
  destruct (String.eqb_spec (s_id x) sid) as [Hid|]; simpl; [|reflexivity].
  specialize (H x (or_introl eq_refl) Hid).
  destruct (Z.gtb_spec (s_expires_at x) now); [lia | reflexivity].
Qed.

Lemma sessionMiddleware_dead now req sid d :
  cookie_sessionId req = Some sid -> sid <> "" ->
  no_live_session sid now d ->
  sessionMiddleware now req d = (inl InvalidOrExpiredSession, d).
Proof.
  intros Hc Hne Hdead. unfold sessionMiddleware.
  now rewrite Hc, (truthy_str_some _ Hne), (live_sessions_none _ _ _ Hdead).
Qed.

(** X1. A request whose cookie names no session that is still running is
    answered 401 'Invalid or expired session' on the user and on the
    administrator routes: the handler does not run and the store, the
    expiry of the session included, stays as it was. *)
Theorem expired_session_is_refused {R : Type} now req sid
    (handler : req_user -> db -> R * db) d :
  cookie_sessionId req = Some sid -> sid <> "" ->
  no_live_session sid now d ->
  api_user now req handler d = (inl InvalidOrExpiredSession, d) /\
  api_admin now req handler d = (inl InvalidOrExpiredSession, d).
Proof.
  intros Hc Hne Hdead.
  pose proof (sessionMiddleware_dead _ _ _ _ Hc Hne Hdead) as Hmw.
  unfold api_user, api_admin. now rewrite Hmw.
Qed.

Lemma expired_session_is_refused_witness :
  api_user_submit_click (8 * one_day) ex_request_bob ex_click_body ex_db
  = (inl InvalidOrExpiredSession, ex_db).
Proof.
  apply (proj1 (expired_session_is_refused (8 * one_day) ex_request_bob
                  "sess-bob" _ ex_db eq_refl ltac:(discriminate)
                  ltac:(intros x [<-|[<-|[<-|[]]]]; simpl;
                        intros; try discriminate; lia))).
Defined.

(** X2. On the administrator routes a caller with a running session who
    is not verified or not an administrator is answered 403; the handler
    does not run, so nothing but the expiry of the caller's session
    changes. *)
Theorem admin_routes_need_a_verified_admin {R : Type} now req d sid s u
    (handler : req_user -> db -> R * db) :
  valid_session req now d sid s u ->
  u_is_verified u = false \/ u_is_admin u = false ->
  exists e,
    (e = EmailVerificationRequired \/ e = AdminAccessRequired) /\
    api_admin now req handler d = (inl e, extend_session sid now d).
Proof.
  intros Hv Hflag. unfold api_admin.
  rewrite (sessionMiddleware_valid _ _ _ _ _ _ Hv).
  rewrite (sessionMiddleware_valid _ _ _ _ _ _
             (valid_session_extended _ _ _ _ _ _ Hv)).
  rewrite extend_session_twice.
  unfold verifiedUserMiddleware, adminMiddleware. simpl.
  destruct (u_is_verified u); simpl.
  - destruct (u_is_admin u); simpl.
    + destruct Hflag; discriminate.
    + eauto.
  - eauto.
Qed.

Lemma ex_request_alice_valid :
  valid_session ex_request_alice one_day ex_db "sess-alice"
                (mkSession "sess-alice" 1 604800) ex_alice.
Proof. constructor; [reflexivity | discriminate | reflexivity | reflexivity | reflexivity]. Qed.

Lemma admin_routes_need_a_verified_admin_witness :
  exists e,
    (e = EmailVerificationRequired \/ e = AdminAccessRequired) /\
    api_admin_process one_day ex_request_alice 1 "approved" None ex_db_pending
    = (inl e, extend_session "sess-alice" one_day ex_db_pending).
Proof.
  apply (admin_routes_need_a_verified_admin one_day ex_request_alice
           ex_db_pending "sess-alice" (mkSession "sess-alice" 1 604800)
           ex_alice).
  - constructor; [reflexivity | discriminate | reflexivity | reflexivity | reflexivity].
  - right. reflexivity.
Defined.

(** ** Logout *)

Lemma logout_sessions req sid d :
  cookie_or_bearer req = Some sid ->
  sessions (logout req d)
  = delete_where (fun x => String.eqb (s_id x) sid) (sessions d).
Proof. intros H. unfold logout. now rewrite H. Qed.

Lemma cookie_or_bearer_cookie req sid :
  cookie_sessionId req = Some sid -> sid <> "" ->
  cookie_or_bearer req = Some sid.
Proof.
  intros Hc Hne. unfold cookie_or_bearer. now rewrite Hc, (truthy_str_some _ Hne).
Qed.

(** X3. After POST /logout with a session cookie no session with that id
    is stored, a later request with the same cookie is answered 401, the
    other sessions and every other table are untouched, and a second
    logout changes nothing. *)
Theorem logout_revokes_the_session {R : Type} now req sid
    (handler : req_user -> db -> R * db) d :
  cookie_sessionId req = Some sid -> sid <> "" ->
  session_by_id (logout req d) sid = None /\
  api_user now req handler (logout req d)
  = (inl InvalidOrExpiredSession, logout req d) /\
  (forall other, other <> sid ->
     session_by_id (logout req d) other = session_by_id d other) /\
  users (logout req d) = users d /\
  user_clicks (logout req d) = user_clicks d /\
  withdrawals (logout req d) = withdrawals d /\
  logout req (logout req d) = logout req d.
Proof.
  intros Hc Hne.
  pose proof (cookie_or_bearer_cookie _ _ Hc Hne) as Htok.
  assert (Hgone : forall x, In x (sessions (logout req d)) -> s_id x <> sid).
  { intros x Hx. rewrite (logout_sessions _ _ _ Htok) in Hx.
    apply filter_In in Hx as [_ Hx].
    destruct (String.eqb_spec (s_id x) sid); [discriminate | assumption]. }
  repeat split.
  - unfold session_by_id. rewrite (logout_sessions _ _ _ Htok).
    apply find_delete_where_same.
  - unfold api_user.
    rewrite (sessionMiddleware_dead now req sid _ Hc Hne); [reflexivity|].
    intros x Hx Hid. now apply Hgone in Hx.
  - intros other Hother. unfold session_by_id.
    rewrite (logout_sessions _ _ _ Htok). unfold delete_where.
    induction (sessions d) as [|x t IH]; simpl; [reflexivity|].
    destruct (String.eqb_spec (s_id x) sid) as [Hx|Hx]; simpl.
    + destruct (String.eqb_spec (s_id x) other); [congruence | exact IH].
    + destruct (String.eqb (s_id x) other); [reflexivity | exact IH].
  - unfold logout. now rewrite Htok.
  - unfold logout. now rewrite Htok.
  - unfold logout. now rewrite Htok.
  - unfold logout at 1. rewrite Htok.
    unfold logout. rewrite Htok. unfold with_sessions. simpl. f_equal.
    unfold delete_where. induction (sessions d) as [|x t IH]; simpl; [reflexivity|].
    destruct (String.eqb (s_id x) sid) eqn:E; simpl; [exact IH|].
    rewrite E. simpl. now rewrite IH.
Qed.

Lemma logout_revokes_the_session_witness :
  session_by_id (logout ex_request_bob ex_db) "sess-bob" = None /\
  api_user_submit_click one_day ex_request_bob ex_click_body
                        (logout ex_request_bob ex_db)
  = (inl InvalidOrExpiredSession, logout ex_request_bob ex_db).
Proof.
  pose proof (logout_revokes_the_session one_day ex_request_bob "sess-bob"
                (fun user => submit_click (ru_id user) ex_click_body) ex_db
                eq_refl ltac:(discriminate)) as (H1 & H2 & _).
  split; [exact H1 | exact H2].
Defined.

(** ** The periodic cleanup *)

Lemma flat_map_delete_where_limit {A B : Type} (f : A -> list B)
    (cond : A -> bool) (t : list A) : forall n,
  (forall x, cond x = true -> f x = []) ->
  flat_map f (delete_where_limit n cond t) = flat_map f t.
Proof.
  induction t as [|x t IH]; intros n H; simpl; [reflexivity|].
  destruct (cond x) eqn:E.
  - destruct n as [|m]; [reflexivity|]. rewrite (H x E). simpl. now apply IH.
  - simpl. now rewrite IH.
Qed.

(** X4. [cleanupExpiredData] removes no session and no verification code
    that is still usable: at the time of the cleanup and at any time not
    more than a day before it, the session lookup of the middleware and
    the code lookup of verify-email answer as they did; users, posts,
    clicks and withdrawals are not touched. *)
Theorem cleanup_keeps_what_is_usable now s :
  (forall sid now', now - one_day <= now' ->
     live_sessions sid now' (sv_db (cleanupExpiredData now s))
     = live_sessions sid now' (sv_db s)) /\
  (forall email code now', now - one_day <= now' ->
     open_registrations email code now' (cleanupExpiredData now s)
     = open_registrations email code now' s) /\
  users (sv_db (cleanupExpiredData now s)) = users (sv_db s) /\
  posts (sv_db (cleanupExpiredData now s)) = posts (sv_db s) /\
  user_clicks (sv_db (cleanupExpiredData now s)) = user_clicks (sv_db s) /\
  withdrawals (sv_db (cleanupExpiredData now s)) = withdrawals (sv_db s).
Proof.
  repeat split.
  - intros sid now' Hnow'. unfold live_sessions. simpl.
    apply flat_map_delete_where_limit. intros x Hx.
    apply Z.ltb_lt in Hx.
    replace (s_expires_at x >? now') with false
      by (symmetry; rewrite Z.gtb_ltb; apply Z.ltb_ge; lia).
    now rewrite andb_false_r.
  - intros email code now' Hnow'. unfold open_registrations. simpl.
    apply flat_map_delete_where_limit. intros x Hx.
    apply Z.ltb_lt in Hx.
    replace (vc_expires_at x >? now') with false
      by (symmetry; rewrite Z.gtb_ltb; apply Z.ltb_ge; lia).
    now rewrite andb_false_r.
Qed.

(** ** Login *)

Lemma NoDup_map_same {A B : Type} (f : A -> B) (t : list A) a b :
  NoDup (map f t) -> In a t -> In b t -> f a = f b -> a = b.
Proof.
  induction t as [|y t IH]; simpl; [contradiction|].
  intros Hnd Ha Hb Hf. inversion Hnd as [|? ? Hnotin Hnd']; subst.
  destruct Ha as [->|Ha], Hb as [->|Hb]; auto.
  - exfalso. apply Hnotin. rewrite Hf. now apply in_map.
  - exfalso. apply Hnotin. rewrite <- Hf. now apply in_map.
Qed.

Lemma user_by_own_id d u :
  unique_user_ids d -> In u (users d) -> user_by_id d (u_id u) = Some u.
Proof.
  intros Hids Hin. unfold user_by_id.
  destruct (find _ (users d)) as [r|] eqn:E.
  - apply find_some in E as [Hr Hid]. apply Z.eqb_eq in Hid.
    f_equal. now apply (NoDup_map_same u_id (users d)).
  - apply find_none with (x := u) in E; [|exact Hin].
    rewrite Z.eqb_refl in E. discriminate.
Qed.

Lemma cache_get_set key u c : cache_get key (cache_set key u c) = Some u.
Proof.
  unfold cache_get, cache_set.
  rewrite find_app_none by apply find_delete_where_same.
  simpl. now rewrite String.eqb_refl.
Qed.

Lemma cache_get_delete key c : cache_get key (cache_delete key c) = None.
Proof.
  unfold cache_get, cache_delete. now rewrite find_delete_where_same.
Qed.

Lemma insert_session_fresh sid uid expires ua d :
  session_by_id d sid = None ->
  existsb (fun u => u_id u =? uid) (users d) = true ->
  insert_session sid uid expires (Some ua) d
  = Some (with_sessions d (sessions d ++ [mkSession sid uid expires])).
Proof.
  intros Hfresh Hu. unfold insert_session.
  replace (existsb (fun x => String.eqb (s_id x) sid) (sessions d)) with false.
  - now rewrite Hu.
  - symmetry. destruct (existsb _ (sessions d)) eqn:E; [|reflexivity].
    apply existsb_find_some in E as [x Hx].
    unfold session_by_id in Hfresh. congruence.
Qed.

Lemma session_by_id_inserted sid uid expires d :
  session_by_id d sid = None ->
  session_by_id (with_sessions d (sessions d ++ [mkSession sid uid expires]))
                sid
  = Some (mkSession sid uid expires).
Proof.
  intros Hfresh. unfold session_by_id in *. simpl.
  rewrite find_app_none by exact Hfresh. simpl. now rewrite String.eqb_refl.
Qed.

Lemma prefix_app (p s : string) : prefix p (p ++ s) = true.
Proof.
  induction p as [|c p IH]; simpl; [now destruct s|].
  destruct (ascii_dec c c); [exact IH | contradiction].
Qed.

Lemma substring_app_tail (p s : string) :
  substring (String.length p) (String.length s) (p ++ s) = s.
Proof.
  induction p as [|c p IH]; simpl; [|exact IH].
  induction s as [|x s IHs]; simpl; [reflexivity | now rewrite IHs].
Qed.

Lemma remove_first_prefix (p s : string) : remove_first p (p ++ s) = s.
Proof.
  assert (H : remove_first p (p ++ s)
              = substring (String.length p)
                          (String.length (p ++ s) - String.length p) (p ++ s)).
  { pose proof (prefix_app p s) as Hp.
    destruct (p ++ s)%string eqn:E.
    - destruct p; [reflexivity | discriminate].
    - cbn [remove_first]. now rewrite Hp. }
  rewrite H, string_length_app.
  replace (String.length p + String.length s - String.length p)%nat
    with (String.length s) by lia.
  apply substring_app_tail.
Qed.

Lemma bearer_token req sid :
  cookie_sessionId req = None ->
  authorization req = Some ("Bearer " ++ sid)%string -> sid <> "" ->
  cookie_or_bearer req = Some sid.
Proof.
  intros Hc Ha Hne. unfold cookie_or_bearer. rewrite Hc, Ha.
  change (truthy_str (Some (remove_first "Bearer " ("Bearer " ++ sid)))
          = Some sid).
  rewrite remove_first_prefix. now apply truthy_str_some.
Qed.

(** X5. A permanent-code login of a verified user (the code not in the
    cache, the session id fresh) whose request carries a User-Agent
    header answers with the session id, caches the user row and stores a
    session of that user that expires seven days later; until then the
    session middleware accepts the id as that user, from the cookie and,
    in the revision that reads the Authorization header, as a bearer
    token. The same login without a User-Agent header is not answered:
    the INSERT of the session throws outside any catch, no session is
    stored and the store is as it was. *)
Theorem permanent_code_login_opens_a_session email code now lc jid sid ua s u :
  code <> "" -> sid <> "" ->
  unique_user_ids (sv_db s) ->
  cache_get (cacheKey code) (userCache s) = None ->
  find (fun r => holds_code code r && u_is_verified r) (users (sv_db s))
  = Some u ->
  session_by_id (sv_db s) sid = None ->
  (exists s',
    login email code now lc jid sid (Some ua) s
    = (LoginOk sid (attach_user u), s') /\
    cache_get (cacheKey code) (userCache s') = Some u /\
    expiry_of (sv_db s') sid = Some (now + seven_days) /\
    forall now' req,
      now' < now + seven_days ->
      (cookie_sessionId req = Some sid ->
       sessionMiddleware now' req (sv_db s')
       = (inr (attach_user u), extend_session sid now' (sv_db s'))) /\
      (cookie_sessionId req = None ->
       authorization req = Some ("Bearer " ++ sid)%string ->
       sessionMiddleware_bearer now' req (sv_db s')
       = (inr (attach_user u), extend_session sid now' (sv_db s')))) /\
  fst (login email code now lc jid sid None s) = LoginUnhandled /\
  sv_db (snd (login email code now lc jid sid None s)) = sv_db s.
Proof.
  intros Hcode Hsid Hids Hmiss Hfound Hfresh.
  assert (Hin : In u (users (sv_db s))) by (apply find_some in Hfound; tauto).
  pose proof (user_by_own_id _ _ Hids Hin) as Hrow.
  unfold login, handlePermanentCodeLoginOptimized.
  destruct (String.eqb_spec code ""); [contradiction|]. simpl negb. cbv iota.
  rewrite Hmiss. destruct (select_where_find_some _ _ _ Hfound) as [rest ->].
  simpl sv_db.
  split; [|split; reflexivity].
  rewrite insert_session_fresh;
    [|exact Hfresh | eapply find_some_existsb; exact Hrow].
  eexists. split; [reflexivity|]. simpl. split; [apply cache_get_set|].
  split.
  - unfold expiry_of. now rewrite session_by_id_inserted.
  - intros now' req Hnow'. split.
    + intros Hc.
      apply sessionMiddleware_valid
        with (s := mkSession sid (u_id u) (now + seven_days)).
      constructor; trivial. now apply session_by_id_inserted.
    + intros Hc Ha.
      apply (sessionMiddleware_bearer_slides req now' _ sid
               (mkSession sid (u_id u) (now + seven_days)) u); trivial.
      * now apply bearer_token.
      * now apply session_by_id_inserted.
Qed.

Lemma permanent_code_login_opens_a_session_witness :
  (exists s',
    login "" "111111" 0 "000000" "job-0" "sess-alice-2" (Some "Mozilla/5.0")
          ex_server
    = (LoginOk "sess-alice-2" (attach_user ex_alice), s') /\
    cache_get (cacheKey "111111") (userCache s') = Some ex_alice /\
    expiry_of (sv_db s') "sess-alice-2" = Some (0 + seven_days) /\
    forall now' req,
      now' < 0 + seven_days ->
      (cookie_sessionId req = Some "sess-alice-2" ->
       sessionMiddleware now' req (sv_db s')
       = (inr (attach_user ex_alice),
          extend_session "sess-alice-2" now' (sv_db s'))) /\
      (cookie_sessionId req = None ->
       authorization req = Some ("Bearer " ++ "sess-alice-2")%string ->
       sessionMiddleware_bearer now' req (sv_db s')
       = (inr (attach_user ex_alice),
          extend_session "sess-alice-2" now' (sv_db s')))) /\
  fst (login "" "111111" 0 "000000" "job-0" "sess-alice-2" None ex_server)
  = LoginUnhandled /\
  sv_db (snd (login "" "111111" 0 "000000" "job-0" "sess-alice-2" None
                    ex_server))
  = sv_db ex_server.
Proof.
  apply (permanent_code_login_opens_a_session "" "111111" 0 "000000" "job-0"
           "sess-alice-2" "Mozilla/5.0" ex_server ex_alice);
    try reflexivity; try discriminate.
  unfold unique_user_ids. simpl. repeat constructor; simpl; intuition discriminate.
Defined.

(** X6. The login cache is not checked against the store: while the cache
    holds a user under a permanent code, a login with that code, sent
    with a User-Agent header, succeeds as that user even when no verified
    user holds the code any more (the administrator has withdrawn the
    verification in between); once the timer has deleted the entry the
    same login is refused, with or without the header. *)
Theorem cached_login_outlives_unverification email code now lc jid sid ua s u :
  code <> "" ->
  cache_get (cacheKey code) (userCache s) = Some u ->
  registered (sv_db s) (u_id u) ->
  session_by_id (sv_db s) sid = None ->
  (forall r, In r (users (sv_db s)) -> holds_code code r = true ->
             u_is_verified r = false) ->
  (exists s', login email code now lc jid sid (Some ua) s
              = (LoginOk sid (attach_user u), s')) /\
  forall ua',
    login email code now lc jid sid ua' (cache_timeout code s)
    = (LoginInvalidPermanentCode, cache_timeout code s).
Proof.
  intros Hcode Hhit Hreg Hfresh Hnone.
  unfold login, handlePermanentCodeLoginOptimized.
  destruct (String.eqb_spec code ""); [contradiction|]. simpl negb. cbv iota.
  split.
  - rewrite Hhit.
    rewrite insert_session_fresh;
      [|exact Hfresh | now apply registered_existsb].
    eauto.
  - intros ua'. simpl userCache. rewrite cache_get_delete. simpl sv_db.
    rewrite (select_where_find_none
               (fun r => holds_code code r && u_is_verified r)).
    + reflexivity.
    + destruct (find _ (users (sv_db s))) as [r|] eqn:E; [|reflexivity].
      apply find_some in E as [Hin Hr]. apply andb_prop in Hr as [Hc Hv].
      rewrite (Hnone r Hin Hc) in Hv. discriminate.
Qed.

Lemma cached_login_outlives_unverification_witness :
  user_by_id (sv_db ex_server_alice_unverified) 1
  = Some (set_is_verified false ex_alice) /\
  (exists s', login "" "111111" 60 "000000" "job-1" "sess-alice-3"
                    (Some "Mozilla/5.0") ex_server_alice_unverified
              = (LoginOk "sess-alice-3" (attach_user ex_alice), s')) /\
  forall ua',
    login "" "111111" 60 "000000" "job-1" "sess-alice-3" ua'
          (cache_timeout "111111" ex_server_alice_unverified)
    = (LoginInvalidPermanentCode,
       cache_timeout "111111" ex_server_alice_unverified).
Proof.
  split; [reflexivity|].
  apply (cached_login_outlives_unverification "" "111111" 60 "000000" "job-1"
           "sess-alice-3" "Mozilla/5.0" ex_server_alice_unverified ex_alice);
    try reflexivity; try discriminate.
  intros r [<-|[<-|[<-|[]]]]; simpl; intros; try reflexivity; discriminate.
Defined.

(** * What every handler does to the tables *)

Lemma effects_same z d d' :
  users d' = users d -> next_user_id d' = next_user_id d ->
  posts d' = posts d -> withdrawals d' = withdrawals d -> effects z d d'.
Proof.
  intros. constructor; [now apply ue_same | now apply pe_same | now apply we_same].
Qed.

Lemma effects_refl z d : effects z d d.
Proof. now apply effects_same. Qed.

Lemma submit_click_next_user_id u body d :
  next_user_id (snd (submit_click u body d)) = next_user_id d.
Proof.
  unfold submit_click, insert_user_click.
  destruct (truthy_num (postId body)) as [pid|]; [|reflexivity].
  destruct (select_where _ (posts d)) as [|post ?]; [reflexivity|].
  destruct (negb (p_is_active post)); [reflexivity|].
  destruct (clicks_of_pair d u pid); [|reflexivity].
  destruct (existsb _ (user_clicks d)); [reflexivity|].
  destruct (negb _); [reflexivity|]. destruct (negb _); [reflexivity|].
  simpl. destruct (limit_reached _ _); reflexivity.
Qed.

Lemma submit_click_effects z u body d : effects z d (snd (submit_click u body d)).
Proof.
  pose proof (submit_click_next_user_id u body d) as Hn.
  destruct (submit_click u body d) as [r d'] eqn:E. simpl in *.
  destruct r;
    try (rewrite (submit_click_failure_keeps_store _ _ _ _ _ E)
           by (intros; discriminate); apply effects_refl).
  apply submit_click_inv in E
    as (pid & post & Hb & Hpid & Hpost & Hact & Hcl & Hu & -> & -> & -> & -> & Hs).
  destruct Hs as [Hsu Hsp Hsc Hss Hsw Hsb Hsn]. constructor.
  - eapply ue_update; [apply ru_reward | exact Hsu | exact Hn].
    apply find_some in Hpost. exact (proj1 Hpost).
  - eapply pe_settle; eauto.
  - now apply we_same.
Qed.

Lemma withdraw_next_user_id u body d :
  next_user_id (snd (withdraw u body d)) = next_user_id d.
Proof.
  unfold withdraw, insert_withdrawal.
  destruct (_ || _); [reflexivity|].
  destruct (parseFloat (amount body)) as [a|]; [|reflexivity].
  destruct (Qle_bool a 0); [reflexivity|].
  destruct (below_minimum a (method body)); [reflexivity|].
  destruct (select_where _ (users d)) as [|row ?]; [reflexivity|].
  destruct (Qlt_b _ a); [reflexivity|].
  destruct (method_of_string (method body)); [|reflexivity].
  destruct (negb _); reflexivity.
Qed.

Lemma withdraw_effects z u body d : effects z d (snd (withdraw u body d)).
Proof.
  pose proof (withdraw_next_user_id u body d) as Hn.
  destruct (withdraw u body d) as [r d'] eqn:E. simpl in *.
  destruct r;
    try (rewrite (withdraw_failure_keeps_store _ _ _ _ _ E)
           by (intros; discriminate); apply effects_refl).
  apply withdraw_inv in E
    as (_ & _ & _ & _ & Hpos & _ & row & wm & Hrow & Hle & _ & Hr).
  destruct Hr as [Hru Hrw Hrs Hrp Hrc Hrb Hrn]. constructor.
  - eapply ue_update; [eapply ru_debit; eauto | exact Hru | exact Hn].
  - now apply pe_same.
  - eapply we_request; eauto.
Qed.

Lemma process_withdrawal_effects z id st notes now d :
  effects z d (snd (process_withdrawal id st notes now d)).
Proof.
  unfold process_withdrawal.
  destruct (decision_of_string st) as [st'|]; [|apply effects_refl].
  destruct (pending_withdrawal id d) as [|w rest] eqn:E; [apply effects_refl|].
  apply pending_withdrawal_sound in E as (Hin & Hid & Hst).
  simpl. constructor.
  - destruct (is_declined st'); simpl.
    + eapply ue_update; [eapply ru_refund; eauto | reflexivity | reflexivity].
    + now apply ue_same.
  - destruct (is_declined st'); now apply pe_same.
  - destruct (is_declined st'); eapply we_resolve; reflexivity.
Qed.

Lemma existsb_other_false (key : user_row -> string) e uid (t : list user_row) :
  existsb (fun u => String.eqb (key u) e && negb (u_id u =? uid)) t = false ->
  forall u, In u t -> key u = e -> u_id u = uid.
Proof.
  intros H u Hin Hk. apply existsb_false_forall with (x := u) in H; [|exact Hin].
  rewrite Hk, String.eqb_refl in H. simpl in H.
  destruct (Z.eqb_spec (u_id u) uid); [assumption | discriminate].
Qed.

Lemma update_profile_effects z uid b d :
  effects z d (snd (update_profile uid b d)).
Proof.
  unfold update_profile.
  destruct (profile_checks b); [apply effects_refl|].
  destruct (existsb (fun u => String.eqb (u_email u) (pb_email b) && _)
                    (users d)) eqn:Ee; [apply effects_refl|].
  destruct (existsb (fun u => String.eqb (u_instagram_id u) _ && _)
                    (users d)) eqn:Ei; [apply effects_refl|].
  destruct (negb _); [apply effects_refl|].
  simpl. constructor; [|now apply pe_same | now apply we_same].
  eapply ue_update; [apply ru_profile | reflexivity | reflexivity].
  now apply existsb_other_false.
Qed.

Lemma toggle_verification_effects z uid v d :
  effects z d (snd (toggle_verification uid v d)).
Proof.
  unfold toggle_verification.
  destruct v as [v|]; [|apply effects_refl].
  destruct (select_where _ (users d)); [apply effects_refl|].
  simpl. constructor; [|now apply pe_same | now apply we_same].
  eapply ue_update; [apply ru_verified | reflexivity | reflexivity].
Qed.

Lemma select_where_cons_find {A : Type} (cond : A -> bool) t x rest :
  select_where cond t = x :: rest -> find cond t = Some x.
Proof. intros H. now rewrite select_where_head, H. Qed.

Lemma admin_update_user_effects z uid b d :
  effects z d (snd (admin_update_user uid b d)).
Proof.
  unfold admin_update_user.
  destruct (_ || _); [apply effects_refl|].
  destruct (bad_earnings (ab_earnings b)) eqn:Eb; [apply effects_refl|].
  destruct (select_where _ (users d)) as [|existing rest] eqn:Es;
    [apply effects_refl|].
  apply select_where_cons_find in Es.
  destruct (negb (String.eqb (ab_email b) (u_email existing))) eqn:En; simpl.
  - destruct (existsb _ (users d)) eqn:Ee; [apply effects_refl|].
    simpl. constructor; [|now apply pe_same | now apply we_same].
    eapply ue_update; [eapply ru_admin; eauto | reflexivity | reflexivity].
    right. now apply existsb_other_false.
  - constructor; [|now apply pe_same | now apply we_same].
    eapply ue_update; [eapply ru_admin; eauto | reflexivity | reflexivity].
    left. apply negb_false_iff in En. now apply String.eqb_eq.
Qed.

Lemma delete_user_effects z uid d : effects z d (delete_user uid d).
Proof.
  constructor;
    [now apply ue_delete with (uid := uid) | now apply pe_same
     | now apply we_delete with (uid := uid)].
Qed.

Lemma admin_delete_user_effects z uid d :
  effects z d (snd (admin_delete_user uid d)).
Proof.
  unfold admin_delete_user.
  destruct (select_where _ (users d)); [apply effects_refl|].
  apply delete_user_effects.
Qed.

(** *** Posts *)

Lemma insert_post_inv id p d d' :
  insert_post id p d = Some d' ->
  exists x,
    d' = with_posts d (posts d ++ [x]) /\ p_id x = id /\
    existsb (fun y => p_id y =? id) (posts d) = false /\
    (exists r, parseFloat (po_rewardAmount p) = Some r /\
               p_reward_amount x = to_decimal r /\
               -10000 < to_decimal r < 10000) /\
    engagement_of_string (po_engagementType p) = Some (p_engagement_type x) /\
    p_is_active x = true /\ p_click_count x = Some 0 /\
    p_auto_delete_enabled x = po_autoDeleteEnabled p /\
    p_click_limit x
    = (if po_autoDeleteEnabled p then po_clickLimit p else None).
Proof.
  unfold insert_post.
  destruct (engagement_of_string _) as [et|]; [|discriminate].
  destruct (parseFloat _) as [r|]; [|discriminate].
  unfold reward_column.
  destruct (Z.leb_spec (to_decimal r) (-10000)); [discriminate|].
  destruct (Z.leb_spec 10000 (to_decimal r)); [discriminate|]. simpl.
  destruct (existsb _ (posts d)) eqn:E; [discriminate|].
  intros [= <-]. eexists. do 3 (split; [reflexivity|]).
  split; [|repeat split; reflexivity].
  exists r. repeat split; trivial.
Qed.

Lemma post_limit_checked p :
  post_limit_missing p = false -> po_autoDeleteEnabled p = true ->
  exists l, po_clickLimit p = Some l /\ 1 <= l.
Proof.
  unfold post_limit_missing. intros H Ha. rewrite Ha in H. simpl in H.
  destruct (truthy_num (po_clickLimit p)) as [l|] eqn:E; [|discriminate].
  apply truthy_num_inv in E as [E _]. exists l. split; [exact E|].
  apply Z.ltb_ge in H. lia.
Qed.

Lemma NoDup_ids_snoc {A : Type} (key : A -> Z) (t : list A) x :
  existsb (fun y => key y =? key x) t = false ->
  NoDup (map key t) -> NoDup (map key (t ++ [x])).
Proof.
  intros Hfree Hnd. rewrite map_app. simpl. apply NoDup_app; trivial.
  - constructor; [intros [] | constructor].
  - intros i Hi [<-|[]]. apply in_map_iff in Hi as (y & Hy & Hin).
    apply existsb_false_forall with (x := y) in Hfree; [|exact Hin].
    apply Z.eqb_neq in Hfree. contradiction.
Qed.

Lemma insert_post_fresh z id p d d' :
  post_limit_missing p = false ->
  (z = false ->
   forall r, parseFloat (po_rewardAmount p) = Some r -> (0 <= r)%Q) ->
  insert_post id p d = Some d' ->
  exists x,
    d' = with_posts d (posts d ++ [x]) /\ fresh_post z x /\
    (NoDup (map p_id (posts d)) -> NoDup (map p_id (posts d ++ [x]))).
Proof.
  intros Hl Hz Hi.
  apply insert_post_inv in Hi
    as (x & -> & Hid & Hfree & (r & Hr & Hrw & Hrange) & _ & Hact & Hcnt &
        Had & Hlim).
  exists x. split; [reflexivity|]. split.
  - split; [exact Hact|]. split; [exact Hcnt|]. split; [|split].
    + intros Hx. rewrite Hlim. rewrite Had in Hx. rewrite Hx.
      now apply post_limit_checked.
    + intros Hb. rewrite Hrw. apply to_decimal_nonneg. now apply (Hz Hb).
    + now rewrite Hrw.
  - apply NoDup_ids_snoc. now rewrite Hid.
Qed.

Lemma effects_posts_only z d d' added :
  d' = with_posts d (posts d ++ added) ->
  Forall (fresh_post z) added ->
  (NoDup (map p_id (posts d)) -> NoDup (map p_id (posts d ++ added))) ->
  effects z d d'.
Proof.
  intros -> Hf Hn. constructor; [now apply ue_same | | now apply we_same].
  now apply pe_insert with (added := added).
Qed.

Lemma create_post_effects id p d :
  effects (reward_below_zero (CreatePost id p)) d (snd (create_post id p d)).
Proof.
  unfold create_post, post_checks.
  destruct (post_fields_missing p); [apply effects_refl|].
  destruct (post_batches_missing p); [apply effects_refl|].
  destruct (post_limit_missing p) eqn:El; [apply effects_refl|].
  destruct (engagement_of_string _); [|apply effects_refl].
  destruct (insert_post id p d) as [d'|] eqn:Ei; [|apply effects_refl].
  assert (Hz : reward_below_zero (CreatePost id p) = false ->
               forall r, parseFloat (po_rewardAmount p) = Some r ->
                         (0 <= r)%Q).
  { simpl. intros Hz r Hr. rewrite Hr in Hz. now apply Qlt_b_false. }
  destruct (insert_post_fresh _ _ _ _ _ El Hz Ei) as (x & Hd & Hf & Hn).
  simpl. eapply effects_posts_only; eauto.
Qed.

Lemma first_invalid_none i ps :
  first_invalid i ps = None -> Forall (fun p => bulk_post_checks p = None) ps.
Proof.
  revert i. induction ps as [|p ps IH]; intros i H; [constructor|].
  simpl in H. destruct (bulk_post_checks p) eqn:E; [discriminate|].
  constructor; eauto.
Qed.

Lemma bulk_post_checks_none p :
  bulk_post_checks p = None ->
  post_limit_missing p = false /\ post_reward_invalid p = false.
Proof.
  unfold bulk_post_checks.
  destruct (post_fields_missing p); [discriminate|].
  destruct (post_batches_missing p); [discriminate|].
  destruct (post_limit_missing p); [discriminate|].
  destruct (post_reward_invalid p); [discriminate|]. auto.
Qed.

Lemma bulk_insert_adds ps : forall ids d created failed d',
  Forall (fun p => bulk_post_checks p = None) ps ->
  bulk_insert ps ids d = (created, failed, d') ->
  exists added,
    d' = with_posts d (posts d ++ added) /\
    map p_id added = created /\
    Forall (fresh_post false) added /\
    (NoDup (map p_id (posts d)) -> NoDup (map p_id (posts d ++ added))).
Proof.
  induction ps as [|p ps IH]; intros ids d created failed d' Hok H.
  - simpl in H. injection H as <- <- <-. exists []. rewrite app_nil_r.
    repeat split; auto. now destruct d.
  - inversion Hok as [|? ? Hp Hps]; subst. simpl in H.
    destruct ids as [|id ids'].
    + destruct (bulk_insert ps [] d) as [[c f] d1] eqn:E.
      injection H as <- <- <-. eapply IH; eauto.
    + destruct (insert_post id p d) as [d1|] eqn:Ei.
      * destruct (bulk_insert ps ids' d1) as [[c f] d2] eqn:E.
        injection H as <- <- <-.
        apply bulk_post_checks_none in Hp as [Hl Hr].
        assert (Hz : false = false ->
                     forall r, parseFloat (po_rewardAmount p) = Some r ->
                               (0 <= r)%Q).
        { intros _ r Hpr. unfold post_reward_invalid in Hr.
          rewrite Hpr in Hr. apply Qle_bool_false in Hr.
          now apply Qlt_le_weak. }
        destruct (insert_post_fresh false _ _ _ _ Hl Hz Ei)
          as (x & Hd1 & Hfx & Hnx).
        destruct (IH _ _ _ _ _ Hps E) as (added & Hd2 & Hids & Hfa & Hna).
        subst d1. simpl in Hd2, Hna. exists (x :: added).
        rewrite <- app_assoc in Hd2, Hna. simpl in Hd2, Hna.
        repeat split; auto.
        -- simpl. f_equal; [|exact Hids].
           apply insert_post_inv in Ei as (y & Hy & Hid & _).
           injection Hy as Hy. apply app_inj_tail in Hy as [_ <-]. exact Hid.
      * destruct (bulk_insert ps ids' d) as [[c f] d2] eqn:E.
        injection H as <- <- <-. eapply IH; eauto.
Qed.

Lemma bulk_create_posts_effects z ids ps d :
  effects z d (snd (bulk_create_posts ids ps d)).
Proof.
  unfold bulk_create_posts.
  destruct ps as [|p ps]; [apply effects_refl|].
  destruct (first_invalid 0 (p :: ps)) as [[i e]|] eqn:Ef; [apply effects_refl|].
  apply first_invalid_none in Ef.
  destruct (bulk_insert (p :: ps) ids d) as [[created failed] d'] eqn:E.
  destruct (bulk_insert_adds _ _ _ _ _ _ Ef E) as (added & Hd & _ & Hf & Hn).
  assert (Hf' : Forall (fresh_post z) added).
  { revert Hf. apply Forall_impl. intros x (H1 & H2 & H3 & H4 & H5).
    specialize (H4 eq_refl). repeat split; auto; intros; lia. }
  destruct failed; [|destruct created]; simpl;
    try apply effects_refl; eapply effects_posts_only; eauto.
Qed.

Lemma toggle_post_status_effects z pid v d :
  effects z d (snd (toggle_post_status pid v d)).
Proof.
  unfold toggle_post_status.
  destruct v as [v|]; [|apply effects_refl].
  destruct (existsb _ (posts d)); [|apply effects_refl].
  simpl. constructor; [now apply ue_same | | now apply we_same].
  now apply pe_toggle with (pid := pid) (v := v).
Qed.

Lemma delete_post_effects z pid d : effects z d (snd (delete_post pid d)).
Proof.
  unfold delete_post. simpl.
  destruct (existsb _ (posts d)); [|apply effects_refl].
  simpl. constructor; [now apply ue_same | | now apply we_same].
  now apply pe_delete with (pid := pid).
Qed.

(** *** Registration and the flows on the server state *)

Lemma string_length_nonempty (s : string) :
  (1 <= String.length s)%nat -> s <> "".
Proof. destruct s; simpl; [lia | discriminate]. Qed.

Lemma generated_code_nonempty now_ms rnd :
  generateUniquePermanentCode now_ms rnd <> "".
Proof.
  apply string_length_nonempty. unfold generateUniquePermanentCode, padStart.
  rewrite !string_length_app. unfold toString.
  pose proof (to_string_aux_length_ge (N.to_nat (N.log2 rnd)) rnd "") as H.
  simpl String.length in H at 1. lia.
Qed.

Lemma getNextBatch_keeps d :
  users (snd (getNextBatch d)) = users d /\
  next_user_id (snd (getNextBatch d)) = next_user_id d /\
  posts (snd (getNextBatch d)) = posts d /\
  withdrawals (snd (getNextBatch d)) = withdrawals d /\
  sessions (snd (getNextBatch d)) = sessions d.
Proof.
  unfold getNextBatch.
  destruct (order_by_letter_asc_limit1 _); [repeat split|]. simpl.
  unfold insert_ignore_batch. destruct (existsb _ (batches d)); repeat split.
Qed.

Lemma register_effects z body now_ms rnd d :
  effects z d (snd (register body now_ms rnd d)).
Proof.
  unfold register.
  destruct (0 <? _)%nat; [apply effects_refl|].
  destruct (0 <? _)%nat; [apply effects_refl|].
  set (d1 := match truthy_num (unverified_id (r_email body) d) with
             | Some uid => delete_user uid d
             | None => d
             end).
  assert (H1 : next_user_id d1 = next_user_id d /\ posts d1 = posts d /\
               (users d1 = users d \/
                exists uid,
                  users d1 = delete_where (fun u => u_id u =? uid) (users d)) /\
               (withdrawals d1 = withdrawals d \/
                exists uid,
                  withdrawals d1
                  = delete_where (fun w => w_user_id w =? uid) (withdrawals d))).
  { subst d1. destruct (truthy_num _) as [uid|]; simpl;
      (split; [reflexivity|]); (split; [reflexivity|]); split; eauto. }
  destruct H1 as (Hn1 & Hp1 & Hu1 & Hw1).
  destruct (getNextBatch_keeps d1) as (Hu2 & Hn2 & Hp2 & Hw2 & _).
  destruct (getNextBatch d1) as [batchLetter d2]. simpl in Hu2, Hn2, Hp2, Hw2.
  unfold insert_user.
  destruct (existsb _ (users d2)) eqn:Ee; [apply effects_refl|].
  destruct (existsb (holds_code _) (users d2)) eqn:Ec; [apply effects_refl|].
  simpl. rewrite Hu2 in *. constructor; simpl.
  - eapply ue_insert with (base := users d1); simpl.
    + destruct Hu1 as [->|[uid ->]]; eauto.
    + exact Ee.
    + exact Ec.
    + apply generated_code_nonempty.
    + rewrite Hn2, Hn1. reflexivity.
    + rewrite Hn2, Hn1. reflexivity.
  - apply pe_same. simpl. congruence.
  - rewrite Hw2. destruct Hw1 as [->|[uid ->]];
      [now apply we_same | now apply we_delete with (uid := uid)].
Qed.

Lemma register_request_db b now now_ms rnd vcode jobId s :
  sv_db (snd (register_request b now now_ms rnd vcode jobId s)) = sv_db s \/
  sv_db (snd (register_request b now now_ms rnd vcode jobId s))
  = snd (register (mkRegisterBody (pb_email b) (pb_instagramId b)
                                  (profile_of b))
                  now_ms rnd (sv_db s)).
Proof.
  unfold register_request.
  destruct (register_checks b); [now left|].
  destruct (register _ _ _ (sv_db s)) as [r d'].
  destruct r; simpl; auto.
Qed.

Lemma insert_session_keeps sid uid expires ua d d' :
  insert_session sid uid expires ua d = Some d' ->
  d' = with_sessions d (sessions d ++ [mkSession sid uid expires]).
Proof.
  unfold insert_session. destruct ua as [ua|]; [|discriminate].
  destruct (existsb _ (sessions d)); [discriminate|].
  destruct (negb _); [discriminate|]. now intros [= <-].
Qed.

Lemma login_db email code now lc jid sid ua s :
  sv_db (snd (login email code now lc jid sid ua s)) = sv_db s \/
  exists uid,
    sv_db (snd (login email code now lc jid sid ua s))
    = with_sessions (sv_db s)
        (sessions (sv_db s) ++ [mkSession sid uid (now + seven_days)]).
Proof.
  unfold login, handlePermanentCodeLoginOptimized.
  destruct (negb (String.eqb code "")).
  - destruct (cache_get _ _) as [u|].
    + destruct (insert_session _ _ _ _ _) as [d'|] eqn:E; simpl; [|now left].
      apply insert_session_keeps in E. eauto.
    + destruct (select_where _ _) as [|u ?]; [now left|]. simpl sv_db.
      destruct (insert_session _ _ _ _ _) as [d'|] eqn:E; simpl; [|now left].
      apply insert_session_keeps in E. eauto.
  - destruct (String.eqb email ""); [now left|].
    destruct (select_where _ _) as [|u ?]; [now left|].
    destruct (negb _); [now left|].
    destruct (truthy_code u); now left.
Qed.

Lemma verify_login_db email code now sid ua s :
  sv_db (snd (verify_login email code now sid ua s)) = sv_db s \/
  exists uid,
    sv_db (snd (verify_login email code now sid ua s))
    = with_sessions (sv_db s)
        (sessions (sv_db s) ++ [mkSession sid uid (now + seven_days)]).
Proof.
  unfold verify_login.
  destruct (_ || _); [now left|].
  destruct (select_where _ (verification_codes s)); [now left|].
  destruct (select_where _ _) as [|u ?]; [now left|].
  destruct (insert_session _ _ _ _ _) as [d'|] eqn:E; simpl; [|now left].
  apply insert_session_keeps in E. eauto.
Qed.

Lemma verify_email_effects z email code now jobId s :
  effects z (sv_db s) (sv_db (snd (verify_email email code now jobId s))).
Proof.
  unfold verify_email.
  destruct (_ || _); [apply effects_refl|].
  destruct (open_registrations email code now s) as [|[vc u] ?];
    [apply effects_refl|].
  simpl. constructor; [|now apply pe_same | now apply we_same].
  eapply ue_update; [apply ru_verified | reflexivity | reflexivity].
Qed.

Lemma send_finished_db jobId ok s : sv_db (send_finished jobId ok s) = sv_db s.
Proof. unfold send_finished. now destruct (find _ _). Qed.

Lemma processEmailQueue_db s : sv_db (processEmailQueue s) = sv_db s.
Proof.
  unfold processEmailQueue. destruct (_ || _); [reflexivity|].
  now destruct (fold_left _ _ _).
Qed.

(** Every event changes the tables of users, posts and withdrawals in one
    of the ways [effects] lists. *)
Lemma handle_effects s e :
  effects (reward_below_zero e) (sv_db s) (sv_db (handle s e)).
Proof.
  destruct e; simpl.
  - apply submit_click_effects.
  - apply withdraw_effects.
  - apply process_withdrawal_effects.
  - apply update_profile_effects.
  - apply toggle_verification_effects.
  - apply admin_update_user_effects.
  - apply admin_delete_user_effects.
  - apply create_post_effects.
  - apply bulk_create_posts_effects.
  - apply toggle_post_status_effects.
  - apply delete_post_effects.
  - now apply effects_same.
  - unfold logout. destruct (cookie_or_bearer req); now apply effects_same.
  - destruct (register_request_db b now now_ms rnd verificationCode jobId s)
      as [-> | ->]; [apply effects_refl | apply register_effects].
  - apply verify_email_effects.
  - unfold resend_verification. destruct (String.eqb email "");
      [apply effects_refl|].
    destruct (select_where _ _) as [|u ?]; [apply effects_refl|].
    destruct (u_is_verified u); apply effects_refl.
  - destruct (login_db email permanentCode now loginCode jobId sessionId
                       userAgent s)
      as [-> | [uid ->]]; now apply effects_same.
  - destruct (verify_login_db email code now sessionId userAgent s)
      as [-> | [uid ->]]; now apply effects_same.
  - apply effects_refl.
  - rewrite processEmailQueue_db. apply effects_refl.
  - rewrite send_finished_db. apply effects_refl.
  - now apply effects_same.
Qed.

(** * Invariants over every sequence of events *)

Lemma handle_all_invariant (P : db -> Prop) :
  (forall s e, P (sv_db s) -> P (sv_db (handle s e))) ->
  forall es s, P (sv_db s) -> P (sv_db (handle_all es s)).
Proof.
  intros Hstep es. induction es as [|e es IH]; intros s H; [exact H|].
  simpl. apply IH, Hstep, H.
Qed.

Lemma map_update_where {A B : Type} (key : A -> B) cond set (t : list A) :
  (forall r, key (set r) = key r) ->
  map key (update_where cond set t) = map key t.
Proof.
  intros H. unfold update_where. rewrite map_map. apply map_ext.
  intros r. destruct (cond r); [apply H | reflexivity].
Qed.

Lemma in_update_where {A : Type} cond set (t : list A) x :
  In x (update_where cond set t) ->
  exists r, In r t /\ x = if cond r then set r else r.
Proof.
  unfold update_where. intros H. apply in_map_iff in H as (r & <- & Hr). eauto.
Qed.

Lemma codes_of_rows_update_where cond set t :
  (forall r, u_permanent_login_code (set r) = u_permanent_login_code r) ->
  codes_of_rows (update_where cond set t) = codes_of_rows t.
Proof.
  intros H. unfold codes_of_rows, update_where.
  induction t as [|r t IH]; simpl; [reflexivity|]. rewrite IH.
  destruct (cond r); [now rewrite H | reflexivity].
Qed.

Lemma NoDup_update_key {B : Type} (key : user_row -> B) uid set e t :
  NoDup (map u_id t) -> NoDup (map key t) ->
  (forall r, key (set r) = e) ->
  (forall u, In u t -> key u = e -> u_id u = uid) ->
  NoDup (map key (update_where (fun u => u_id u =? uid) set t)).
Proof.
  intros Hids Hkeys Hset Hfree.
  induction t as [|x t IH]; simpl; [constructor|].
  inversion Hids as [|? ? Hxi Hids']; subst.
  inversion Hkeys as [|? ? Hxk Hkeys']; subst.
  destruct (Z.eqb_spec (u_id x) uid) as [Hx|Hx].
  - rewrite update_where_untouched.
    + constructor; [|exact Hkeys']. rewrite Hset. intros Hin.
      apply in_map_iff in Hin as (u & Hu & Hin).
      apply Hxi. apply in_map_iff. exists u. split; [|exact Hin].
      rewrite Hx. apply Hfree; [now right | exact Hu].
    + destruct (existsb _ t) eqn:E; [|reflexivity].
      apply existsb_exists in E as (u & Hin & Hu). apply Z.eqb_eq in Hu.
      exfalso. apply Hxi. apply in_map_iff. exists u. split; [lia | exact Hin].
  - constructor.
    + intros Hin. apply in_map_iff in Hin as (y' & Hy' & Hin).
      apply in_update_where in Hin as (y & Hy & ->).
      destruct (Z.eqb_spec (u_id y) uid) as [Hyu|Hyu].
      * rewrite Hset in Hy'. apply Hx. apply Hfree; [now left | congruence].
      * apply Hxk. apply in_map_iff. eauto.
    + apply IH; trivial. intros u Hu. apply Hfree. now right.
Qed.

Lemma row_update_keeps d uid set :
  row_update d uid set ->
  (forall r, u_id (set r) = u_id r) /\
  (forall r, u_permanent_login_code (set r) = u_permanent_login_code r).
Proof. intros []; split; reflexivity. Qed.

Lemma row_update_emails d uid set :
  unique_user_ids d -> unique_emails d ->
  row_update d uid set ->
  NoDup (map u_email (update_where (fun u => u_id u =? uid) set (users d))).
Proof.
  intros Hids Hem Hr. unfold unique_user_ids, unique_emails in *.
  destruct Hr as [post ?|w ? ?|a row ? ? ?|v|b existing Hex Hfree ?|b Hfree];
    try (rewrite map_update_where by reflexivity; exact Hem).
  - apply NoDup_update_key with (e := ab_email b); trivial.
    destruct Hfree as [Heq|Hfree]; [|exact Hfree].
    intros u Hu Hue. apply find_some in Hex as [Hin Hid].
    apply Z.eqb_eq in Hid. rewrite <- Hid. f_equal.
    apply (NoDup_map_same u_email (users d)); trivial. congruence.
  - apply NoDup_update_key with (e := pb_email b); trivial.
Qed.

Lemma users_keys_filter d keep :
  users_keys d ->
  NoDup (map u_id (filter keep (users d))) /\
  forallb (fun u => u_id u <? next_user_id d) (filter keep (users d)) = true /\
  NoDup (map u_email (filter keep (users d))) /\
  NoDup (codes_of_rows (filter keep (users d))).
Proof.
  intros [Hids Hfresh Hem Hco]. repeat split.
  - now apply NoDup_map_filter.
  - unfold user_ids_fresh in Hfresh. rewrite forallb_forall in *.
    intros u Hu. apply filter_In in Hu as [Hu _]. auto.
  - now apply NoDup_map_filter.
  - now apply codes_of_rows_filter.
Qed.

Lemma NoDup_strings_snoc {A : Type} (key : A -> string) (t : list A) x :
  existsb (fun y => String.eqb (key y) (key x)) t = false ->
  NoDup (map key t) -> NoDup (map key (t ++ [x])).
Proof.
  intros Hfree Hnd. rewrite map_app. simpl. apply NoDup_app; trivial.
  - constructor; [intros [] | constructor].
  - intros i Hi [<-|[]]. apply in_map_iff in Hi as (y & Hy & Hin).
    apply existsb_false_forall with (x := y) in Hfree; [|exact Hin].
    apply String.eqb_neq in Hfree. contradiction.
Qed.

Lemma users_keys_snoc base next row :
  NoDup (map u_id base) ->
  forallb (fun u => u_id u <? next) base = true ->
  NoDup (map u_email base) -> NoDup (codes_of_rows base) ->
  u_id row = next ->
  existsb (fun u => String.eqb (u_email u) (u_email row)) base = false ->
  (exists c, u_permanent_login_code row = Some c /\
             existsb (holds_code c) base = false) ->
  NoDup (map u_id (base ++ [row])) /\
  forallb (fun u => u_id u <? next + 1) (base ++ [row]) = true /\
  NoDup (map u_email (base ++ [row])) /\
  NoDup (codes_of_rows (base ++ [row])).
Proof.
  intros Hids Hfresh Hem Hco Hid He (c & Hc & Hfree). repeat split.
  - apply NoDup_ids_snoc; trivial.
    destruct (existsb (fun y => u_id y =? u_id row) base) eqn:E;
      [|reflexivity].
    apply existsb_exists in E as (u & Hin & Hu). apply Z.eqb_eq in Hu.
    rewrite forallb_forall in Hfresh. specialize (Hfresh u Hin).
    apply Z.ltb_lt in Hfresh. lia.
  - rewrite forallb_app. apply andb_true_intro. split.
    + revert Hfresh. apply forallb_weaken. intros u Hu.
      apply Z.ltb_lt in Hu. apply Z.ltb_lt. lia.
    + simpl. rewrite andb_true_r. apply Z.ltb_lt. lia.
  - now apply NoDup_strings_snoc.
  - now apply codes_of_rows_snoc with (c := c).
Qed.

Lemma users_effect_keeps_keys d d' :
  users_keys d -> users_effect d d' -> users_keys d'.
Proof.
  intros Hk He. pose proof Hk as [Hids Hfresh Hem Hco].
  destruct He as [Hu Hn|uid set Hr Hu Hn|uid Hu Hn
                  |base email ig bl code prof Hbase Hfe Hfc Hne Hu Hn].
  - constructor; unfold unique_user_ids, user_ids_fresh, unique_emails,
      unique_permanent_codes, permanent_codes in *; now rewrite ?Hu, ?Hn.
  - destruct (row_update_keeps _ _ _ Hr) as [Hsid Hscode].
    constructor; unfold unique_user_ids, user_ids_fresh, unique_emails,
      unique_permanent_codes, permanent_codes in *; rewrite ?Hu, ?Hn.
    + now rewrite map_update_where.
    + rewrite forallb_update_where; [exact Hfresh|].
      intros r. now rewrite Hsid.
    + now apply row_update_emails.
    + now rewrite codes_of_rows_update_where.
  - destruct (users_keys_filter d (fun u => negb (u_id u =? uid)) Hk)
      as (H1 & H2 & H3 & H4).
    constructor; unfold unique_user_ids, user_ids_fresh, unique_emails,
      unique_permanent_codes, permanent_codes in *; rewrite ?Hu, ?Hn; trivial.
  - assert (Hb : NoDup (map u_id base) /\
                 forallb (fun u => u_id u <? next_user_id d) base = true /\
                 NoDup (map u_email base) /\ NoDup (codes_of_rows base)).
    { destruct Hbase as [->|[uid ->]]; [now repeat split|].
      apply (users_keys_filter d (fun u => negb (u_id u =? uid)) Hk). }
    destruct Hb as (H1 & H2 & H3 & H4).
    destruct (users_keys_snoc base (next_user_id d)
                (mkUser (next_user_id d) email ig bl 0 false false (Some code)
                        prof)
                H1 H2 H3 H4 eq_refl Hfe
                (ex_intro _ code (conj eq_refl Hfc)))
      as (G1 & G2 & G3 & G4).
    constructor; unfold unique_user_ids, user_ids_fresh, unique_emails,
      unique_permanent_codes, permanent_codes; rewrite ?Hu, ?Hn; trivial.
Qed.

Lemma users_effect_keeps_codes d d' :
  every_user_has_a_code d -> users_effect d d' -> every_user_has_a_code d'.
Proof.
  unfold every_user_has_a_code. intros H He u.
  destruct He as [Hu Hn|uid set Hr Hu Hn|uid Hu Hn
                  |base email ig bl code prof Hbase Hfe Hfc Hne Hu Hn];
    rewrite Hu; intros Hin.
  - auto.
  - destruct (row_update_keeps _ _ _ Hr) as [_ Hscode].
    apply in_update_where in Hin as (r & Hr' & ->).
    destruct (_ =? _); [rewrite Hscode|]; auto.
  - apply filter_In in Hin as [Hin _]. auto.
  - apply in_app_or in Hin as [Hin|[<-|[]]].
    + destruct Hbase as [->|[uid ->]]; [auto|].
      apply filter_In in Hin as [Hin _]. auto.
    + simpl. eauto.
Qed.

Lemma ex_db_users_keys : users_keys ex_db.
Proof.
  constructor;
    try (unfold unique_user_ids, unique_emails, unique_permanent_codes;
         simpl; repeat constructor; simpl; intuition discriminate).
Qed.

(** X7. The keys of the users table hold after every sequence of events:
    from a store whose user ids are unique and below the AUTO_INCREMENT
    counter and whose e-mails and permanent codes are unique, no
    registration, profile change, administrator update or deletion leaves
    two users with one id, one e-mail or one permanent code. *)
Theorem users_keys_are_kept es s :
  users_keys (sv_db s) -> users_keys (sv_db (handle_all es s)).
Proof.
  apply (handle_all_invariant users_keys). clear. intros s e Hk.
  eapply users_effect_keeps_keys; [exact Hk|]. apply (handle_effects s e).
Qed.

Lemma users_keys_are_kept_witness :
  users_keys (sv_db (handle_all ex_events ex_server)) /\
  map u_email (users (sv_db (handle_all ex_events ex_server)))
  = ["alice@example.net"; "bob@example.net"; "admin@socialplatform.com";
     "carol@example.org"].
Proof.
  split; [|reflexivity].
  apply (users_keys_are_kept ex_events ex_server). exact ex_db_users_keys.
Defined.

Lemma ex_db_every_user_has_a_code : every_user_has_a_code ex_db.
Proof.
  intros u [<-|[<-|[<-|[]]]]; simpl; eexists; (split; [reflexivity | discriminate]).
Qed.

(** X8. Every stored user holds a non-empty permanent code, and this stays
    so over every sequence of events (registration stores a generated code
    and nothing clears it); so POST /login with an e-mail and no permanent
    code never issues a login code: it answers with an error or with the
    hint to use the permanent code, and writes nothing. *)
Theorem email_login_sends_no_code es s email now loginCode jobId sessionId
    userAgent :
  every_user_has_a_code (sv_db s) ->
  let s' := handle_all es s in
  every_user_has_a_code (sv_db s') /\
  snd (login email "" now loginCode jobId sessionId userAgent s') = s' /\
  fst (login email "" now loginCode jobId sessionId userAgent s')
  <> LoginCodeSent.
Proof.
  intros H s'.
  assert (H' : every_user_has_a_code (sv_db s')).
  { revert H. apply (handle_all_invariant every_user_has_a_code). clear.
    intros s e Hk. eapply users_effect_keeps_codes; [exact Hk|].
    apply (handle_effects s e). }
  split; [exact H'|]. unfold login. simpl negb. cbv iota.
  destruct (String.eqb email ""); [split; [reflexivity | discriminate]|].
  destruct (select_where _ (users (sv_db s'))) as [|u rest] eqn:E;
    [split; [reflexivity | discriminate]|].
  destruct (negb (u_is_verified u)); [split; [reflexivity | discriminate]|].
  assert (Hin : In u (users (sv_db s'))).
  { apply select_where_cons_find, find_some in E. tauto. }
  destruct (H' u Hin) as (c & Hc & Hne). unfold truthy_code.
  rewrite Hc, (truthy_str_some _ Hne). split; [reflexivity | discriminate].
Qed.

Lemma email_login_sends_no_code_witness :
  let s' := handle_all ex_events ex_server in
  every_user_has_a_code (sv_db s') /\
  snd (login "alice@example.net" "" 30 "000000" "job-2" "sess-x"
             (Some "Mozilla/5.0") s') = s' /\
  fst (login "alice@example.net" "" 30 "000000" "job-2" "sess-x"
             (Some "Mozilla/5.0") s')
  <> LoginCodeSent.
Proof.
  apply (email_login_sends_no_code ex_events ex_server "alice@example.net" 30
           "000000" "job-2" "sess-x" (Some "Mozilla/5.0")).
  exact ex_db_every_user_has_a_code.
Defined.

(** *** Wallets *)

Lemma users_effect_keeps_ids d d' :
  unique_user_ids d -> user_ids_fresh d = true -> users_effect d d' ->
  unique_user_ids d' /\ user_ids_fresh d' = true.
Proof.
  intros Hids Hfresh He. unfold unique_user_ids, user_ids_fresh in *.
  destruct He as [Hu Hn|uid set Hr Hu Hn|uid Hu Hn
                  |base email ig bl code prof Hbase Hfe Hfc Hne Hu Hn];
    rewrite Hu, Hn.
  - auto.
  - destruct (row_update_keeps _ _ _ Hr) as [Hsid _].
    rewrite map_update_where by exact Hsid. split; [exact Hids|].
    rewrite forallb_update_where; [exact Hfresh|].
    intros r. now rewrite Hsid.
  - split; [now apply NoDup_map_filter|].
    rewrite forallb_forall in *. intros u Hu'.
    apply filter_In in Hu' as [Hu' _]. auto.
  - assert (Hb : NoDup (map u_id base) /\
                 forallb (fun u => u_id u <? next_user_id d) base = true).
    { destruct Hbase as [->|[uid ->]]; [auto|]. split.
      - now apply NoDup_map_filter.
      - rewrite forallb_forall in *. intros u Hu'.
        apply filter_In in Hu' as [Hu' _]. auto. }
    destruct Hb as [H1 H2]. split.
    + apply NoDup_ids_snoc; trivial. simpl.
      destruct (existsb (fun y => u_id y =? next_user_id d) base) eqn:E;
        [|reflexivity].
      apply existsb_exists in E as (u & Hin & Hu'). apply Z.eqb_eq in Hu'.
      rewrite forallb_forall in H2. specialize (H2 u Hin).
      apply Z.ltb_lt in H2. lia.
    + rewrite forallb_app. apply andb_true_intro. split.
      * revert H2. apply forallb_weaken. intros u Hu'.
        apply Z.ltb_lt in Hu'. apply Z.ltb_lt. lia.
      * simpl. rewrite andb_true_r. apply Z.ltb_lt. lia.
Qed.

Lemma row_update_wallet d uid set r :
  money_ok d -> row_update d uid set ->
  In r (users d) -> u_id r = uid -> 0 <= u_earnings (set r).
Proof.
  intros [Hids _ Hw Hrw Ham] Hr Hin Hid. specialize (Hw r Hin).
  destruct Hr as [post Hp|w Hwin ?|a row Hrow Hpos Hle|v|b existing Hex Hfree Hb
                  |b Hfree]; simpl; trivial.
  - specialize (Hrw post Hp). lia.
  - specialize (Ham w Hwin). lia.
  - apply find_some in Hrow as [Hrin Hrid]. apply Z.eqb_eq in Hrid.
    assert (r = row) by (apply (NoDup_map_same u_id (users d)); trivial; lia).
    subst. apply to_decimal_nonneg.
    apply (Qplus_le_l _ _ a). ring_simplify. exact Hle.
  - destruct (ab_earnings b) as [| |e]; trivial. simpl in Hb.
    apply to_decimal_nonneg. now apply Qlt_b_false.
Qed.

Lemma effects_keep_money d d' :
  money_ok d -> effects false d d' -> money_ok d'.
Proof.
  intros Hm [Hu Hp Hw]. pose proof Hm as [Hids Hfresh Hwal Hrw Ham].
  destruct (users_effect_keeps_ids _ _ Hids Hfresh Hu) as [Hids' Hfresh'].
  constructor; trivial.
  - destruct Hu as [Hu Hn|uid set Hr Hu Hn|uid Hu Hn
                    |base email ig bl code prof Hbase Hfe Hfc Hne Hu Hn];
      rewrite Hu; intros u Hin.
    + auto.
    + apply in_update_where in Hin as (r & Hr' & ->).
      destruct (Z.eqb_spec (u_id r) uid); [|auto].
      now apply (row_update_wallet d uid).
    + apply filter_In in Hin as [Hin _]. auto.
    + apply in_app_or in Hin as [Hin|[<-|[]]]; [|simpl; lia].
      destruct Hbase as [->|[uid ->]]; [auto|].
      apply filter_In in Hin as [Hin _]. auto.
  - destruct Hp as [Hp|pid post Hpost Hact Hp|added Hf Hn Hp|pid v Hp
                    |pid Hp]; rewrite Hp; intros p Hin.
    + auto.
    + assert (Hin' : In p (update_where (fun p => p_id p =? pid)
                             (set_click_count (or_zero (p_click_count post) + 1))
                             (posts d))).
      { simpl in Hin. destruct (limit_reached _ _); [|exact Hin].
        apply filter_In in Hin. tauto. }
      apply in_update_where in Hin' as (r & Hr' & ->).
      destruct (_ =? _); [simpl|]; auto.
    + apply in_app_or in Hin as [Hin|Hin]; [auto|].
      rewrite Forall_forall in Hf. destruct (Hf p Hin) as (_ & _ & _ & H4 & _).
      auto.
    + apply in_update_where in Hin as (r & Hr' & ->).
      destruct (_ =? _); [simpl|]; auto.
    + apply filter_In in Hin as [Hin _]. auto.
  - destruct Hw as [Hw|uid a wm details Hpos Hw|id st notes now Hw|uid Hw];
      rewrite Hw; intros w Hin.
    + auto.
    + apply in_app_or in Hin as [Hin|[<-|[]]]; [auto | simpl].
      apply to_decimal_nonneg. now apply Qlt_le_weak.
    + apply in_update_where in Hin as (r & Hr' & ->).
      destruct (_ =? _); [simpl|]; auto.
    + apply filter_In in Hin as [Hin _]. auto.
Qed.

Lemma ex_db_money_ok : money_ok ex_db.
Proof.
  constructor; try reflexivity.
  - unfold unique_user_ids. simpl. repeat constructor; simpl; intuition discriminate.
  - intros u [<-|[<-|[<-|[]]]]; simpl; lia.
  - intros p [<-|[]]; simpl; lia.
  - intros w [].
Qed.

(** X9. No wallet goes below zero. From a store with unique user ids in
    which no balance, no reward and no requested amount is below zero,
    the same holds after every sequence of events in which POST /posts
    is not given a reward below zero: a withdrawal never takes more than
    the balance, a decline gives back what was taken, the administrator's
    update refuses earnings below zero. *)
Theorem wallets_never_negative es s :
  existsb reward_below_zero es = false ->
  money_ok (sv_db s) ->
  money_ok (sv_db (handle_all es s)).
Proof.
  revert s. induction es as [|e es IH]; intros s Hz Hm; [exact Hm|].
  simpl in Hz. apply orb_false_elim in Hz as [Hz1 Hz2]. simpl.
  apply IH; [exact Hz2|].
  apply effects_keep_money with (d := sv_db s); [exact Hm|].
  rewrite <- Hz1. apply handle_effects.
Qed.

Lemma wallets_never_negative_witness :
  money_ok (sv_db (handle_all ex_events ex_server)) /\
  map u_earnings (users (sv_db (handle_all ex_events ex_server)))
  = [20015; 115; 0; 0].
Proof.
  split; [|reflexivity].
  apply (wallets_never_negative ex_events ex_server);
    [reflexivity | exact ex_db_money_ok].
Defined.

(** *** Posts *)

Lemma effects_keep_posts z d d' :
  posts_ok d -> effects z d d' -> posts_ok d'.
Proof.
  intros [Hids Hbelow] [_ Hp _].
  destruct Hp as [Hp|pid post Hpost Hact Hp|added Hf Hn Hp|pid v Hp
                  |pid Hp].
  - constructor; rewrite Hp; trivial.
  - assert (Hbumped_ids :
              map p_id (update_where (fun p => p_id p =? pid)
                          (set_click_count (or_zero (p_click_count post) + 1))
                          (posts d)) = map p_id (posts d))
      by now apply map_update_where.
    apply find_some in Hpost as [Hpin Hpid]. apply Z.eqb_eq in Hpid.
    constructor; rewrite Hp; simpl.
    + destruct (limit_reached _ _).
      * apply NoDup_map_filter. now rewrite Hbumped_ids.
      * now rewrite Hbumped_ids.
    + intros p Hin.
      assert (Hcase : exists r, In r (posts d) /\
                 p = (if p_id r =? pid
                      then set_click_count (or_zero (p_click_count post) + 1) r
                      else r) /\
                 (limit_reached post (or_zero (p_click_count post) + 1) = true
                  -> p_id p <> pid)).
      { destruct (limit_reached _ _).
        - apply filter_In in Hin as [Hin Hne].
          apply in_update_where in Hin as (r & Hr & ->).
          exists r. repeat split; trivial. intros _.
          apply negb_true_iff, Z.eqb_neq in Hne. exact Hne.
        - apply in_update_where in Hin as (r & Hr & ->).
          exists r. repeat split; trivial. discriminate. }
      destruct Hcase as (r & Hr & -> & Hgone).
      destruct (Z.eqb_spec (p_id r) pid) as [Hrid|Hrid]; [|auto].
      assert (r = post)
        by (apply (NoDup_map_same p_id (posts d)); trivial; lia).
      subst r. unfold below_limit. simpl. intros Hauto l Hl.
      unfold limit_reached in Hgone. rewrite Hl, Hauto in Hgone. simpl in Hgone.
      destruct (Z.geb_spec (or_zero (p_click_count post) + 1) l) as [Hge|Hlt];
        [|lia].
      exfalso. now apply Hgone.
  - constructor; rewrite Hp; [auto|].
    intros p Hin. apply in_app_or in Hin as [Hin|Hin]; [auto|].
    rewrite Forall_forall in Hf.
    destruct (Hf p Hin) as (_ & Hc & Hl & _).
    intros Hauto l Hlim. destruct (Hl Hauto) as (l' & Hl' & Hge).
    rewrite Hl' in Hlim. apply truthy_num_inv in Hlim as [[= <-] _].
    rewrite Hc. simpl. lia.
  - constructor; rewrite Hp.
    + now rewrite map_update_where.
    + intros p Hin. apply in_update_where in Hin as (r & Hr & ->).
      destruct (_ =? _); [|auto]. exact (Hbelow r Hr).
  - constructor; rewrite Hp.
    + now apply NoDup_map_filter.
    + intros p Hin. apply filter_In in Hin as [Hin _]. auto.
Qed.

Lemma ex_db_posts_ok : posts_ok ex_db.
Proof.
  constructor.
  - simpl. repeat constructor. intros [].
  - intros p [<-|[]] _ l [= <-]. simpl. lia.
Qed.

(** X10. Post ids stay unique and a stored post with auto-delete never
    shows a counter at or above its click limit, over every sequence of
    events: the settlement that reaches the limit removes the post, and
    both routes that create posts refuse a limit below one. *)
Theorem posts_stay_below_their_limit es s :
  posts_ok (sv_db s) -> posts_ok (sv_db (handle_all es s)).
Proof.
  apply (handle_all_invariant posts_ok). clear. intros s e Hk.
  eapply effects_keep_posts; [exact Hk|]. apply (handle_effects s e).
Qed.

Lemma posts_stay_below_their_limit_witness :
  posts_ok (sv_db (handle_all ex_events ex_server)) /\
  map p_id (posts (sv_db (handle_all ex_events ex_server))) = [8].
Proof.
  split; [|reflexivity].
  apply (posts_stay_below_their_limit ex_events ex_server).
  exact ex_db_posts_ok.
Defined.

(** * Registration and verification *)

Lemma flat_map_nil {A B : Type} (f : A -> list B) (t : list A) :
  (forall x, In x t -> f x = []) -> flat_map f t = [].
Proof.
  induction t as [|x t IH]; intros H; simpl; [reflexivity|].
  rewrite (H x (or_introl eq_refl)), IH; [reflexivity|].
  intros y Hy. apply H. now right.
Qed.

Lemma open_registrations_sound email code now s vc u :
  In (vc, u) (open_registrations email code now s) ->
  In vc (verification_codes s) /\ vc_email vc = email /\ vc_code vc = code /\
  vc_type vc = for_register /\ now < vc_expires_at vc /\ vc_used vc = false /\
  In u (users (sv_db s)) /\ u_email u = email /\ u_is_verified u = false.
Proof.
  unfold open_registrations. intros H.
  apply in_flat_map in H as (c & Hc & H).
  destruct (String.eqb_spec (vc_email c) email) as [He|]; [|destruct H].
  destruct (String.eqb_spec (vc_code c) code) as [Hco|]; [|destruct H].
  destruct (vc_type c) eqn:Et; [|destruct H].
  destruct (Z.gtb_spec (vc_expires_at c) now) as [Hx|]; [|destruct H].
  destruct (vc_used c) eqn:Eu; [destruct H|]. simpl in H.
  apply in_map_iff in H as (r & [= <- <-] & Hr).
  apply filter_In in Hr as [Hr Hc2]. apply andb_prop in Hc2 as [H1 H2].
  apply String.eqb_eq in H1. apply negb_true_iff in H2.
  repeat split; trivial; try congruence; lia.
Qed.

Lemma open_registrations_complete email code now s vc u :
  In vc (verification_codes s) -> vc_email vc = email -> vc_code vc = code ->
  vc_type vc = for_register -> now < vc_expires_at vc -> vc_used vc = false ->
  In u (users (sv_db s)) -> u_email u = email -> u_is_verified u = false ->
  In (vc, u) (open_registrations email code now s).
Proof.
  intros Hvc He Hc Ht Hx Hu Hin Hue Huv. unfold open_registrations.
  apply in_flat_map. exists vc. split; [exact Hvc|].
  rewrite He, Hc, Ht, Hu, !String.eqb_refl. simpl.
  replace (vc_expires_at vc >? now) with true
    by (symmetry; apply Z.gtb_lt; lia).
  apply in_map. apply filter_In. split; [exact Hin|].
  now rewrite Hue, Huv, String.eqb_refl.
Qed.

(** X11. POST /verify-email succeeds only on an unused, unexpired
    registration code of an unverified user with that e-mail; it marks
    that user verified and queues the permanent-code mail; afterwards
    (e-mails being unique) no code is accepted again for the address. *)
Theorem verify_email_is_single_use email code now jobId s s1 :
  unique_emails (sv_db s) ->
  verify_email email code now jobId s = (VerifyOk, s1) ->
  (exists vc u,
     In vc (verification_codes s) /\ vc_email vc = email /\
     vc_code vc = code /\ vc_type vc = for_register /\
     now < vc_expires_at vc /\ vc_used vc = false /\
     In u (users (sv_db s)) /\ u_email u = email /\
     u_is_verified u = false /\
     users (sv_db s1)
     = update_where (fun r => u_id r =? u_id u) (set_is_verified true)
                    (users (sv_db s)) /\
     emailQueue s1
     = (emailQueue s ++
          [mkJob jobId job_permanent email (u_permanent_login_code u) 0])%list)
  /\
  (forall code' now' jobId',
     code' <> "" ->
     verify_email email code' now' jobId' s1 = (VerifyInvalidOrExpired, s1)).
Proof.
  intros Hem H. unfold verify_email in H.
  destruct (String.eqb_spec email "") as [|Hemail]; [discriminate|].
  destruct (String.eqb code ""); [discriminate|]. simpl in H.
  destruct (open_registrations email code now s) as [|[vc u] rest] eqn:E;
    [discriminate|].
  injection H as <-.
  assert (Hin : In (vc, u) (open_registrations email code now s))
    by (rewrite E; now left).
  apply open_registrations_sound in Hin
    as (Hvc & He & Hc & Ht & Hx & Hu & Huin & Hue & Huv).
  split.
  - exists vc, u. repeat split; trivial.
  - intros code' now' jobId' Hcode'. unfold verify_email.
    destruct (String.eqb_spec email ""); [contradiction|].
    destruct (String.eqb_spec code' ""); [contradiction|]. simpl orb. cbv iota.
    replace (open_registrations email code' now' _) with
      (@nil (code_row * user_row)); [reflexivity|].
    symmetry. unfold open_registrations. apply flat_map_nil.
    intros c Hcin.
    destruct (String.eqb_spec (vc_email c) email) as [Hce|]; [|reflexivity].
    destruct (_ && _); [|reflexivity].
    replace (select_where _ _) with (@nil user_row); [reflexivity|].
    symmetry. apply filter_nil_forall. intros x Hxin. simpl in Hxin.
    apply in_update_where in Hxin as (r & Hr & ->).
    rewrite Hce.
    destruct (Z.eqb_spec (u_id r) (u_id u)) as [Hid|Hid]; simpl.
    + now rewrite andb_false_r.
    + destruct (String.eqb_spec (u_email r) email) as [Hre|]; [|reflexivity].
      exfalso. apply Hid. f_equal.
      apply (NoDup_map_same u_email (users (sv_db s))); trivial. congruence.
Qed.

Lemma verify_email_is_single_use_witness :
  verify_email "carol@example.org" "654321" 200 "job-3"
               ex_server_carol_verified
  = (VerifyInvalidOrExpired, ex_server_carol_verified).
Proof.
  assert (Hem : unique_emails (sv_db ex_server_carol)).
  { unfold unique_emails. simpl.
    repeat constructor; simpl; intuition discriminate. }
  assert (Hok : verify_email "carol@example.org" "654321" 100 "job-2"
                             ex_server_carol
                = (VerifyOk, ex_server_carol_verified)) by reflexivity.
  apply (proj2 (verify_email_is_single_use _ _ _ _ _ _ Hem Hok)).
  discriminate.
Defined.

Lemma register_ok_inserts body now_ms rnd d batchLetter d' :
  register body now_ms rnd d = (RegOk batchLetter, d') ->
  exists base uid,
    users d'
    = (base ++ [mkUser uid (r_email body) (r_instagramId body) batchLetter 0
                       false false
                       (Some (generateUniquePermanentCode now_ms rnd))
                       (r_profile body)])%list.
Proof.
  unfold register.
  destruct (0 <? _)%nat; [discriminate|].
  destruct (0 <? _)%nat; [discriminate|].
  destruct (getNextBatch _) as [bl d2]. unfold insert_user.
  destruct (existsb _ (users d2)); [discriminate|].
  destruct (existsb (holds_code _) (users d2)); [discriminate|].
  intros [= <- <-]. simpl. eauto.
Qed.

Lemma register_checks_email b : register_checks b = None -> pb_email b <> "".
Proof.
  unfold register_checks. intros H Hempty. rewrite Hempty in H. discriminate.
Qed.

(** X12. After a successful POST /register, the handler of
    POST /verify-email accepts the address with the verification code
    that was generated at any time within the next fifteen minutes, and a
    user with that address is verified afterwards. *)
Theorem registration_can_be_verified b now now_ms rnd vcode jobId s batch s1 :
  register_request b now now_ms rnd vcode jobId s
  = (RegAnswered (RegOk batch), s1) ->
  vcode <> "" ->
  forall now' jobId',
    now' < now + fifteen_minutes ->
    exists s2 u,
      verify_email (pb_email b) vcode now' jobId' s1 = (VerifyOk, s2) /\
      In u (users (sv_db s2)) /\ u_email u = pb_email b /\
      u_is_verified u = true.
Proof.
  intros H Hv now' jobId' Hnow'. unfold register_request in H.
  destruct (register_checks b) eqn:Ec; [discriminate|].
  apply register_checks_email in Ec.
  destruct (register _ now_ms rnd (sv_db s)) as [r d'] eqn:Er.
  destruct r; try discriminate. injection H as -> <-.
  apply register_ok_inserts in Er as (base & uid & Hu). simpl in Hu.
  set (s1 := push_job _ _).
  set (vc := mkCode (next_code_id s) (pb_email b) vcode for_register
                    (now + fifteen_minutes) false).
  set (row := mkUser uid (pb_email b) (pb_instagramId b) batch 0 false false
                     (Some (generateUniquePermanentCode now_ms rnd))
                     (profile_of b)) in *.
  assert (Hopen : In (vc, row) (open_registrations (pb_email b) vcode now' s1)).
  { apply open_registrations_complete; try reflexivity; trivial.
    - subst s1. simpl. apply in_or_app. right. now left.
    - subst s1. simpl. rewrite Hu. apply in_or_app. right. now left. }
  unfold verify_email.
  destruct (String.eqb_spec (pb_email b) ""); [contradiction|].
  destruct (String.eqb_spec vcode ""); [contradiction|]. simpl orb. cbv iota.
  destruct (open_registrations (pb_email b) vcode now' s1)
    as [|[vc' u'] rest] eqn:E; [destruct Hopen|].
  assert (Hin : In (vc', u') (open_registrations (pb_email b) vcode now' s1))
    by (rewrite E; now left).
  apply open_registrations_sound in Hin
    as (_ & _ & _ & _ & _ & _ & Huin & Hue & _).
  eexists. exists (set_is_verified true u'). split; [reflexivity|].
  repeat split; trivial. simpl. unfold update_where.
  apply in_map_iff. exists u'. rewrite Z.eqb_refl. auto.
Qed.

Lemma registration_can_be_verified_witness :
  exists s2 u,
    verify_email (pb_email ex_profile_carol) "654321" 100 "job-2"
                 ex_server_carol = (VerifyOk, s2) /\
    In u (users (sv_db s2)) /\ u_email u = pb_email ex_profile_carol /\
    u_is_verified u = true.
Proof.
  apply (registration_can_be_verified ex_profile_carol 20 ex_now_ms 42
           "654321" "job-1" ex_server "A" ex_server_carol);
    [reflexivity | discriminate | reflexivity].
Defined.

(** * Posts and users under the administrator's hand *)

Lemma with_posts_same d : with_posts d (posts d) = d.
Proof. now destruct d. Qed.

Lemma filter_delete_where_other {A : Type} (look cond : A -> bool) t :
  (forall x, look x = true -> cond x = false) ->
  filter look (delete_where cond t) = filter look t.
Proof.
  intros H. unfold delete_where. induction t as [|x t IH]; simpl; [reflexivity|].
  destruct (cond x) eqn:Ec; simpl.
  - destruct (look x) eqn:El; [|exact IH].
    rewrite (H x El) in Ec. discriminate.
  - now rewrite IH.
Qed.

Lemma find_delete_where_other {A : Type} (look cond : A -> bool) t :
  (forall x, look x = true -> cond x = false) ->
  find look (delete_where cond t) = find look t.
Proof.
  intros H. unfold delete_where. induction t as [|x t IH]; simpl; [reflexivity|].
  destruct (cond x) eqn:Ec; simpl.
  - destruct (look x) eqn:El; [|exact IH].
    rewrite (H x El) in Ec. discriminate.
  - now rewrite IH.
Qed.

Lemma existsb_delete_where_same {A : Type} (cond : A -> bool) t :
  existsb cond (delete_where cond t) = false.
Proof.
  unfold delete_where. induction t as [|x t IH]; simpl; [reflexivity|].
  destruct (cond x) eqn:E; simpl; [exact IH | now rewrite E].
Qed.

Lemma submit_click_no_post u body d pid :
  truthy_num (postId body) = Some pid ->
  post_by_id d pid = None ->
  submit_click u body d = (ClickPostNotFound, d).
Proof.
  intros Hb Hnone. unfold submit_click. rewrite Hb.
  now rewrite (select_where_find_none _ _ Hnone).
Qed.

(** X13. A post the administrator has taken offline cannot be settled:
    after toggle-status with isActive false every submit-click for the
    post answers 400 'Post is no longer active' and writes nothing;
    wallets and clicks are as before, and putting a post that was active
    back online restores the store exactly. *)
Theorem deactivated_post_is_not_settled pid u body d d1 :
  truthy_num (postId body) = Some pid ->
  toggle_post_status pid (Some false) d = (PostAdminOk, d1) ->
  submit_click u body d1 = (ClickPostInactive, d1) /\
  users d1 = users d /\ user_clicks d1 = user_clicks d /\
  ((forall p, In p (posts d) -> p_id p = pid -> p_is_active p = true) ->
   toggle_post_status pid (Some true) d1 = (PostAdminOk, d)).
Proof.
  intros Hb Ht. unfold toggle_post_status in Ht.
  destruct (existsb (fun p => p_id p =? pid) (posts d)) eqn:Ex;
    [|discriminate].
  injection Ht as <-. repeat split.
  - unfold submit_click. rewrite Hb. simpl posts. unfold select_where.
    rewrite filter_update_where by reflexivity.
    apply existsb_find_some in Ex as [x Hx].
    destruct (select_where_find_some _ _ _ Hx) as [rest Hsel].
    unfold select_where in Hsel. rewrite Hsel. simpl.
    apply find_some in Hx as [_ Hx]. now rewrite Hx.
  - intros Hact. unfold toggle_post_status. simpl posts.
    rewrite existsb_update_where by reflexivity. rewrite Ex. f_equal.
    replace (update_where _ (set_is_active true) _) with (posts d).
    + now destruct d.
    + unfold update_where. rewrite map_map. symmetry.
      rewrite <- (map_id (posts d)) at 2. apply map_ext_in.
      intros p Hp. destruct (Z.eqb_spec (p_id p) pid) as [Hid|Hid]; simpl.
      * rewrite Hid, Z.eqb_refl. specialize (Hact p Hp Hid).
        destruct p; simpl in *. now subst.
      * destruct (Z.eqb_spec (p_id p) pid); [contradiction | reflexivity].
Qed.

Lemma deactivated_post_is_not_settled_witness :
  submit_click 1 ex_click_body ex_db_offline
  = (ClickPostInactive, ex_db_offline) /\
  toggle_post_status 7 (Some true) ex_db_offline = (PostAdminOk, ex_db).
Proof.
  assert (Hb : truthy_num (postId ex_click_body) = Some 7) by reflexivity.
  assert (Ht : toggle_post_status 7 (Some false) ex_db
               = (PostAdminOk, ex_db_offline)) by reflexivity.
  destruct (deactivated_post_is_not_settled 7 1 ex_click_body ex_db
              ex_db_offline Hb Ht) as (H1 & _ & _ & H2).
  split; [exact H1|]. apply H2.
  intros p [<-|[]] _. reflexivity.
Defined.

(** X14. DELETE /posts/:postId, when it answers 200, removes the post and
    every click on it and nothing else: wallets keep the rewards already
    paid, other posts and their clicks are as before; afterwards a
    submit-click for the id answers 404 and so does a second delete. *)
Theorem delete_post_takes_post_and_clicks pid d d' :
  delete_post pid d = (PostAdminOk, d') ->
  post_by_id d' pid = None /\ clicks_of_post d' pid = [] /\
  users d' = users d /\ withdrawals d' = withdrawals d /\
  sessions d' = sessions d /\
  (forall other, other <> pid ->
     post_by_id d' other = post_by_id d other /\
     clicks_of_post d' other = clicks_of_post d other) /\
  (forall u body, truthy_num (postId body) = Some pid ->
     submit_click u body d' = (ClickPostNotFound, d')) /\
  delete_post pid d' = (PostAdminNotFound, d').
Proof.
  unfold delete_post. simpl posts.
  destruct (existsb (fun p => p_id p =? pid) (posts d)) eqn:Ex;
    [|discriminate].
  intros [= <-].
  assert (Hgone : post_by_id
                    (with_posts
                       (with_user_clicks d
                          (delete_where (fun c => c_post_id c =? pid)
                                        (user_clicks d)))
                       (delete_where (fun p => p_id p =? pid) (posts d))) pid
                  = None)
    by apply find_delete_where_same.
  split; [exact Hgone|]. split; [apply select_delete_where_same|].
  repeat split.
  - unfold post_by_id. simpl. apply find_delete_where_other.
    intros x Hx. apply Z.eqb_eq in Hx. apply Z.eqb_neq. congruence.
  - unfold clicks_of_post, select_where. simpl.
    apply filter_delete_where_other.
    intros x Hx. apply Z.eqb_eq in Hx. apply Z.eqb_neq. congruence.
  - intros u body Hb. now apply submit_click_no_post with (pid := pid).
  - simpl. now rewrite existsb_delete_where_same.
Qed.

Lemma delete_post_takes_post_and_clicks_witness :
  balance_of (snd (delete_post 7 ex_db_clicked)) 1 = Some 20015 /\
  post_by_id (snd (delete_post 7 ex_db_clicked)) 7 = None /\
  clicks_of_post (snd (delete_post 7 ex_db_clicked)) 7 = [].
Proof.
  assert (H : delete_post 7 ex_db_clicked
              = (PostAdminOk, snd (delete_post 7 ex_db_clicked)))
    by reflexivity.
  destruct (delete_post_takes_post_and_clicks 7 ex_db_clicked _ H)
    as (H1 & H2 & _).
  split; [reflexivity|]. split; [exact H1 | exact H2].
Defined.

(** X15. DELETE /users/:userId, when it answers 200, removes the user with
    the sessions, clicks and withdrawals of that id; other users are as
    before and the posts keep their click counters. A request with a
    session cookie of the deleted user is answered 401 from then on. The
    route makes no exception for administrators or for the caller. *)
Theorem deleted_user_is_gone {R : Type} uid d d' now req sid
    (handler : req_user -> db -> R * db) :
  admin_delete_user uid d = (AdminUserOk uid, d') ->
  cookie_sessionId req = Some sid -> sid <> "" ->
  (forall x, In x (sessions d) -> s_id x = sid -> s_user_id x = uid) ->
  user_by_id d' uid = None /\
  (forall x, In x (sessions d') -> s_user_id x <> uid) /\
  (forall c, In c (user_clicks d') -> c_user_id c <> uid) /\
  (forall w, In w (withdrawals d') -> w_user_id w <> uid) /\
  posts d' = posts d /\
  (forall other, other <> uid -> user_by_id d' other = user_by_id d other) /\
  api_user now req handler d' = (inl InvalidOrExpiredSession, d').
Proof.
  unfold admin_delete_user.
  destruct (select_where _ (users d)) as [|row rest]; [discriminate|].
  intros [= <-] Hc Hne Hown.
  assert (Hflt : forall (A : Type) (key : A -> Z) (t : list A) x,
             In x (delete_where (fun y => key y =? uid) t) -> key x <> uid).
  { intros A key t x Hx. apply filter_In in Hx as [_ Hx].
    apply negb_true_iff, Z.eqb_neq in Hx. exact Hx. }
  split; [apply find_delete_where_same|].
  split; [apply (Hflt _ s_user_id)|].
  split; [apply (Hflt _ c_user_id)|].
  split; [apply (Hflt _ w_user_id)|].
  split; [reflexivity|]. split.
  - intros other Hother. unfold user_by_id. simpl.
    apply find_delete_where_other.
    intros x Hx. apply Z.eqb_eq in Hx. apply Z.eqb_neq. congruence.
  - unfold api_user.
    rewrite (sessionMiddleware_dead now req sid _ Hc Hne); [reflexivity|].
    intros x Hx Hid. exfalso.
    pose proof (Hflt _ s_user_id _ _ Hx) as Hnot.
    apply filter_In in Hx as [Hx _]. apply Hnot. now apply Hown.
Qed.

Lemma deleted_user_is_gone_witness :
  fst (api_admin_process one_day ex_request_admin 1 "approved" None
                         (snd (admin_delete_user 3 ex_db_pending)))
  = inl InvalidOrExpiredSession /\
  api_user_withdraw one_day ex_request_admin ex_withdraw_body
                    (snd (admin_delete_user 3 ex_db_pending))
  = (inl InvalidOrExpiredSession, snd (admin_delete_user 3 ex_db_pending)).
Proof.
  split; [reflexivity|].
  assert (H : admin_delete_user 3 ex_db_pending
              = (AdminUserOk 3, snd (admin_delete_user 3 ex_db_pending)))
    by reflexivity.
  apply (deleted_user_is_gone 3 ex_db_pending _ one_day ex_request_admin
           "sess-admin" (fun user => withdraw (ru_id user) ex_withdraw_body) H
           eq_refl ltac:(discriminate)).
  intros x [<-|[<-|[<-|[]]]]; simpl; intros; try reflexivity; discriminate.
Defined.

Lemma update_profile_shape uid b d :
  (fst (update_profile uid b d) <> ProfileOk /\
   snd (update_profile uid b d) = d) \/
  (fst (update_profile uid b d) = ProfileOk /\
   snd (update_profile uid b d)
   = with_users d
       (update_where (fun r => u_id r =? uid) (set_profile b) (users d))).
Proof.
  unfold update_profile.
  destruct (profile_checks b); [left; split; [discriminate | reflexivity]|].
  destruct (existsb (fun r => String.eqb (u_email r) (pb_email b) && _)
                    (users d));
    [left; split; [discriminate | reflexivity]|].
  destruct (existsb (fun r => String.eqb (u_instagram_id r) _ && _)
                    (users d));
    [left; split; [discriminate | reflexivity]|].
  destruct (negb _);
    [left; split; [discriminate | reflexivity] | right; split; reflexivity].
Qed.

(** X16. PUT /profile, called with a valid session, writes the profile
    columns of the caller's own row and nothing else. When it answers
    200, every row with the caller's id carries the e-mail, full name,
    phone and Instagram name of the body and, for each of Facebook,
    Twitter, LinkedIn, city, date of birth and website, the value of the
    body or NULL when it is empty; on every other answer the users are as
    they were. Either way every row keeps its id, batch, balance,
    verification and administrator flags and permanent code, the rows of
    other users are as they were, and posts, clicks and withdrawals are
    untouched. *)
Theorem profile_update_writes_profile_columns_only now req b d sid s u :
  valid_session req now d sid s u ->
  let r := fst (api_user_update_profile now req b d) in
  let d' := snd (api_user_update_profile now req b d) in
  map account_of (users d') = map account_of (users d) /\
  (forall i row, nth_error (users d) i = Some row -> u_id row <> u_id u ->
                 nth_error (users d') i = Some row) /\
  (r = inr ProfileOk ->
   forall i row, nth_error (users d) i = Some row -> u_id row = u_id u ->
     nth_error (users d') i
     = Some (mkUser (u_id row) (pb_email b) (pb_instagramId b)
                    (u_batch_letter row) (u_earnings row)
                    (u_is_verified row) (u_is_admin row)
                    (u_permanent_login_code row)
                    (mkProfile (pb_fullName b) (pb_phone b)
                               (or_null (pb_facebookId b))
                               (or_null (pb_twitterId b))
                               (or_null (pb_linkedinId b))
                               (or_null (pb_city b))
                               (or_null (pb_dateOfBirth b))
                               (or_null (pb_website b))))) /\
  (r <> inr ProfileOk -> users d' = users d) /\
  posts d' = posts d /\ user_clicks d' = user_clicks d /\
  withdrawals d' = withdrawals d.
Proof.
  intros Hv r d'. subst r d'. unfold api_user_update_profile.
  rewrite (api_user_valid _ _ _ _ _ _ _ Hv). simpl fst. simpl snd.
  replace (ru_id (attach_user u)) with (u_id u) by reflexivity.
  destruct (update_profile_shape (u_id u) b (extend_session sid now d))
    as [[Hr Hcase]|[Hr Hcase]];
    destruct (update_profile (u_id u) b (extend_session sid now d))
      as [r0 d0]; simpl in Hr, Hcase; subst; simpl.
  - repeat split; trivial. intros [= ->]. now contradiction Hr.
  - split; [apply map_update_where; reflexivity|].
    split.
    { intros i row Hi Hne. unfold update_where. rewrite nth_error_map, Hi.
      simpl. destruct (Z.eqb_spec (u_id row) (u_id u)); [contradiction|].
      reflexivity. }
    split.
    { intros _ i row Hi He. unfold update_where. rewrite nth_error_map, Hi.
      simpl. destruct (Z.eqb_spec (u_id row) (u_id u)); [|contradiction].
      reflexivity. }
    split; [intros H; now contradiction H|].
    repeat split; reflexivity.
Qed.

Lemma profile_update_writes_profile_columns_only_witness :
  let d' := snd (api_user_update_profile one_day ex_request_alice
                   ex_profile_carol ex_db) in
  map account_of (users d') = map account_of (users ex_db) /\
  map u_email (users d')
  = ["carol@example.org"; "bob@example.org"; "admin@socialplatform.com"] /\
  nth_error (users d') 0
  = Some (mkUser 1 "carol@example.org" "carol.c" "A" 20000 true false
                 (Some "111111")
                 (mkProfile "Carol" "5550100" None None None None None None)) /\
  nth_error (users d') 1 = Some ex_bob.
Proof.
  split; [|repeat split; reflexivity].
  apply (profile_update_writes_profile_columns_only one_day ex_request_alice
           ex_profile_carol ex_db "sess-alice"
           (mkSession "sess-alice" 1 604800) ex_alice).
  exact ex_request_alice_valid.
Defined.




(** * The e-mail pattern *)

Lemma split_first_app c s a b :
  split_first c s = Some (a, b) ->
  s = (a ++ String c b)%string /\ includes_char c a = false.
Proof.
  revert a b. induction s as [|x s IH]; intros a b H; simpl in H;
    [discriminate|].
  destruct (Ascii.eqb_spec x c) as [->|Hx].
  - injection H as <- <-. auto.
  - destruct (split_first c s) as [[a' b']|]; [|discriminate].
    injection H as <- <-. destruct (IH a' b' eq_refl) as [-> Hn].
    split; [reflexivity|]. simpl.
    destruct (Ascii.eqb_spec x c); [contradiction | exact Hn].
Qed.

Lemma split_first_complete c a b :
  includes_char c a = false ->
  split_first c (a ++ String c b) = Some (a, b).
Proof.
  induction a as [|x a IH]; simpl; intros H.
  - now rewrite Ascii.eqb_refl.
  - apply orb_false_elim in H as [Hx Ha]. rewrite Hx, (IH Ha). reflexivity.
Qed.

Lemma plain_has_no_at a :
  all_chars plain_char a = true -> includes_char "@" a = false.
Proof.
  induction a as [|x a IH]; simpl; [reflexivity|]. intros H.
  apply andb_prop in H as [Hx Ha]. rewrite (IH Ha).
  unfold plain_char in Hx. apply andb_prop in Hx as [_ Hx].
  apply negb_true_iff in Hx. now rewrite Hx.
Qed.

Lemma dot_then_more_split s :
  dot_then_more s = true ->
  exists b c, s = (b ++ String "." c)%string /\ c <> "".
Proof.
  induction s as [|x s IH]; simpl; [discriminate|].
  destruct s as [|y s']; [discriminate|]. intros H.
  apply orb_prop in H as [H|H].
  - apply Ascii.eqb_eq in H. subst x. exists "", (String y s').
    split; [reflexivity | discriminate].
  - destruct (IH H) as (b & c & Hs & Hc). exists (String x b), c.
    split; [|exact Hc]. simpl. now rewrite Hs.
Qed.

Lemma dot_then_more_complete b c :
  c <> "" -> dot_then_more (b ++ String "." c) = true.
Proof.
  intros Hc. induction b as [|x b IH]; simpl.
  - destruct c; [contradiction | reflexivity].
  - destruct (b ++ String "." c)%string eqn:E.
    + destruct b; discriminate.
    + rewrite IH. apply orb_true_r.
Qed.

(** X18. The e-mail check of POST /register and PUT /profile accepts
    exactly the strings made of three non-empty runs of characters that
    are neither blank nor ['@'], joined by one ['@'] and a ['.']: no
    blank, a single ['@'], and a dot inside what follows it. *)
Theorem emailRegex_accepts_exactly_the_shape s :
  emailRegex_test s = true <-> email_shape s.
Proof.
  unfold emailRegex_test, email_shape. split.
  - destruct (split_first "@" s) as [[a rest]|] eqn:E; [|discriminate].
    apply split_first_app in E as [-> _]. intros H.
    apply andb_prop in H as [H Hdot]. apply andb_prop in H as [H Hrest].
    apply andb_prop in H as [Ha Hpa].
    apply negb_true_iff, String.eqb_neq in Ha.
    destruct rest as [|x rest]; [discriminate|]. simpl in Hdot.
    apply dot_then_more_split in Hdot as (b & c & -> & Hc).
    simpl in Hrest. apply andb_prop in Hrest as [Hx Hbc].
    rewrite all_chars_app in Hbc. apply andb_prop in Hbc as [Hb Hdc].
    simpl in Hdc.
    exists a, (String x b), c. repeat split; trivial; try discriminate.
    simpl. now rewrite Hx, Hb.
  - intros (a & b & c & -> & Ha & Hb & Hc & Hpa & Hpb & Hpc).
    simpl. rewrite (split_first_complete "@" a _ (plain_has_no_at a Hpa)).
    apply String.eqb_neq in Ha. rewrite Ha, Hpa, all_chars_app, Hpb. simpl.
    rewrite Hpc. simpl.
    destruct b as [|x b]; [contradiction|]. simpl.
    now apply dot_then_more_complete.
Qed.

(** * The batch allocator of db/database.js *)

Lemma first_by_snoc before t x :
  first_by before (t ++ [x])
  = match first_by before t with
    | None => Some x
    | Some a => if before (b_letter x) (b_letter a) then Some x else Some a
    end.
Proof. unfold first_by. now rewrite fold_left_app. Qed.

(** X19. [createNextBatch] stalls after Z. When the greatest label of the
    table is 'Z' it tries the label 'AA': the first time it inserts the
    batch and returns 'AA'; 'Z' is still the greatest label then, so
    every later call tries 'AA' again, fails on the primary key and
    returns 'A' from its catch block without creating a batch. *)
Theorem createNextBatch_stalls_after_Z d b :
  order_by_letter_desc_limit1 (batches d) = Some b -> b_letter b = "Z" ->
  (existsb (fun x => String.eqb (b_letter x) "AA") (batches d) = true ->
   createNextBatch d = ("A", d)) /\
  (existsb (fun x => String.eqb (b_letter x) "AA") (batches d) = false ->
   let d1 := with_batches d (batches d ++ [mkBatch "AA" 0 true]) in
   createNextBatch d = ("AA", d1) /\ createNextBatch d1 = ("A", d1)).
Proof.
  intros Hlast HZ. split.
  - intros Hex. unfold createNextBatch. rewrite Hlast, HZ. simpl.
    now rewrite Hex.
  - intros Hex d1. split.
    + unfold createNextBatch. rewrite Hlast, HZ. simpl. now rewrite Hex.
    + unfold createNextBatch, order_by_letter_desc_limit1. subst d1.
      simpl batches. rewrite first_by_snoc.
      unfold order_by_letter_desc_limit1 in Hlast. rewrite Hlast, HZ.
      simpl. rewrite HZ. simpl.
      rewrite existsb_app. simpl. now rewrite orb_true_r.
Qed.

Lemma createNextBatch_stalls_after_Z_witness :
  createNextBatch ex_db_full = ("AA", ex_db_AA) /\
  createNextBatch ex_db_AA = ("A", ex_db_AA) /\
  getCurrentBatch ex_db_full = ("AA", ex_db_AA).
Proof.
  assert (Hlast : order_by_letter_desc_limit1 (batches ex_db_full)
                  = Some (ex_full_batch "Z")) by reflexivity.
  destruct (createNextBatch_stalls_after_Z ex_db_full _ Hlast eq_refl)
    as [_ H].
  destruct (H eq_refl) as [H1 H2].
  split; [exact H1|]. split; [exact H2 | reflexivity].
Defined.

(** * The e-mail queue *)

Lemma list_sum_filter_le {A : Type} (f : A -> nat) (keep : A -> bool) t :
  (list_sum (map f (filter keep t)) <= list_sum (map f t))%nat.
Proof.
  induction t as [|x t IH]; simpl; [lia|].
  destruct (keep x); simpl; lia.
Qed.

Lemma list_sum_delete_found {A : Type} (f : A -> nat) (cond : A -> bool) t x :
  find cond t = Some x ->
  (list_sum (map f (delete_where cond t)) + f x <= list_sum (map f t))%nat.
Proof.
  unfold delete_where. induction t as [|y t IH]; simpl; [discriminate|].
  destruct (cond y) eqn:E; simpl.
  - intros [= ->].
    pose proof (list_sum_filter_le f (fun r => negb (cond r)) t). lia.
  - intros H. specialize (IH H). lia.
Qed.

Lemma list_sum_firstn_skipn {A : Type} (f : A -> nat) n (t : list A) :
  (list_sum (map f (firstn n t)) + list_sum (map f (skipn n t)))%nat
  = list_sum (map f t).
Proof.
  rewrite <- (firstn_skipn n t) at 3. now rewrite map_app, list_sum_app.
Qed.

Lemma fold_start_job batch : forall processing flight,
  map j_id flight = processing ->
  let r := fold_left start_job batch (processing, flight) in
  map j_id (snd r) = fst r /\
  (List.length (fst r) <= List.length processing + List.length batch)%nat /\
  (list_sum (map attempts_left (snd r))
   <= list_sum (map attempts_left flight)
      + list_sum (map attempts_left batch))%nat.
Proof.
  induction batch as [|j batch IH]; intros processing flight Hids; simpl.
  - repeat split; trivial; lia.
  - destruct (existsb (String.eqb (j_id j)) processing).
    + destruct (IH processing flight Hids) as (H1 & H2 & H3).
      repeat split; trivial; lia.
    + destruct (IH (processing ++ [j_id j])%list (flight ++ [j])%list)
        as (H1 & H2 & H3).
      { rewrite map_app, Hids. reflexivity. }
      rewrite length_app in H2. rewrite map_app, list_sum_app in H3.
      simpl in H2, H3. repeat split; trivial; lia.
Qed.

Lemma firstn_length_le5 {A : Type} (t : list A) :
  (List.length (firstn 5 t) <= 5)%nat.
Proof. rewrite length_firstn. lia. Qed.

Lemma budget_unfold s :
  budget s
  = (list_sum (map attempts_left (emailQueue s))
     + list_sum (map attempts_left (in_flight s)))%nat.
Proof. unfold budget. now rewrite map_app, list_sum_app. Qed.

Lemma processEmailQueue_step s :
  (budget (processEmailQueue s) <= budget s)%nat /\
  (queue_ok s -> queue_ok (processEmailQueue s)).
Proof.
  unfold processEmailQueue.
  destruct (Nat.eqb_spec (List.length (emailQueue s)) 0) as [|_];
    [simpl; split; [lia | trivial]|].
  destruct (Nat.leb_spec 5 (List.length (processingEmails s))) as [|Hlt];
    [simpl; split; [lia | trivial]|].
  simpl orb. cbv iota.
  pose proof (fold_start_job (firstn 5 (emailQueue s))) as Hfold.
  destruct (fold_left start_job (firstn 5 (emailQueue s))
                      (processingEmails s, in_flight s))
    as [processing flight] eqn:E.
  split.
  - rewrite !budget_unfold. cbn [emailQueue in_flight].
    pose proof (list_sum_firstn_skipn attempts_left 5 (emailQueue s)) as Hq.
    assert (Hfl : (list_sum (map attempts_left flight)
                   <= list_sum (map attempts_left (in_flight s))
                      + list_sum (map attempts_left (firstn 5 (emailQueue s))))%nat).
    { clear Hfold. revert flight processing E.
      generalize (processingEmails s), (in_flight s),
                 (firstn 5 (emailQueue s)).
      intros processing0 flight0 batch. revert processing0 flight0.
      induction batch as [|j batch IH]; intros processing0 flight0 flight
        processing E; simpl in E.
      - injection E as <- <-. simpl. lia.
      - destruct (existsb _ processing0).
        + specialize (IH _ _ _ _ E). simpl. lia.
        + specialize (IH _ _ _ _ E). rewrite map_app, list_sum_app in IH.
          simpl in IH |- *. lia. }
    lia.
  - intros [Hids Hlen]. specialize (Hfold _ _ Hids). rewrite E in Hfold.
    cbn [fst snd] in Hfold. destruct Hfold as (H1 & H2 & _).
    pose proof (firstn_length_le5 (emailQueue s)).
    split; cbn [processingEmails in_flight]; [exact H1 | lia].
Qed.

Lemma map_delete_where_ids jobId (t : list email_job) :
  map j_id (delete_where (fun j => String.eqb (j_id j) jobId) t)
  = delete_where (fun i => String.eqb i jobId) (map j_id t).
Proof.
  unfold delete_where. induction t as [|j t IH]; simpl; [reflexivity|].
  destruct (String.eqb (j_id j) jobId); simpl; now rewrite IH.
Qed.

Lemma attempts_left_retried job :
  j_retries job < 3 ->
  (attempts_left (retried job) + 1 = attempts_left job)%nat.
Proof. unfold attempts_left, retried. cbn [j_retries]. intros H. lia. Qed.

Lemma attempts_left_positive job : (1 <= attempts_left job)%nat.
Proof. unfold attempts_left. lia. Qed.

Lemma send_finished_step jobId ok s :
  ((if existsb (fun j => String.eqb (j_id j) jobId) (in_flight s)
    then 1 else 0) + budget (send_finished jobId ok s) <= budget s)%nat /\
  (queue_ok s -> queue_ok (send_finished jobId ok s)).
Proof.
  unfold send_finished.
  destruct (find (fun j => String.eqb (j_id j) jobId) (in_flight s))
    as [job|] eqn:E.
  - rewrite (find_some_existsb _ _ _ E). split.
    + rewrite !budget_unfold. simpl.
      pose proof (list_sum_delete_found attempts_left _ _ _ E) as Hd.
      pose proof (attempts_left_positive job).
      destruct ok; [lia|].
      destruct (Z.ltb_spec (j_retries job) 3) as [Hr|Hr]; [|lia].
      rewrite map_app, list_sum_app. simpl.
      pose proof (attempts_left_retried job Hr). lia.
    + intros [Hids Hlen]. split; simpl.
      * now rewrite map_delete_where_ids, Hids.
      * unfold delete_where.
        pose proof (filter_length_le
                      (fun i => negb (String.eqb i jobId))
                      (processingEmails s)). lia.
  - replace (existsb _ (in_flight s)) with false; [split; [simpl; lia | trivial]|].
    symmetry. destruct (existsb _ (in_flight s)) eqn:Ex; [|reflexivity].
    apply existsb_find_some in Ex as [x Hx]. congruence.
Qed.

(** X20. The ids in [processingEmails] are the ids of the jobs whose send
    has been started and has not finished, and there are never more than
    nine of them: a run of [processEmailQueue] starts up to five jobs
    whenever fewer than five are being processed. *)
Theorem at_most_nine_sends_in_flight es s :
  queue_ok s -> queue_ok (mail_run es s).
Proof.
  revert s. induction es as [|e es IH]; intros s H; [exact H|].
  simpl. apply IH. destruct e as [jobId ty email code| |jobId ok]; simpl.
  - exact H.
  - now apply processEmailQueue_step.
  - now apply send_finished_step.
Qed.

Lemma at_most_nine_sends_in_flight_witness :
  queue_ok (mail_run ex_mail_events ex_server) /\
  List.length (processingEmails (mail_run ex_mail_events ex_server)) = 9%nat.
Proof.
  split; [|reflexivity].
  apply (at_most_nine_sends_in_flight ex_mail_events ex_server).
  split; [reflexivity | simpl; lia].
Defined.

(** X21. Retries are bounded: along any sequence of queue events the
    number of sends that finish is at most four for every job queued on
    the way, plus what the jobs already queued or in flight have left
    (one send, and one more for each retry below three). *)
Theorem sends_are_bounded es s :
  (sends_finished es s
   <= budget s + 4 * List.length (filter is_enqueue es))%nat.
Proof.
  revert s. induction es as [|e es IH]; intros s; simpl; [lia|].
  specialize (IH (mail_step s e)).
  destruct e as [jobId ty email code| |jobId ok]; simpl in *.
  - assert (Hb : budget (push_job (mkJob jobId ty email code 0) s)
                 = (budget s + 4)%nat).
    { rewrite !budget_unfold. simpl. rewrite map_app, list_sum_app. simpl.
      unfold attempts_left. cbn [j_retries]. lia. }
    lia.
  - pose proof (proj1 (processEmailQueue_step s)). lia.
  - pose proof (proj1 (send_finished_step jobId ok s)). lia.
Qed.

(** * Bulk creation and the resent code *)




(** A bulk post with a reward of 0.004 passes the check and is stored with
    a reward of 0.00. *)
Example bulk_reward_below_half_a_hundredth :
  bulk_post_checks
    (mkPostBody "Like this" "https://example.org/p/9" "like"
                (AmountNum (2 # 5)) (BatchesArray ["A"]) None false "")
  = None /\
  map p_reward_amount
    (posts (snd (bulk_create_posts [9]
                   [mkPostBody "Like this" "https://example.org/p/9" "like"
                               (AmountNum (2 # 5)) (BatchesArray ["A"]) None
                               false ""]
                   ex_db)))
  = [15; 0].
Proof. split; reflexivity. Qed.

Lemma verify_email_accepts email code now jobId s vc u :
  email <> "" -> code <> "" ->
  In (vc, u) (open_registrations email code now s) ->
  exists s2 u',
    verify_email email code now jobId s = (VerifyOk, s2) /\
    In u' (users (sv_db s2)) /\ u_email u' = email /\
    u_is_verified u' = true.
Proof.
  intros He Hc Hopen. unfold verify_email.
  destruct (String.eqb_spec email ""); [contradiction|].
  destruct (String.eqb_spec code ""); [contradiction|]. simpl orb. cbv iota.
  destruct (open_registrations email code now s) as [|[vc' u'] rest] eqn:E;
    [destruct Hopen|].
  assert (Hin : In (vc', u') (open_registrations email code now s))
    by (rewrite E; now left).
  apply open_registrations_sound in Hin
    as (_ & _ & _ & _ & _ & _ & Huin & Hue & _).
  eexists. exists (set_is_verified true u'). split; [reflexivity|].
  repeat split; trivial. simpl. unfold update_where.
  apply in_map_iff. exists u'. rewrite Z.eqb_refl. auto.
Qed.

(** X23. POST /resend-verification answers 200 only for a stored,
    unverified address and writes nothing to the store; the code it
    issues is accepted by the handler of POST /verify-email at any time
    within the next fifteen minutes, and the codes issued before that
    have not expired stay valid beside it. *)
Theorem resent_code_can_be_verified email now vcode jobId s s1 :
  resend_verification email now vcode jobId s = (ResendOk, s1) ->
  vcode <> "" ->
  (exists u, In u (users (sv_db s)) /\ u_email u = email /\
             u_is_verified u = false) /\
  sv_db s1 = sv_db s /\
  (forall now' jobId',
     now' < now + fifteen_minutes ->
     exists s2 u,
       verify_email email vcode now' jobId' s1 = (VerifyOk, s2) /\
       In u (users (sv_db s2)) /\ u_email u = email /\
       u_is_verified u = true) /\
  (forall old now',
     now <= now' -> old <> "" ->
     open_registrations email old now' s <> [] ->
     open_registrations email old now' s1 <> []).
Proof.
  unfold resend_verification.
  destruct (String.eqb_spec email "") as [|Hemail]; [discriminate|].
  destruct (select_where _ (users (sv_db s))) as [|u rest] eqn:Es;
    [discriminate|].
  destruct (u_is_verified u) eqn:Ev; [discriminate|].
  intros [= <-] Hv.
  apply select_where_cons_find, find_some in Es as [Hin Hue].
  apply String.eqb_eq in Hue.
  split; [eauto|]. split; [reflexivity|]. split.
  - intros now' jobId' Hnow'.
    apply verify_email_accepts
      with (vc := mkCode (next_code_id s) email vcode for_register
                         (now + fifteen_minutes) false) (u := u); trivial.
    apply open_registrations_complete; try reflexivity; trivial.
    simpl. apply in_or_app. right. now left.
  - intros old now' Hnow' Hold Hopen.
    destruct (open_registrations email old now' s) as [|[vc r] more] eqn:E;
      [contradiction|].
    assert (Hvr : In (vc, r) (open_registrations email old now' s))
      by (rewrite E; now left).
    apply open_registrations_sound in Hvr
      as (Hvc & H1 & H2 & H3 & H4 & H5 & H6 & H7 & H8).
    assert (Hnew : In (vc, r) (open_registrations email old now'
                     (push_job
                        (mkJob jobId job_verification email (Some vcode) 0)
                        (insert_code email vcode for_register
                           (now + fifteen_minutes)
                           (with_codes s
                              (cleanupOldCodes email for_register now
                                 (verification_codes s))))))).
    { apply open_registrations_complete; trivial.
      simpl. apply in_or_app. left. unfold cleanupOldCodes.
      apply filter_In. split; [exact Hvc|].
      rewrite H5, orb_false_r.
      replace (vc_expires_at vc <? now) with false
        by (symmetry; apply Z.ltb_ge; lia).
      now rewrite andb_false_r. }
    intros Hnil. rewrite Hnil in Hnew. destruct Hnew.
Qed.

Lemma resent_code_can_be_verified_witness :
  exists s2 u,
    verify_email "bob@example.org" "777777" 500 "job-8"
                 (snd (resend_verification "bob@example.org" 100 "777777"
                                           "job-7" ex_server))
    = (VerifyOk, s2) /\
    In u (users (sv_db s2)) /\ u_email u = "bob@example.org" /\
    u_is_verified u = true.
Proof.
  assert (H : resend_verification "bob@example.org" 100 "777777" "job-7"
                                  ex_server
              = (ResendOk,
                 snd (resend_verification "bob@example.org" 100 "777777"
                                          "job-7" ex_server)))
    by reflexivity.
  destruct (resent_code_can_be_verified _ _ _ _ _ _ H ltac:(discriminate))
    as (_ & _ & Hok & _).
  apply Hok. reflexivity.
Defined.

(** * The dashboard and the settlement *)

Lemma post_by_own_id d p :
  NoDup (map p_id (posts d)) -> In p (posts d) ->
  post_by_id d (p_id p) = Some p.
Proof.
  intros Hids Hin. unfold post_by_id.
  destruct (find _ (posts d)) as [r|] eqn:E.
  - apply find_some in E as [Hr Hid]. apply Z.eqb_eq in Hid.
    f_equal. now apply (NoDup_map_same p_id (posts d)).
  - apply find_none with (x := p) in E; [|exact Hin].
    rewrite Z.eqb_refl in E. discriminate.
Qed.

(** X24. The dashboard lists exactly what the caller can settle. With
    unique post ids and a registered caller, a post id other than 0 is
    among the posts of GET /dashboard and not among the caller's clicks
    there if and only if POST /submit-click for it answers 200; the
    reward paid and the type returned are the ones the dashboard showed.
    The dashboard does not look at the caller's batch. *)
Theorem dashboard_lists_what_can_be_settled user d body pid :
  NoDup (map p_id (posts d)) -> registered d (ru_id user) ->
  postId body = Some pid -> pid <> 0 ->
  (forall e,
     In e (dash_posts (dashboard user d)) -> dp_id e = pid ->
     ~ In pid (dash_userClicks (dashboard user d)) ->
     exists cid del d',
       submit_click (ru_id user) body d
       = (ClickOk cid (dp_rewardAmount e) del (dp_engagementType e), d')) /\
  (forall cid rw del et d',
     submit_click (ru_id user) body d = (ClickOk cid rw del et, d') ->
     In (mkDashboardPost pid et rw) (dash_posts (dashboard user d)) /\
     ~ In pid (dash_userClicks (dashboard user d))).
Proof.
  intros Hids Hreg Hb Hpid. split.
  - intros e He Hid Hnot. simpl in He, Hnot.
    apply in_rev, in_map_iff in He as (p & <- & Hp).
    apply filter_In in Hp as [Hp Hact]. simpl in Hid. subst pid.
    destruct (submit_click_settles (ru_id user) body d (p_id p) p Hb Hpid
                (post_by_own_id d p Hids Hp) Hact) as (d' & Hs & _).
    + unfold clicks_of_pair, select_where. apply filter_nil_forall.
      intros c Hc.
      destruct (Z.eqb_spec (c_user_id c) (ru_id user)) as [Hu|]; [|reflexivity].
      destruct (Z.eqb_spec (c_post_id c) (p_id p)) as [Hcp|]; [|reflexivity].
      exfalso. apply Hnot. rewrite <- in_rev. apply in_map_iff.
      exists c. split; [exact Hcp|]. apply filter_In. split; [exact Hc|].
      now apply Z.eqb_eq.
    + now apply registered_existsb.
    + simpl. eauto.
  - intros cid rw del et d' Hs.
    apply submit_click_inv in Hs
      as (pid' & post & Hb' & _ & Hpost & Hact & Hcl & _ & _ & -> & _ & -> & _).
    rewrite Hb in Hb'. injection Hb' as <-.
    apply find_some in Hpost as [Hin Hid]. apply Z.eqb_eq in Hid.
    split.
    + simpl. rewrite <- in_rev. apply in_map_iff. exists post.
      split; [now rewrite Hid|]. apply filter_In. auto.
    + simpl. rewrite <- in_rev. intros Hc.
      apply in_map_iff in Hc as (c & Hcp & Hc).
      apply filter_In in Hc as [Hc Hu].
      assert (Hpair : In c (clicks_of_pair d (ru_id user) pid)).
      { apply filter_In. split; [exact Hc|]. rewrite Hu.
        now apply Z.eqb_eq. }
      rewrite Hcl in Hpair. destruct Hpair.
Qed.

Lemma dashboard_lists_what_can_be_settled_witness :
  exists cid del d',
    submit_click 2 ex_click_body ex_db_clicked
    = (ClickOk cid 15 del like, d').
Proof.
  assert (Hids : NoDup (map p_id (posts ex_db_clicked))).
  { simpl. repeat constructor. intros []. }
  assert (Hreg : registered ex_db_clicked (ru_id (attach_user ex_bob)))
    by discriminate.
  destruct (dashboard_lists_what_can_be_settled (attach_user ex_bob)
              ex_db_clicked ex_click_body 7 Hids Hreg eq_refl
              ltac:(discriminate)) as [H _].
  apply (H (mkDashboardPost 7 like 15)).
  - simpl. now left.
  - reflexivity.
  - simpl. intros [].
Defined.

(** * The keys of the click table *)

Lemma registered_ids d d' :
  map u_id (users d') = map u_id (users d) ->
  forall uid, registered d uid -> registered d' uid.
Proof.
  intros Hids uid. unfold registered, user_by_id.
  assert (H : forall t : list user_row,
             find (fun u => u_id u =? uid) t <> None <-> In uid (map u_id t)).
  { induction t as [|x t IH]; simpl; [tauto|].
    destruct (Z.eqb_spec (u_id x) uid); [split; [auto | discriminate]|].
    rewrite IH. split; [auto | intros [|]; [contradiction | auto]]. }
  rewrite !H, Hids. trivial.
Qed.

Lemma posts_known d d' :
  (forall p, In p (posts d) -> exists p', In p' (posts d') /\ p_id p' = p_id p) ->
  forall pid, post_by_id d pid <> None -> post_by_id d' pid <> None.
Proof.
  intros H pid Hp. unfold post_by_id in *.
  destruct (find _ (posts d)) as [p|] eqn:E; [|contradiction].
  apply find_some in E as [Hin Hid]. destruct (H p Hin) as (p' & Hin' & Hid').
  intros Hnone. apply find_none with (x := p') in Hnone; [|exact Hin'].
  rewrite Hid' in Hnone. congruence.
Qed.

Lemma clicks_kept d d' :
  clicks_ok d ->
  user_clicks d' = user_clicks d ->
  (forall uid, registered d uid -> registered d' uid) ->
  (forall pid, post_by_id d pid <> None -> post_by_id d' pid <> None) ->
  clicks_ok d'.
Proof.
  intros [Hp Hu Hpo] Hc Hreg Hposts.
  constructor; unfold unique_user_post in *; rewrite Hc; auto.
Qed.

Lemma known_same d d' :
  posts d' = posts d ->
  forall p, In p (posts d) -> exists p', In p' (posts d') /\ p_id p' = p_id p.
Proof. intros -> p Hp. eauto. Qed.

Lemma known_app d d' added :
  posts d' = (posts d ++ added)%list ->
  forall p, In p (posts d) -> exists p', In p' (posts d') /\ p_id p' = p_id p.
Proof. intros -> p Hp. exists p. split; [apply in_or_app; now left | reflexivity]. Qed.

Lemma known_update d d' cond set :
  posts d' = update_where cond set (posts d) ->
  (forall r, p_id (set r) = p_id r) ->
  forall p, In p (posts d) -> exists p', In p' (posts d') /\ p_id p' = p_id p.
Proof.
  intros -> Hset p Hp. exists (if cond p then set p else p). split.
  - unfold update_where. now apply in_map with (f := fun r => if cond r then set r else r).
  - destruct (cond p); [apply Hset | reflexivity].
Qed.

Lemma quiet_refl d : quiet d d.
Proof. repeat split. now apply known_same. Qed.

Lemma quiet_sessions d t : quiet d (with_sessions d t).
Proof. repeat split. now apply known_same. Qed.

Lemma quiet_users d cond set :
  (forall r, u_id (set r) = u_id r) ->
  quiet d (with_users d (update_where cond set (users d))).
Proof.
  intros H. split; [reflexivity|]. split; [now apply map_update_where|].
  now apply known_same.
Qed.

Lemma withdraw_quiet u body d : quiet d (snd (withdraw u body d)).
Proof.
  destruct (withdraw u body d) as [r d'] eqn:E. simpl.
  destruct r;
    try (rewrite (withdraw_failure_keeps_store _ _ _ _ _ E)
           by (intros; discriminate); apply quiet_refl).
  apply withdraw_inv in E as (_ & _ & _ & _ & _ & _ & row & wm & _ & _ & _ & Hr).
  destruct Hr as [Hru Hrw Hrs Hrp Hrc Hrb Hrn].
  split; [exact Hrc|]. split; [|now apply known_same].
  rewrite Hru. now apply map_update_where.
Qed.

Lemma process_withdrawal_quiet id st notes now d :
  quiet d (snd (process_withdrawal id st notes now d)).
Proof.
  unfold process_withdrawal.
  destruct (decision_of_string st) as [st'|]; [|apply quiet_refl].
  destruct (pending_withdrawal id d) as [|w rest]; [apply quiet_refl|].
  destruct (is_declined st'); simpl.
  - split; [reflexivity|]. split; [now apply map_update_where|].
    now apply known_same.
  - repeat split. now apply known_same.
Qed.

Lemma update_profile_quiet uid b d : quiet d (snd (update_profile uid b d)).
Proof.
  destruct (update_profile_shape uid b d) as [[_ ->] | [_ ->]];
    [apply quiet_refl | now apply quiet_users].
Qed.

Lemma toggle_verification_quiet uid v d :
  quiet d (snd (toggle_verification uid v d)).
Proof.
  unfold toggle_verification. destruct v as [v|]; [|apply quiet_refl].
  destruct (select_where _ (users d)); [apply quiet_refl|].
  now apply quiet_users.
Qed.

Lemma admin_update_user_quiet uid b d :
  quiet d (snd (admin_update_user uid b d)).
Proof.
  unfold admin_update_user.
  destruct (_ || _); [apply quiet_refl|].
  destruct (bad_earnings (ab_earnings b)); [apply quiet_refl|].
  destruct (select_where _ (users d)) as [|existing rest]; [apply quiet_refl|].
  destruct (_ && _); [apply quiet_refl|]. now apply quiet_users.
Qed.

Lemma quiet_posts_app d added : quiet d (with_posts d (posts d ++ added)).
Proof. repeat split. now apply known_app with (added := added). Qed.

Lemma create_post_quiet id p d : quiet d (snd (create_post id p d)).
Proof.
  unfold create_post. destruct (post_checks p); [apply quiet_refl|].
  destruct (insert_post id p d) as [d'|] eqn:Ei; [|apply quiet_refl].
  apply insert_post_inv in Ei as (x & -> & _). apply quiet_posts_app.
Qed.

Lemma bulk_create_posts_quiet ids ps d :
  quiet d (snd (bulk_create_posts ids ps d)).
Proof.
  unfold bulk_create_posts.
  destruct ps as [|p ps]; [apply quiet_refl|].
  destruct (first_invalid 0 (p :: ps)) as [[i e]|] eqn:Ef; [apply quiet_refl|].
  apply first_invalid_none in Ef.
  destruct (bulk_insert (p :: ps) ids d) as [[created failed] d'] eqn:E.
  destruct (bulk_insert_adds _ _ _ _ _ _ Ef E) as (added & -> & _).
  destruct failed; [|destruct created]; simpl;
    try apply quiet_refl; apply quiet_posts_app.
Qed.

Lemma toggle_post_status_quiet pid v d :
  quiet d (snd (toggle_post_status pid v d)).
Proof.
  unfold toggle_post_status. destruct v as [v|]; [|apply quiet_refl].
  destruct (existsb _ (posts d)); [|apply quiet_refl].
  repeat split. eapply known_update; [reflexivity|]. reflexivity.
Qed.

Lemma verify_email_quiet email code now jobId s :
  quiet (sv_db s) (sv_db (snd (verify_email email code now jobId s))).
Proof.
  unfold verify_email. destruct (_ || _); [apply quiet_refl|].
  destruct (open_registrations email code now s) as [|[vc u] ?];
    [apply quiet_refl|].
  simpl. now apply quiet_users.
Qed.

Lemma handle_quiet s e :
  writes_clicks e = false -> quiet (sv_db s) (sv_db (handle s e)).
Proof.
  destruct e; simpl; try discriminate; intros _.
  - apply withdraw_quiet.
  - apply process_withdrawal_quiet.
  - apply update_profile_quiet.
  - apply toggle_verification_quiet.
  - apply admin_update_user_quiet.
  - apply create_post_quiet.
  - apply bulk_create_posts_quiet.
  - apply toggle_post_status_quiet.
  - apply quiet_sessions.
  - unfold logout. destruct (cookie_or_bearer req);
      [apply quiet_sessions | apply quiet_refl].
  - apply verify_email_quiet.
  - unfold resend_verification. destruct (String.eqb email "");
      [apply quiet_refl|].
    destruct (select_where _ _) as [|u ?]; [apply quiet_refl|].
    destruct (u_is_verified u); apply quiet_refl.
  - destruct (login_db email permanentCode now loginCode jobId sessionId
                       userAgent s)
      as [-> | [uid ->]]; [apply quiet_refl | apply quiet_sessions].
  - destruct (verify_login_db email code now sessionId userAgent s)
      as [-> | [uid ->]]; [apply quiet_refl | apply quiet_sessions].
  - apply quiet_refl.
  - rewrite processEmailQueue_db. apply quiet_refl.
  - rewrite send_finished_db. apply quiet_refl.
  - apply quiet_sessions.
Qed.

Lemma quiet_keeps_clicks d d' : clicks_ok d -> quiet d d' -> clicks_ok d'.
Proof.
  intros Hok (Hc & Hu & Hp).
  apply (clicks_kept d d' Hok Hc);
    [now apply registered_ids | now apply posts_known].
Qed.

Lemma delete_user_keeps_clicks uid d : clicks_ok d -> clicks_ok (delete_user uid d).
Proof.
  intros [Hpairs Huser Hpost]. constructor.
  - unfold unique_user_post in *. simpl. now apply NoDup_map_filter.
  - intros c Hc. simpl in Hc. apply filter_In in Hc as [Hc Hne].
    unfold registered, user_by_id. simpl.
    rewrite find_delete_where_other; [now apply Huser|].
    intros x Hx. apply Z.eqb_eq in Hx. rewrite Hx.
    now apply negb_true_iff in Hne.
  - intros c Hc. simpl in Hc. apply filter_In in Hc as [Hc _].
    now apply Hpost.
Qed.

Lemma delete_post_keeps_clicks pid d :
  clicks_ok d -> clicks_ok (snd (delete_post pid d)).
Proof.
  intros Hok. pose proof Hok as [Hpairs Huser Hpost]. unfold delete_post.
  simpl posts. destruct (existsb _ (posts d)); [|exact Hok]. simpl.
  constructor.
  - unfold unique_user_post in *. simpl. now apply NoDup_map_filter.
  - intros c Hc. simpl in Hc. apply filter_In in Hc as [Hc _].
    now apply Huser.
  - intros c Hc. simpl in Hc. apply filter_In in Hc as [Hc Hne].
    unfold post_by_id. simpl.
    rewrite find_delete_where_other; [now apply Hpost|].
    intros x Hx. apply Z.eqb_eq in Hx. rewrite Hx.
    now apply negb_true_iff in Hne.
Qed.

Lemma submit_click_keeps_clicks u body d :
  clicks_ok d -> clicks_ok (snd (submit_click u body d)).
Proof.
  intros Hok. pose proof Hok as [Hpairs Huser Hpost].
  pose proof (submit_click_keeps_unique_user_post u body d Hpairs) as Hpairs'.
  destruct (submit_click u body d) as [r d'] eqn:E. simpl in *.
  destruct r;
    try (rewrite (submit_click_failure_keeps_store _ _ _ _ _ E)
           by (intros; discriminate); exact Hok).
  apply submit_click_inv in E
    as (pid & post & Hb & Hpid & Hfound & Hact & Hcl & Hu & _ & _ & -> & _ & Hs).
  destruct Hs as [Hsu Hsp Hsc Hss Hsw Hsb Hsn].
  assert (Hreg : forall uid, registered d uid -> registered d' uid).
  { apply registered_ids. rewrite Hsu. now apply map_update_where. }
  assert (Hbumped : forall c,
             In c (user_clicks d ++
                     [mkClick (next_click_id d) u pid (p_reward_amount post)]) ->
             registered d (c_user_id c) /\
             find (fun p => p_id p =? c_post_id c)
                  (update_where (fun p => p_id p =? pid)
                     (set_click_count (or_zero (p_click_count post) + 1))
                     (posts d)) <> None).
  { intros c Hc. rewrite find_update_where by reflexivity.
    apply in_app_or in Hc as [Hc|[<-|[]]].
    - split; [now apply Huser|]. specialize (Hpost c Hc).
      unfold post_by_id in Hpost.
      destruct (find _ (posts d)); [discriminate | contradiction].
    - simpl. split.
      + unfold registered, user_by_id.
        apply existsb_find_some in Hu as [x ->]. discriminate.
      + unfold post_by_id in Hfound. rewrite Hfound. discriminate. }
  constructor; trivial.
  - intros c Hc. rewrite Hsc in Hc. apply Hreg. apply Hbumped.
    simpl in Hc. destruct (limit_reached _ _); [|exact Hc].
    apply filter_In in Hc. tauto.
  - intros c Hc. rewrite Hsc in Hc. unfold post_by_id. rewrite Hsp. simpl in *.
    destruct (limit_reached _ _).
    + apply filter_In in Hc as [Hc Hne].
      rewrite find_delete_where_other; [now apply Hbumped|].
      intros x Hx. apply Z.eqb_eq in Hx. rewrite Hx.
      now apply negb_true_iff in Hne.
    + now apply Hbumped.
Qed.

Lemma register_keeps_clicks body now_ms rnd d :
  clicks_ok d -> clicks_ok (snd (register body now_ms rnd d)).
Proof.
  intros Hok. unfold register.
  destruct (0 <? _)%nat; [exact Hok|].
  destruct (0 <? _)%nat; [exact Hok|].
  set (d1 := match truthy_num (unverified_id (r_email body) d) with
             | Some uid => delete_user uid d
             | None => d
             end).
  assert (H1 : clicks_ok d1).
  { subst d1. destruct (truthy_num _); [now apply delete_user_keeps_clicks|].
    exact Hok. }
  pose proof (getNextBatch_keeps d1) as (Hu2 & _ & Hp2 & _ & _).
  assert (Hc2 : user_clicks (snd (getNextBatch d1)) = user_clicks d1).
  { unfold getNextBatch. destruct (order_by_letter_asc_limit1 _); [reflexivity|].
    simpl. unfold insert_ignore_batch. destruct (existsb _ _); reflexivity. }
  destruct (getNextBatch d1) as [batchLetter d2]. simpl in Hu2, Hp2, Hc2.
  unfold insert_user.
  destruct (existsb _ (users d2)); [exact Hok|].
  destruct (existsb (holds_code _) (users d2)); [exact Hok|].
  simpl. apply (clicks_kept d1); trivial.
  - intros uid. unfold registered, user_by_id. simpl. rewrite Hu2.
    destruct (find _ (users d1)) as [x|] eqn:E; [|contradiction].
    intros _. now rewrite (find_app_some _ _ _ _ E).
  - simpl. unfold post_by_id. simpl. now rewrite Hp2.
Qed.

Lemma handle_keeps_clicks s e :
  clicks_ok (sv_db s) -> clicks_ok (sv_db (handle s e)).
Proof.
  intros Hok. destruct (writes_clicks e) eqn:Ew.
  - destruct e; try discriminate; simpl.
    + now apply submit_click_keeps_clicks.
    + unfold admin_delete_user.
      destruct (select_where _ _); [exact Hok|].
      now apply delete_user_keeps_clicks.
    + now apply delete_post_keeps_clicks.
    + destruct (register_request_db b now now_ms rnd verificationCode jobId s)
        as [-> | ->]; [exact Hok | now apply register_keeps_clicks].
  - eapply quiet_keeps_clicks; [exact Hok|]. now apply handle_quiet.
Qed.

Lemma ex_db_clicked_clicks_ok : clicks_ok ex_db_clicked.
Proof.
  constructor.
  - unfold unique_user_post. simpl. repeat constructor. intros [].
  - intros c [<-|[]]. discriminate.
  - intros c [<-|[]]. discriminate.
Qed.

(** X25. The keys of the click table hold after every sequence of
    events: from a store in which no user has two clicks on one post and
    every click names a stored user and a stored post, the same holds
    afterwards; the deletes that the handlers spell out (of a post that
    reached its limit, of a post or a user the administrator removes, of
    the unverified user a registration replaces) leave no click behind. *)
Theorem click_keys_are_kept es s :
  clicks_ok (sv_db s) -> clicks_ok (sv_db (handle_all es s)).
Proof.
  apply (handle_all_invariant clicks_ok). exact handle_keeps_clicks.
Qed.

Lemma click_keys_are_kept_witness :
  clicks_ok (sv_db (handle_all ex_events (with_db ex_server ex_db_clicked))) /\
  user_clicks (sv_db (handle_all ex_events (with_db ex_server ex_db_clicked)))
  = [].
Proof.
  split; [|reflexivity].
  apply (click_keys_are_kept ex_events (with_db ex_server ex_db_clicked)).
  exact ex_db_clicked_clicks_ok.
Defined.

(** * POST /verify-login *)

Lemma filter_after_set_used (F : code_row -> bool) (t : list code_row) c rest :
  (forall r, F (set_used r) = false) ->
  NoDup (map vc_id t) ->
  filter F t = c :: rest ->
  filter F (update_where (fun x => vc_id x =? vc_id c) set_used t) = rest.
Proof.
  intros Hused. revert c rest.
  induction t as [|x t IH]; intros c rest Hnd H; simpl in H; [discriminate|].
  inversion Hnd as [|? ? Hx Hnd']; subst. simpl.
  destruct (F x) eqn:Ex.
  - injection H as <- <-. rewrite Z.eqb_refl, Hused.
    rewrite update_where_untouched; [reflexivity|].
    destruct (existsb _ t) eqn:E; [|reflexivity].
    apply existsb_exists in E as (y & Hy & Hid). apply Z.eqb_eq in Hid.
    exfalso. apply Hx. rewrite <- Hid. now apply in_map.
  - destruct (vc_id x =? vc_id c); [rewrite Hused | rewrite Ex]; now apply IH.
Qed.

(** X26. The handler of POST /verify-login answers 200 only on an unused,
    unexpired login code of the address and for a stored user with that
    address; it opens a seven-day session for that user and consumes the
    code: with unique code ids, the codes it would accept afterwards are
    the ones it would have accepted before without the one it used.
    Users are not written. (A request without a User-Agent header is not
    answered 200: the INSERT of the session throws and the handler
    answers 500.) *)
Theorem verify_login_consumes_the_code email code now sid userAgent s user
    s1 :
  NoDup (map vc_id (verification_codes s)) ->
  verify_login email code now sid userAgent s = (VerifyLoginOk sid user, s1) ->
  userAgent <> None /\
  exists c rest u,
    login_codes email code now s = c :: rest /\
    login_codes email code now s1 = rest /\
    In u (users (sv_db s)) /\ u_email u = email /\ user = attach_user u /\
    session_by_id (sv_db s1) sid
    = Some (mkSession sid (u_id u) (now + seven_days)) /\
    users (sv_db s1) = users (sv_db s).
Proof.
  intros Hnd H. unfold verify_login in H.
  destruct (_ || _); [discriminate|].
  destruct (select_where _ (verification_codes s)) as [|c rest] eqn:Ec;
    [discriminate|].
  destruct (select_where _ (users (sv_db s))) as [|u more] eqn:Eu;
    [discriminate|].
  destruct (insert_session sid (u_id u) (now + seven_days) userAgent
                           (sv_db s))
    as [d'|] eqn:Ei; [|discriminate].
  injection H as <- <-.
  destruct userAgent as [ua|]; [|discriminate].
  split; [discriminate|].
  apply select_where_cons_find, find_some in Eu as [Hin Hue].
  apply String.eqb_eq in Hue.
  assert (Hfresh : session_by_id (sv_db s) sid = None).
  { unfold insert_session in Ei. unfold session_by_id.
    destruct (existsb _ (sessions (sv_db s))) eqn:E; [discriminate|].
    destruct (find _ (sessions (sv_db s))) eqn:Ef; [|reflexivity].
    apply find_some_existsb in Ef. congruence. }
  apply insert_session_keeps in Ei. subst d'.
  exists c, rest, u. split; [exact Ec|]. split.
  - unfold login_codes, cleanupOldCodes, select_where. simpl.
    rewrite filter_delete_where_other.
    + apply filter_after_set_used; trivial.
      intros r. simpl. now rewrite andb_false_r.
    + intros x Hx. apply andb_prop in Hx as [Hx Hunused].
      apply andb_prop in Hx as [_ Hlive].
      apply negb_true_iff in Hunused. rewrite Hunused, orb_false_r.
      apply Z.gtb_lt in Hlive.
      replace (vc_expires_at x <? now) with false
        by (symmetry; apply Z.ltb_ge; lia).
      apply andb_false_r.
  - repeat split; trivial. simpl. now apply session_by_id_inserted.
Qed.

Lemma verify_login_consumes_the_code_witness :
  Some "Mozilla/5.0" <> None /\
  exists c rest u,
    login_codes "alice@example.org" "424242" 60 ex_server_login_code
    = c :: rest /\
    login_codes "alice@example.org" "424242" 60
      (snd (verify_login "alice@example.org" "424242" 60 "sess-alice-9"
                         (Some "Mozilla/5.0") ex_server_login_code)) = rest /\
    In u (users ex_db) /\ u_email u = "alice@example.org" /\
    attach_user ex_alice = attach_user u /\
    session_by_id
      (sv_db (snd (verify_login "alice@example.org" "424242" 60
                                "sess-alice-9" (Some "Mozilla/5.0")
                                ex_server_login_code)))
      "sess-alice-9"
    = Some (mkSession "sess-alice-9" (u_id u) (60 + seven_days)) /\
    users (sv_db (snd (verify_login "alice@example.org" "424242" 60
                                    "sess-alice-9" (Some "Mozilla/5.0")
                                    ex_server_login_code)))
    = users ex_db.
Proof.
  apply (verify_login_consumes_the_code "alice@example.org" "424242" 60
           "sess-alice-9" (Some "Mozilla/5.0") ex_server_login_code
           (attach_user ex_alice)).
  - simpl. repeat constructor. intros [].
  - reflexivity.
Defined.
